(** * Auto-Bell: the scheduling core of AutoBellTSS.ino

    A shallow embedding of the time-driven part of the sketch: the
    persistent alarm table ([saveAlarm], [readAlarm]), the weekend policy
    ([isWeekend]), the next-bell search ([findNextBell]), the clock
    commit with its day rollover ([updateTimeFromRTC]), the boot-time
    validation of the persisted settings ([setup]) and the relay control
    of the main [loop].

    The sketch keeps its state in global variables; here they are the
    fields of one record that every function takes and returns.  The two
    files of the repository differ in their start-up texts only, so one
    embedding covers both.

    Machine integers.  The sketch drives the EEPROM without
    [EEPROM.begin]/[commit] and reads its buttons on A0..A3, that is, it
    is written for the AVR boards, where [int] has 16 bits,
    [unsigned long] has 32 bits and an EEPROM cell holds one byte.  All
    values are [Z]; the casts [int], [unsigned_long] and [uint8_t] write
    out the wrap-around at the places where a value can leave its range
    (the product [bell_duration * 1000], the differences of [millis()]
    stamps, the bytes stored in the EEPROM). *)

From Stdlib Require Import ZArith Bool Lia List.
From stdpp Require Import base tactics numbers list.
Import ListNotations.
Local Open Scope Z_scope.

(** ** Constants of the sketch *)

Definition EEPROM_INIT_FLAG : Z := 0.
Definition BELL_DURATION_ADDR : Z := 10.
Definition WEEKEND_DAY_ADDR : Z := 11.
Definition ALARM_COUNT_ADDR : Z := 12.
Definition ALARM_DATA_START : Z := 50.

Definition MAX_ALARMS : Z := 30.
Definition MAX_BELL_DURATION : Z := 99.
Definition MIN_BELL_DURATION : Z := 1.

(** ** Machine integers *)

(** Conversion to the 16-bit two's complement [int]. *)
Definition int (z : Z) : Z := (z + 32768) mod 65536 - 32768.

(** Conversion to the 32-bit [unsigned long]. *)
Definition unsigned_long (z : Z) : Z := z mod 4294967296.

(** Conversion to the byte of an EEPROM cell. *)
Definition uint8_t (z : Z) : Z := z mod 256.

(** ** The EEPROM: an array of bytes *)

Module EEPROM.

(** [EEPROM.read(a)].  Every address the sketch uses is below 110; a
    lookup beyond the device is given the erased value. *)
Definition read (e : list Z) (a : Z) : Z :=
  default 255 (e !! Z.to_nat a).

(** [EEPROM.write(a, v)]: the cell keeps the low byte of [v]. *)
Definition write (a v : Z) (e : list Z) : list Z :=
  <[Z.to_nat a := uint8_t v]> e.

End EEPROM.

(** ** The clock reading: what the sketch uses of [RtcDateTime] *)

Record RtcDateTime : Type := mkRtc {
  IsValid : bool;
  Hour : Z;
  Minute : Z;
  Second : Z;
  DayOfWeek : Z   (* 0 = Sunday .. 6 = Saturday *)
}.

(** ** The global variables *)

Record state : Type := mkState {
  eeprom : list Z;
  hh : Z;
  mm : Z;
  ss : Z;
  set_day : Z;
  bell_duration : Z;
  weekend : Z;
  total_alarms : Z;
  next_bell_hour : Z;
  next_bell_minute : Z;
  next_bell_found : bool;
  rtc_valid : bool;
  last_rtc_update : Z;
  bellActive : bool;
  bellStart : Z;
  lastBellMinute : Z;
  alarms_triggered_today : list bool;
  last_checked_day : Z;
  relay : bool;       (* level of the relay pin *)
  led_bell : bool     (* level of the bell LED pin *)
}.

(** The initialisers of the globals, over the EEPROM found at power-on. *)
Definition power_on (e : list Z) : state :=
  {| eeprom := e;
     hh := 0; mm := 0; ss := 0; set_day := 0;
     bell_duration := 3; weekend := 6; total_alarms := 0;
     next_bell_hour := 0; next_bell_minute := 0; next_bell_found := false;
     rtc_valid := true;
     last_rtc_update := 0;
     bellActive := false; bellStart := 0; lastBellMinute := -1;
     alarms_triggered_today := replicate (Z.to_nat MAX_ALARMS) false;
     last_checked_day := -1;
     relay := false; led_bell := false |}.

(** Assignments to the globals. *)

Definition set_eeprom (e : list Z) (st : state) : state :=
  mkState e (hh st) (mm st) (ss st) (set_day st) (bell_duration st)
    (weekend st) (total_alarms st) (next_bell_hour st) (next_bell_minute st)
    (next_bell_found st) (rtc_valid st) (last_rtc_update st) (bellActive st)
    (bellStart st) (lastBellMinute st) (alarms_triggered_today st)
    (last_checked_day st) (relay st) (led_bell st).

Definition set_clock (h m s d : Z) (st : state) : state :=
  mkState (eeprom st) h m s d (bell_duration st)
    (weekend st) (total_alarms st) (next_bell_hour st) (next_bell_minute st)
    (next_bell_found st) (rtc_valid st) (last_rtc_update st) (bellActive st)
    (bellStart st) (lastBellMinute st) (alarms_triggered_today st)
    (last_checked_day st) (relay st) (led_bell st).

Definition set_bell_duration (v : Z) (st : state) : state :=
  mkState (eeprom st) (hh st) (mm st) (ss st) (set_day st) v
    (weekend st) (total_alarms st) (next_bell_hour st) (next_bell_minute st)
    (next_bell_found st) (rtc_valid st) (last_rtc_update st) (bellActive st)
    (bellStart st) (lastBellMinute st) (alarms_triggered_today st)
    (last_checked_day st) (relay st) (led_bell st).

Definition set_weekend (v : Z) (st : state) : state :=
  mkState (eeprom st) (hh st) (mm st) (ss st) (set_day st) (bell_duration st)
    v (total_alarms st) (next_bell_hour st) (next_bell_minute st)
    (next_bell_found st) (rtc_valid st) (last_rtc_update st) (bellActive st)
    (bellStart st) (lastBellMinute st) (alarms_triggered_today st)
    (last_checked_day st) (relay st) (led_bell st).

Definition set_total_alarms (v : Z) (st : state) : state :=
  mkState (eeprom st) (hh st) (mm st) (ss st) (set_day st) (bell_duration st)
    (weekend st) v (next_bell_hour st) (next_bell_minute st)
    (next_bell_found st) (rtc_valid st) (last_rtc_update st) (bellActive st)
    (bellStart st) (lastBellMinute st) (alarms_triggered_today st)
    (last_checked_day st) (relay st) (led_bell st).

Definition set_next_bell (h m : Z) (st : state) : state :=
  mkState (eeprom st) (hh st) (mm st) (ss st) (set_day st) (bell_duration st)
    (weekend st) (total_alarms st) h m
    (next_bell_found st) (rtc_valid st) (last_rtc_update st) (bellActive st)
    (bellStart st) (lastBellMinute st) (alarms_triggered_today st)
    (last_checked_day st) (relay st) (led_bell st).

Definition set_next_bell_found (b : bool) (st : state) : state :=
  mkState (eeprom st) (hh st) (mm st) (ss st) (set_day st) (bell_duration st)
    (weekend st) (total_alarms st) (next_bell_hour st) (next_bell_minute st)
    b (rtc_valid st) (last_rtc_update st) (bellActive st)
    (bellStart st) (lastBellMinute st) (alarms_triggered_today st)
    (last_checked_day st) (relay st) (led_bell st).

Definition set_rtc_valid (b : bool) (st : state) : state :=
  mkState (eeprom st) (hh st) (mm st) (ss st) (set_day st) (bell_duration st)
    (weekend st) (total_alarms st) (next_bell_hour st) (next_bell_minute st)
    (next_bell_found st) b (last_rtc_update st) (bellActive st)
    (bellStart st) (lastBellMinute st) (alarms_triggered_today st)
    (last_checked_day st) (relay st) (led_bell st).

Definition set_last_rtc_update (t : Z) (st : state) : state :=
  mkState (eeprom st) (hh st) (mm st) (ss st) (set_day st) (bell_duration st)
    (weekend st) (total_alarms st) (next_bell_hour st) (next_bell_minute st)
    (next_bell_found st) (rtc_valid st) t (bellActive st)
    (bellStart st) (lastBellMinute st) (alarms_triggered_today st)
    (last_checked_day st) (relay st) (led_bell st).

Definition set_bellActive (b : bool) (st : state) : state :=
  mkState (eeprom st) (hh st) (mm st) (ss st) (set_day st) (bell_duration st)
    (weekend st) (total_alarms st) (next_bell_hour st) (next_bell_minute st)
    (next_bell_found st) (rtc_valid st) (last_rtc_update st) b
    (bellStart st) (lastBellMinute st) (alarms_triggered_today st)
    (last_checked_day st) (relay st) (led_bell st).

Definition set_bellStart (t : Z) (st : state) : state :=
  mkState (eeprom st) (hh st) (mm st) (ss st) (set_day st) (bell_duration st)
    (weekend st) (total_alarms st) (next_bell_hour st) (next_bell_minute st)
    (next_bell_found st) (rtc_valid st) (last_rtc_update st) (bellActive st)
    t (lastBellMinute st) (alarms_triggered_today st)
    (last_checked_day st) (relay st) (led_bell st).

Definition set_lastBellMinute (m : Z) (st : state) : state :=
  mkState (eeprom st) (hh st) (mm st) (ss st) (set_day st) (bell_duration st)
    (weekend st) (total_alarms st) (next_bell_hour st) (next_bell_minute st)
    (next_bell_found st) (rtc_valid st) (last_rtc_update st) (bellActive st)
    (bellStart st) m (alarms_triggered_today st)
    (last_checked_day st) (relay st) (led_bell st).

Definition set_alarms_triggered_today (fl : list bool) (st : state) : state :=
  mkState (eeprom st) (hh st) (mm st) (ss st) (set_day st) (bell_duration st)
    (weekend st) (total_alarms st) (next_bell_hour st) (next_bell_minute st)
    (next_bell_found st) (rtc_valid st) (last_rtc_update st) (bellActive st)
    (bellStart st) (lastBellMinute st) fl
    (last_checked_day st) (relay st) (led_bell st).

Definition set_last_checked_day (d : Z) (st : state) : state :=
  mkState (eeprom st) (hh st) (mm st) (ss st) (set_day st) (bell_duration st)
    (weekend st) (total_alarms st) (next_bell_hour st) (next_bell_minute st)
    (next_bell_found st) (rtc_valid st) (last_rtc_update st) (bellActive st)
    (bellStart st) (lastBellMinute st) (alarms_triggered_today st)
    d (relay st) (led_bell st).

(** [digitalWrite(relay, v); digitalWrite(led_bell, v)]. *)
Definition set_pins (r l : bool) (st : state) : state :=
  mkState (eeprom st) (hh st) (mm st) (ss st) (set_day st) (bell_duration st)
    (weekend st) (total_alarms st) (next_bell_hour st) (next_bell_minute st)
    (next_bell_found st) (rtc_valid st) (last_rtc_update st) (bellActive st)
    (bellStart st) (lastBellMinute st) (alarms_triggered_today st)
    (last_checked_day st) r l.

(** [EEPROM.write(a, v)] on the state. *)
Definition EEPROM_write (a v : Z) (st : state) : state :=
  set_eeprom (EEPROM.write a v (eeprom st)) st.

(** [alarms_triggered_today[i]], for an index inside the array. *)
Definition triggered (st : state) (i : Z) : bool :=
  default false (alarms_triggered_today st !! Z.to_nat i).

(** [alarms_triggered_today[i] = b]. *)
Definition set_triggered (i : Z) (b : bool) (st : state) : state :=
  set_alarms_triggered_today
    (<[Z.to_nat i := b]> (alarms_triggered_today st)) st.

(** ** Alarm table access *)

(** [initializeEEPROM]: on a store without the 0xAA mark, write the mark
    and the defaults and zero the alarm table. *)
Definition initializeEEPROM (st : state) : state :=
  if negb (EEPROM.read (eeprom st) EEPROM_INIT_FLAG =? 170) then
    let st := EEPROM_write EEPROM_INIT_FLAG 170 st in
    let st := EEPROM_write BELL_DURATION_ADDR 30 st in
    let st := EEPROM_write WEEKEND_DAY_ADDR 6 st in
    let st := EEPROM_write ALARM_COUNT_ADDR 0 st in
    fold_left (fun s i => EEPROM_write (ALARM_DATA_START + Z.of_nat i) 0 s)
              (seq 0 (Z.to_nat (MAX_ALARMS * 2))) st
  else st.

(** [saveAlarm(index, hour, minute)]. *)
Definition saveAlarm (index hour minute : Z) (st : state) : state :=
  if (index <? 0) || (index >=? MAX_ALARMS) then st
  else
    let address := ALARM_DATA_START + index * 2 in
    let st := EEPROM_write address hour st in
    let st := EEPROM_write (address + 1) minute st in
    if index >=? total_alarms st then
      let st := set_total_alarms (index + 1) st in
      EEPROM_write ALARM_COUNT_ADDR (total_alarms st) st
    else st.

(** [readAlarm(index, hour, minute)]: the two reference parameters are
    the returned pair; the globals are not touched. *)
Definition readAlarm (st : state) (index : Z) : Z * Z :=
  if (index <? 0) || (index >=? total_alarms st) then (0, 0)
  else
    let address := ALARM_DATA_START + index * 2 in
    (EEPROM.read (eeprom st) address, EEPROM.read (eeprom st) (address + 1)).

(** ** Weekend policy *)

(** [isWeekend(day)], over the global [weekend]. *)
Definition isWeekend (st : state) (day : Z) : bool :=
  if weekend st =? 6 then (day =? 6) || (day =? 7)
  else day =? weekend st.

(** ** Next-bell finder *)

(** The test of the scan of [findNextBell] at slot [i]. *)
Definition is_future (st : state) (i : Z) : bool :=
  let '(check_hour, check_minute) := readAlarm st i in
  (check_hour >? hh st) || ((check_hour =? hh st) && (check_minute >? mm st)).

Definition is_current_untriggered (st : state) (i : Z) : bool :=
  let '(check_hour, check_minute) := readAlarm st i in
  (check_hour =? hh st) && (check_minute =? mm st) && negb (triggered st i).

(** The [for] loop of [findNextBell], with [n] slots left from [i] on:
    the slot at which it returns, or [None] when it runs to its end. *)
Fixpoint findNextBell_for (n : nat) (i : Z) (st : state) : option Z :=
  match n with
  | O => None
  | S n' =>
      if is_future st i || is_current_untriggered st i then Some i
      else findNextBell_for n' (i + 1) st
  end.

Definition findNextBell (st : state) : state :=
  let st := set_next_bell_found false st in
  if isWeekend st (set_day st) then st
  else if total_alarms st =? 0 then st
  else
    match findNextBell_for (Z.to_nat (total_alarms st)) 0 st with
    | Some i =>
        let '(h, m) := readAlarm st i in
        set_next_bell_found true (set_next_bell h m st)
    | None =>
        if total_alarms st >? 0 then
          let '(h, m) := readAlarm st 0 in
          set_next_bell_found true (set_next_bell h m st)
        else st
    end.

(** What the display announces as the next bell. *)
Definition next_bell (st : state) : option (Z * Z) :=
  if next_bell_found st then Some (next_bell_hour st, next_bell_minute st)
  else None.

(** ** Clock commit and day rollover *)

(** The loop that clears [alarms_triggered_today[0 .. MAX_ALARMS-1]]. *)
Definition clear_triggered (st : state) : state :=
  fold_left (fun s i => set_triggered (Z.of_nat i) false s)
            (seq 0 (Z.to_nat MAX_ALARMS)) st.

(** [updateTimeFromRTC], on the reading [now] that [Rtc.GetDateTime()]
    returned. *)
Definition updateTimeFromRTC (now : RtcDateTime) (st : state) : state :=
  if IsValid now then
    let old_day := set_day st in
    let dow := DayOfWeek now in
    let st := set_clock (Hour now) (Minute now) (Second now) (dow + 1) st in
    let st :=
      if negb (old_day =? set_day st) then
        set_lastBellMinute (-1) (clear_triggered st)
      else st in
    set_rtc_valid true st
  else
    set_rtc_valid false st.

(** [checkForAlarms] has an empty body. *)
Definition checkForAlarms (st : state) : state := st.

(** ** The main loop *)

(** The condition under which slot [i] fires in the scan of [loop]. *)
Definition fires (st : state) (i : Z) : bool :=
  let '(check_hour, check_minute) := readAlarm st i in
  (check_hour =? hh st) && (check_minute =? mm st)
  && negb (triggered st i) && negb (lastBellMinute st =? mm st).

(** The body of the [if] of the scan: the bell is started for slot [i]. *)
Definition start_bell (i current_millis : Z) (st : state) : state :=
  let st := set_triggered i true st in
  let st := set_lastBellMinute (mm st) st in
  let st := set_pins true true st in
  let st := set_bellStart current_millis st in
  let st := set_bellActive true st in
  findNextBell st.

(** The [for] loop of the scan with its [break], [n] slots left from [i]. *)
Fixpoint loop_for (n : nat) (i current_millis : Z) (st : state) : state :=
  match n with
  | O => st
  | S n' =>
      if fires st i then start_bell i current_millis st
      else loop_for n' (i + 1) current_millis st
  end.

(** The threshold of the stop test, [(unsigned long)(bell_duration * 1000)]:
    the product is an [int], converted afterwards. *)
Definition bell_millis (st : state) : Z :=
  unsigned_long (int (bell_duration st * 1000)).

(** The three parts of the body of [loop], in the order of the source.

    "Update RTC time every second": the clock is read in the iterations
    that are at least 1000 ms after the last poll; [now] is the reading
    [Rtc.GetDateTime()] gives there. *)
Definition loop_poll (now : RtcDateTime) (current_millis : Z) (st : state)
  : state :=
  if unsigned_long (current_millis - last_rtc_update st) >=? 1000 then
    let st := set_last_rtc_update current_millis st in
    let st := updateTimeFromRTC now st in
    if negb (isWeekend st (set_day st)) then checkForAlarms st else st
  else st.

(** "START BELL (moment of match only)". *)
Definition loop_start (current_millis : Z) (st : state) : state :=
  if negb (bellActive st) && negb (isWeekend st (set_day st)) then
    loop_for (Z.to_nat (total_alarms st)) 0 current_millis st
  else st.

(** "STOP BELL AFTER DURATION". *)
Definition loop_stop (current_millis : Z) (st : state) : state :=
  if bellActive st
     && (unsigned_long (current_millis - bellStart st) >=? bell_millis st)
  then set_bellActive false (set_pins false false st)
  else st.

(** One iteration of [loop], for the value [current_millis] of [millis()].
    The four buttons are released, so that [handleButtons] changes none of
    the variables of the state, and the display is not modelled. *)
Definition loop (now : RtcDateTime) (current_millis : Z) (st : state) : state :=
  loop_stop current_millis
    (loop_start current_millis (loop_poll now current_millis st)).

(** Consecutive iterations, one per element of the list. *)
Definition run (ticks : list (RtcDateTime * Z)) (st : state) : state :=
  fold_left (fun s t => loop (fst t) (snd t) s) ticks st.

(** ** Boot *)

(** [quickBellTest] leaves the relay and the bell LED low. *)
Definition quickBellTest (st : state) : state := set_pins false false st.

(** "Read settings" and "Validate settings" of [setup]. *)
Definition setup_settings (st : state) : state :=
  let st := set_bell_duration (EEPROM.read (eeprom st) BELL_DURATION_ADDR) st in
  let st := set_weekend (EEPROM.read (eeprom st) WEEKEND_DAY_ADDR) st in
  let st := set_total_alarms (EEPROM.read (eeprom st) ALARM_COUNT_ADDR) st in
  let st :=
    if (bell_duration st <? MIN_BELL_DURATION)
       || (bell_duration st >? MAX_BELL_DURATION) then
      let st := set_bell_duration 3 st in
      EEPROM_write BELL_DURATION_ADDR (bell_duration st) st
    else st in
  let st :=
    if (weekend st <? 1) || (weekend st >? 7) then
      let st := set_weekend 6 st in
      EEPROM_write WEEKEND_DAY_ADDR (weekend st) st
    else st in
  if total_alarms st >? MAX_ALARMS then
    let st := set_total_alarms 0 st in
    EEPROM_write ALARM_COUNT_ADDR (total_alarms st) st
  else st.

(** [setup], for the reading [now] of its call of [updateTimeFromRTC]. *)
Definition setup (now : RtcDateTime) (st : state) : state :=
  let st := set_pins false false st in
  let st := initializeEEPROM st in
  let st := setup_settings st in
  let st := updateTimeFromRTC now st in
  let st := set_last_checked_day (set_day st) st in
  let st := findNextBell st in
  quickBellTest st.

(** ** Predicates of the statements *)

(** The store is large enough for the settings and the alarm table. *)
Definition holds_table (e : list Z) : Prop :=
  ALARM_DATA_START + 2 * MAX_ALARMS <= Z.of_nat (length e).

(** Slot [i] stops the scan of [findNextBell]. *)
Definition eligible (st : state) (i : Z) : bool :=
  is_future st i || is_current_untriggered st i.

(** The test of the scan in the words of the specification: the stored
    pair is strictly later than the current (hour, minute), *)
Definition strictly_later (st : state) (hm : Z * Z) : Prop :=
  hh st < fst hm \/ (fst hm = hh st /\ mm st < snd hm).

(** or it is exactly the current (hour, minute) and the slot has not been
    triggered today. *)
Definition due_untriggered (st : state) (i : Z) : Prop :=
  readAlarm st i = (hh st, mm st) /\ triggered st i = false.

Definition qualifies (st : state) (i : Z) : Prop :=
  strictly_later st (readAlarm st i) \/ due_untriggered st i.

(** The elapsed time, in milliseconds, that the stop test of [loop]
    compares with the duration. *)
Definition elapsed (current_millis : Z) (st : state) : Z :=
  unsigned_long (current_millis - bellStart st).

(** The iteration polls the clock. *)
Definition polls (current_millis : Z) (st : state) : bool :=
  unsigned_long (current_millis - last_rtc_update st) >=? 1000.

(** The flags after the clearing loop of the day rollover. *)
Definition cleared (fl : list bool) : list bool :=
  fold_left (fun l i => <[i := false]> l) (seq 0 (Z.to_nat MAX_ALARMS)) fl.

(** Groups of variables, for the statements on what a function leaves
    alone. *)
Definition settings_view (st : state) : list Z * Z * Z * Z :=
  (eeprom st, bell_duration st, weekend st, total_alarms st).

Definition clock_view (st : state) : Z * Z * Z * Z :=
  (hh st, mm st, ss st, set_day st).

Definition bell_view (st : state) : bool * Z * bool * bool :=
  (bellActive st, bellStart st, relay st, led_bell st).

Definition trigger_view (st : state) : list bool * Z :=
  (alarms_triggered_today st, lastBellMinute st).

(** The table holds the duplicate entries (8,0), (8,0); slot 1 has not
    fired, and slot 0 has fired only if the last bell rang at minute 0. *)
Definition duplicate_table (st : state) : Prop :=
  total_alarms st = 2
  /\ readAlarm st 0 = (8, 0)
  /\ readAlarm st 1 = (8, 0)
  /\ length (alarms_triggered_today st) = Z.to_nat MAX_ALARMS
  /\ triggered st 1 = false
  /\ (triggered st 0 = true -> lastBellMinute st = 0).

(** The table (8,0), (9,0) once the bell of 08:00 has rung: slot 0 is
    triggered, slot 1 is not, and [lastBellMinute] is 0. *)
Definition hourly_after_first (st : state) : Prop :=
  total_alarms st = 2
  /\ readAlarm st 0 = (8, 0)
  /\ readAlarm st 1 = (9, 0)
  /\ triggered st 0 = true
  /\ triggered st 1 = false
  /\ lastBellMinute st = 0.

(** Every reading of the iterations fails or is of day [d]. *)
Definition same_day (d : Z) (ticks : list (RtcDateTime * Z)) : Prop :=
  Forall (fun t => IsValid (fst t) = false \/ DayOfWeek (fst t) + 1 = d) ticks.

(** ** Sample data *)

(** An erased 1 KiB EEPROM. *)
Definition erased : list Z := replicate 1024 255.

(** A valid reading: day of week (0 = Sunday), hour, minute, second. *)
Definition at_time (dow h m s : Z) : RtcDateTime := mkRtc true h m s dow.

(** A failed reading. *)
Definition no_time : RtcDateTime := mkRtc false 0 0 0 0.

(** The state after a first boot on an erased store, a Monday at 07:00:00. *)
Definition first_boot : state := setup (at_time 1 7 0 0) (power_on erased).

(** The table [(9,0); (8,0)], entered after a first boot, on a Monday at
    08:30:00. *)
Definition out_of_order_0830 : state :=
  updateTimeFromRTC (at_time 1 8 30 0)
    (saveAlarm 1 8 0 (saveAlarm 0 9 0 first_boot)).

(** The duplicate table (8,0), (8,0), entered after a first boot. *)
Definition duplicates : state :=
  findNextBell (saveAlarm 1 8 0 (saveAlarm 0 8 0 first_boot)).

(** A Monday morning over [duplicates]: polls at 07:59:59 and at 08:00:00,
    where the bell starts, iterations during the 30 s of the bell, its
    end, and polls until 08:01:00. *)
Definition duplicates_morning : list (RtcDateTime * Z) :=
  [ (at_time 1 7 59 59, 3599000); (at_time 1 8 0 0, 3600000);
    (at_time 1 8 0 0, 3600010); (at_time 1 8 0 1, 3601000);
    (at_time 1 8 0 30, 3630000); (at_time 1 8 0 30, 3630010);
    (at_time 1 8 0 31, 3631000); (at_time 1 8 0 59, 3659000);
    (at_time 1 8 1 0, 3660000) ].

(** The table (8,0), (8,1), entered after a first boot with its bell
    duration of 30 s. *)
Definition two_minutes : state :=
  findNextBell (saveAlarm 1 8 1 (saveAlarm 0 8 0 first_boot)).

(** Over [two_minutes]: the bell of 08:00 starts at 08:00:45, is still on
    at 08:01:10 and ends 30 s after its start, in an iteration whose
    reading fails. *)
Definition two_minutes_bell : list (RtcDateTime * Z) :=
  [ (at_time 1 8 0 45, 3645000); (at_time 1 8 1 10, 3670000);
    (no_time, 3675000) ].

(** The table (8,0), the bell duration set to 33 s in the editor (the
    variable and its EEPROM cell), and the bell of a Monday 08:00:00
    started at 3600000 ms. *)
Definition bell_of_33_seconds : state :=
  loop (at_time 1 8 0 0) 3600000
    (findNextBell
       (saveAlarm 0 8 0
          (EEPROM_write BELL_DURATION_ADDR 33
             (set_bell_duration 33 first_boot)))).

(** The table (8,0) after a boot on a Thursday at 07:00:00, its bell rung
    at 08:00:00 and ended, and the clock polled at 23:59:59. *)
Definition thursday_night : state :=
  run [ (at_time 4 8 0 0, 3600000); (at_time 4 8 0 30, 3630000);
        (at_time 4 23 59 59, 61199000) ]
      (findNextBell
         (saveAlarm 0 8 0 (setup (at_time 4 7 0 0) (power_on erased)))).

(** The table (8,0), (9,0), entered after a first boot. *)
Definition hourly : state :=
  findNextBell (saveAlarm 1 9 0 (saveAlarm 0 8 0 first_boot)).

(** [hourly] at 08:30:00 and at 09:00:00 of the Monday, no bell rung. *)
Definition hourly_0830 : state :=
  updateTimeFromRTC (at_time 1 8 30 0) hourly.

Definition hourly_0900 : state :=
  updateTimeFromRTC (at_time 1 9 0 0) hourly.

(** [thursday_night] polled at 00:00:00 of the Friday. *)
Definition friday_midnight : state :=
  loop (at_time 5 0 0 0) 61200000 thursday_night.

(** A Monday over [hourly]: the bell of 08:00 rings and ends. *)
Definition hourly_first_bell : list (RtcDateTime * Z) :=
  [ (at_time 1 8 0 0, 3600000); (at_time 1 8 0 30, 3630000);
    (at_time 1 8 0 31, 3631000) ].

(** The polls of the minute 09:00 of that Monday, and one at 09:01:00. *)
Definition hourly_second_bell : list (RtcDateTime * Z) :=
  [ (at_time 1 8 59 59, 7199000); (at_time 1 9 0 0, 7200000);
    (at_time 1 9 0 0, 7200010); (at_time 1 9 0 1, 7201000);
    (at_time 1 9 0 30, 7230000); (at_time 1 9 0 59, 7259000);
    (at_time 1 9 1 0, 7260000) ].

(** A marked store whose three settings are out of their domains: a bell
    duration of 150, a weekend selector of 0, an alarm count of 200. *)
Definition corrupt_store : list Z :=
  EEPROM.write ALARM_COUNT_ADDR 200
    (EEPROM.write WEEKEND_DAY_ADDR 0
       (EEPROM.write BELL_DURATION_ADDR 150 (eeprom first_boot))).

(** Two stores without the 0xAA mark: an erased one with a persisted bell
    duration of 150, and one with the persisted settings 45, 3 and 1. *)
Definition unmarked_150 : list Z :=
  EEPROM.write BELL_DURATION_ADDR 150 erased.

Definition unmarked_in_domain : list Z :=
  EEPROM.write ALARM_COUNT_ADDR 1
    (EEPROM.write WEEKEND_DAY_ADDR 3
       (EEPROM.write BELL_DURATION_ADDR 45 erased)).

(** * The editor and the rest of the sketch

    [handleButtons], [resetAllAlarms], [setRTCTime], the cursor part of
    [loop] and the count-down of [updateDisplay].  The variables these
    functions add to the ones of [state] are the fields of [editor]; a
    [sketch] is the pair of both. *)

(** ** The variables of the editor *)

Record editor : Type := mkEditor {
  setMode : Z;
  field : Z;
  current_alarm : Z;
  alarm_hour : Z;
  alarm_minute : Z;
  show_cursor : bool;
  cursor_blink_time : Z;
  last_button_time : Z;
  btn_set_prev : bool;      (* the four statics of handleButtons; *)
  btn_next_prev : bool;     (* true is HIGH, the released level   *)
  btn_up_prev : bool;
  btn_down_prev : bool;
  reset_start_time : Z;
  rtc_set : list (Z * Z * Z)  (* the (hh, mm, ss) that [setRTCTime] has
                                 given to Rtc.SetDateTime, last first *)
}.

Record sketch : Type := mkSketch {
  core : state;
  edit : editor
}.

(** The levels [digitalRead] finds on the four button pins; true is HIGH
    (released), false is LOW (pressed). *)
Record buttons : Type := mkButtons {
  bt_set : bool;
  bt_next : bool;
  bt_up : bool;
  bt_down : bool
}.

(** The initialisers of the editor's globals and statics. *)
Definition editor_on : editor :=
  {| setMode := 0; field := 0; current_alarm := 1;
     alarm_hour := 8; alarm_minute := 0;
     show_cursor := false; cursor_blink_time := 0;
     last_button_time := 0;
     btn_set_prev := true; btn_next_prev := true;
     btn_up_prev := true; btn_down_prev := true;
     reset_start_time := 0;
     rtc_set := [] |}.

(** Assignments to the editor's variables. *)

Definition set_last_button_time (t : Z) (e : editor) : editor :=
  mkEditor (setMode e) (field e) (current_alarm e) (alarm_hour e)
    (alarm_minute e) (show_cursor e) (cursor_blink_time e) t
    (btn_set_prev e) (btn_next_prev e) (btn_up_prev e) (btn_down_prev e)
    (reset_start_time e) (rtc_set e).

Definition set_setMode (m : Z) (e : editor) : editor :=
  mkEditor m (field e) (current_alarm e) (alarm_hour e)
    (alarm_minute e) (show_cursor e) (cursor_blink_time e)
    (last_button_time e)
    (btn_set_prev e) (btn_next_prev e) (btn_up_prev e) (btn_down_prev e)
    (reset_start_time e) (rtc_set e).

Definition set_field (f : Z) (e : editor) : editor :=
  mkEditor (setMode e) f (current_alarm e) (alarm_hour e)
    (alarm_minute e) (show_cursor e) (cursor_blink_time e)
    (last_button_time e)
    (btn_set_prev e) (btn_next_prev e) (btn_up_prev e) (btn_down_prev e)
    (reset_start_time e) (rtc_set e).

Definition set_current_alarm (a : Z) (e : editor) : editor :=
  mkEditor (setMode e) (field e) a (alarm_hour e)
    (alarm_minute e) (show_cursor e) (cursor_blink_time e)
    (last_button_time e)
    (btn_set_prev e) (btn_next_prev e) (btn_up_prev e) (btn_down_prev e)
    (reset_start_time e) (rtc_set e).

(** The two reference parameters of [readAlarm(i, alarm_hour,
    alarm_minute)], or the two assignments of the defaults. *)
Definition set_alarm_time (hm : Z * Z) (e : editor) : editor :=
  mkEditor (setMode e) (field e) (current_alarm e) (fst hm)
    (snd hm) (show_cursor e) (cursor_blink_time e)
    (last_button_time e)
    (btn_set_prev e) (btn_next_prev e) (btn_up_prev e) (btn_down_prev e)
    (reset_start_time e) (rtc_set e).

Definition set_cursor (b : bool) (t : Z) (e : editor) : editor :=
  mkEditor (setMode e) (field e) (current_alarm e) (alarm_hour e)
    (alarm_minute e) b t
    (last_button_time e)
    (btn_set_prev e) (btn_next_prev e) (btn_up_prev e) (btn_down_prev e)
    (reset_start_time e) (rtc_set e).

Definition set_btn_set_prev (b : bool) (e : editor) : editor :=
  mkEditor (setMode e) (field e) (current_alarm e) (alarm_hour e)
    (alarm_minute e) (show_cursor e) (cursor_blink_time e)
    (last_button_time e)
    b (btn_next_prev e) (btn_up_prev e) (btn_down_prev e)
    (reset_start_time e) (rtc_set e).

Definition set_btn_next_prev (b : bool) (e : editor) : editor :=
  mkEditor (setMode e) (field e) (current_alarm e) (alarm_hour e)
    (alarm_minute e) (show_cursor e) (cursor_blink_time e)
    (last_button_time e)
    (btn_set_prev e) b (btn_up_prev e) (btn_down_prev e)
    (reset_start_time e) (rtc_set e).

Definition set_btn_up_prev (b : bool) (e : editor) : editor :=
  mkEditor (setMode e) (field e) (current_alarm e) (alarm_hour e)
    (alarm_minute e) (show_cursor e) (cursor_blink_time e)
    (last_button_time e)
    (btn_set_prev e) (btn_next_prev e) b (btn_down_prev e)
    (reset_start_time e) (rtc_set e).

Definition set_btn_down_prev (b : bool) (e : editor) : editor :=
  mkEditor (setMode e) (field e) (current_alarm e) (alarm_hour e)
    (alarm_minute e) (show_cursor e) (cursor_blink_time e)
    (last_button_time e)
    (btn_set_prev e) (btn_next_prev e) (btn_up_prev e) b
    (reset_start_time e) (rtc_set e).

Definition set_reset_start_time (t : Z) (e : editor) : editor :=
  mkEditor (setMode e) (field e) (current_alarm e) (alarm_hour e)
    (alarm_minute e) (show_cursor e) (cursor_blink_time e)
    (last_button_time e)
    (btn_set_prev e) (btn_next_prev e) (btn_up_prev e) (btn_down_prev e)
    t (rtc_set e).

Definition set_rtc_set (l : list (Z * Z * Z)) (e : editor) : editor :=
  mkEditor (setMode e) (field e) (current_alarm e) (alarm_hour e)
    (alarm_minute e) (show_cursor e) (cursor_blink_time e)
    (last_button_time e)
    (btn_set_prev e) (btn_next_prev e) (btn_up_prev e) (btn_down_prev e)
    (reset_start_time e) l.

(** A function of the scheduling variables, and one of the editor's, on
    the sketch. *)
Definition on_core (f : state -> state) (s : sketch) : sketch :=
  mkSketch (f (core s)) (edit s).

Definition on_edit (f : editor -> editor) (s : sketch) : sketch :=
  mkSketch (core s) (f (edit s)).

(** ** Factory reset and clock setting *)

(** [resetAllAlarms]: the count and the table are zeroed, the flags
    cleared, the bell forced off; the feedback blinks leave the bell LED
    low. *)
Definition resetAllAlarms (st : state) : state :=
  let st := set_total_alarms 0 st in
  let st := EEPROM_write ALARM_COUNT_ADDR 0 st in
  let st :=
    fold_left (fun s i => EEPROM_write (ALARM_DATA_START + Z.of_nat i) 0 s)
              (seq 0 (Z.to_nat (MAX_ALARMS * 2))) st in
  let st := clear_triggered st in
  let st := set_bellActive false st in
  let st := set_lastBellMinute (-1) st in
  let st := set_pins false false st in
  findNextBell st.

(** [setRTCTime]: the clock is given the date it holds with the time of
    [hh], [mm], [ss]. *)
Definition setRTCTime (s : sketch) : sketch :=
  on_edit (set_rtc_set ((hh (core s), mm (core s), ss (core s))
                          :: rtc_set (edit s))) s.

(** ** The buttons *)

(** The test of a button in [handleButtons]: the pin is LOW, it was HIGH
    at the call before, and more than [window] ms have passed since the
    last accepted press. *)
Definition accepted (pin prev : bool) (window current_millis : Z)
           (s : sketch) : bool :=
  negb pin && prev
  && (unsigned_long (current_millis - last_button_time (edit s)) >? window).

(** The alarm the editor shows for [current_alarm]: the stored one, or
    08:00 beyond the table. *)
Definition shown_alarm (st : state) (a : Z) : Z * Z :=
  if a <=? total_alarms st then readAlarm st (a - 1) else (8, 0).

(** The body of the SET test: the next mode. *)
Definition press_set (current_millis : Z) (s : sketch) : sketch :=
  let s := on_edit (set_last_button_time current_millis) s in
  let s := on_edit (set_setMode (Z.rem (setMode (edit s) + 1) 5)) s in
  let s := on_edit (set_field 0) s in
  if setMode (edit s) =? 3 then
    let s := on_edit (set_current_alarm 1) s in
    if total_alarms (core s) >? 0 then
      on_edit (set_alarm_time (readAlarm (core s) 0)) s
    else on_edit (set_alarm_time (8, 0)) s
  else s.

(** The steps of the NEXT test when an alarm is committed, in the order
    of the source: the alarm is saved in its slot; *)
Definition save_current_alarm (s : sketch) : sketch :=
  on_core (saveAlarm (current_alarm (edit s) - 1)
             (alarm_hour (edit s)) (alarm_minute (edit s))) s.

(** the number moves to the next alarm, from the last one to the first; *)
Definition next_alarm_number (s : sketch) : sketch :=
  let s := on_edit (set_current_alarm (current_alarm (edit s) + 1)) s in
  if current_alarm (edit s) >? MAX_ALARMS then
    on_edit (set_current_alarm 1) s
  else s.

(** the count is raised to the new number; *)
Definition extend_total_alarms (s : sketch) : sketch :=
  if current_alarm (edit s) >? total_alarms (core s) then
    let s := on_core (set_total_alarms (current_alarm (edit s))) s in
    on_core (EEPROM_write ALARM_COUNT_ADDR (total_alarms (core s))) s
  else s.

(** the alarm of the new number is read. *)
Definition load_current_alarm (s : sketch) : sketch :=
  on_edit (set_alarm_time (shown_alarm (core s) (current_alarm (edit s)))) s.

(** The body of the NEXT test: the next field; in the alarm mode, the
    step from the minute back to the number commits the alarm. *)
Definition press_next (current_millis : Z) (s : sketch) : sketch :=
  let s := on_edit (set_last_button_time current_millis) s in
  if setMode (edit s) =? 1 then
    on_edit (set_field (Z.rem (field (edit s) + 1) 2)) s
  else if setMode (edit s) =? 3 then
    let s := on_edit (set_field (Z.rem (field (edit s) + 1) 3)) s in
    if field (edit s) =? 0 then
      on_core findNextBell
        (load_current_alarm
           (extend_total_alarms
              (next_alarm_number (save_current_alarm s))))
    else s
  else s.

(** The body of the UP test. *)
Definition press_up (current_millis : Z) (s : sketch) : sketch :=
  let s := on_edit (set_last_button_time current_millis) s in
  let st := core s in
  let e := edit s in
  if setMode e =? 0 then
    let d := set_day st + 1 in
    let d := if d >? 7 then 1 else d in
    on_core (fun st => findNextBell (set_clock (hh st) (mm st) (ss st) d st)) s
  else if setMode e =? 1 then
    let s :=
      if field e =? 0 then
        on_core (set_clock (Z.rem (hh st + 1) 24) (mm st) (ss st) (set_day st)) s
      else
        on_core (set_clock (hh st) (Z.rem (mm st + 1) 60) (ss st) (set_day st)) s
    in
    on_core findNextBell (setRTCTime s)
  else if setMode e =? 2 then
    let v := bell_duration st + 1 in
    let v := if v >? MAX_BELL_DURATION then MIN_BELL_DURATION else v in
    on_core (fun st => EEPROM_write BELL_DURATION_ADDR v
                         (set_bell_duration v st)) s
  else if setMode e =? 3 then
    if field e =? 0 then
      let a := current_alarm e + 1 in
      let a := if a >? MAX_ALARMS then 1 else a in
      on_edit (fun e => set_alarm_time (shown_alarm st a)
                          (set_current_alarm a e)) s
    else if field e =? 1 then
      on_edit (set_alarm_time (Z.rem (alarm_hour e + 1) 24, alarm_minute e)) s
    else if field e =? 2 then
      on_edit (set_alarm_time (alarm_hour e, Z.rem (alarm_minute e + 1) 60)) s
    else s
  else if setMode e =? 4 then
    let v := weekend st + 1 in
    let v := if v >? 7 then 1 else v in
    on_core (fun st => findNextBell
                         (EEPROM_write WEEKEND_DAY_ADDR v (set_weekend v st))) s
  else s.

(** The body of the DOWN test. *)
Definition press_down (current_millis : Z) (s : sketch) : sketch :=
  let s := on_edit (set_last_button_time current_millis) s in
  let st := core s in
  let e := edit s in
  if setMode e =? 0 then
    let d := set_day st - 1 in
    let d := if d <? 1 then 7 else d in
    on_core (fun st => findNextBell (set_clock (hh st) (mm st) (ss st) d st)) s
  else if setMode e =? 1 then
    let s :=
      if field e =? 0 then
        let h := hh st - 1 in
        let h := if h <? 0 then 23 else h in
        on_core (set_clock h (mm st) (ss st) (set_day st)) s
      else
        let m := mm st - 1 in
        let m := if m <? 0 then 59 else m in
        on_core (set_clock (hh st) m (ss st) (set_day st)) s
    in
    on_core findNextBell (setRTCTime s)
  else if setMode e =? 2 then
    let v := bell_duration st - 1 in
    let v := if v <? MIN_BELL_DURATION then MAX_BELL_DURATION else v in
    on_core (fun st => EEPROM_write BELL_DURATION_ADDR v
                         (set_bell_duration v st)) s
  else if setMode e =? 3 then
    if field e =? 0 then
      let a := current_alarm e - 1 in
      let a := if a <? 1 then MAX_ALARMS else a in
      on_edit (fun e => set_alarm_time (shown_alarm st a)
                          (set_current_alarm a e)) s
    else if field e =? 1 then
      let h := alarm_hour e - 1 in
      let h := if h <? 0 then 23 else h in
      on_edit (set_alarm_time (h, alarm_minute e)) s
    else if field e =? 2 then
      let m := alarm_minute e - 1 in
      let m := if m <? 0 then 59 else m in
      on_edit (set_alarm_time (alarm_hour e, m)) s
    else s
  else if setMode e =? 4 then
    let v := weekend st - 1 in
    let v := if v <? 1 then 7 else v in
    on_core (fun st => findNextBell
                         (EEPROM_write WEEKEND_DAY_ADDR v (set_weekend v st))) s
  else s.

(** The end of [handleButtons]: SET and NEXT held together for more than
    5000 ms reset the alarms. *)
Definition reset_gesture (pins : buttons) (current_millis : Z) (s : sketch)
  : sketch :=
  if negb (bt_set pins) && negb (bt_next pins) then
    if reset_start_time (edit s) =? 0 then
      on_edit (set_reset_start_time current_millis) s
    else if unsigned_long (current_millis - reset_start_time (edit s)) >? 5000
    then
      on_edit (set_reset_start_time 0) (on_core resetAllAlarms s)
    else s
  else on_edit (set_reset_start_time 0) s.

(** The four button blocks of [handleButtons]: the test with its body,
    and the level stored for the next call. *)
Definition handle_set (pins : buttons) (current_millis : Z) (s : sketch)
  : sketch :=
  on_edit (set_btn_set_prev (bt_set pins))
    (if accepted (bt_set pins) (btn_set_prev (edit s)) 300 current_millis s
     then press_set current_millis s else s).

Definition handle_next (pins : buttons) (current_millis : Z) (s : sketch)
  : sketch :=
  on_edit (set_btn_next_prev (bt_next pins))
    (if accepted (bt_next pins) (btn_next_prev (edit s)) 300 current_millis s
     then press_next current_millis s else s).

Definition handle_up (pins : buttons) (current_millis : Z) (s : sketch)
  : sketch :=
  on_edit (set_btn_up_prev (bt_up pins))
    (if accepted (bt_up pins) (btn_up_prev (edit s)) 200 current_millis s
     then press_up current_millis s else s).

Definition handle_down (pins : buttons) (current_millis : Z) (s : sketch)
  : sketch :=
  on_edit (set_btn_down_prev (bt_down pins))
    (if accepted (bt_down pins) (btn_down_prev (edit s)) 200 current_millis s
     then press_down current_millis s else s).

(** [handleButtons], for the levels [pins] of the four pins and the value
    [current_millis] that [millis()] has in it. *)
Definition handleButtons (pins : buttons) (current_millis : Z) (s : sketch)
  : sketch :=
  reset_gesture pins current_millis
    (handle_down pins current_millis
       (handle_up pins current_millis
          (handle_next pins current_millis
             (handle_set pins current_millis s)))).

(** "Handle cursor blinking in settings modes". *)
Definition loop_cursor (current_millis : Z) (e : editor) : editor :=
  if setMode e >? 0 then
    if unsigned_long (current_millis - cursor_blink_time e) >=? 500 then
      set_cursor (negb (show_cursor e)) current_millis e
    else e
  else set_cursor false (cursor_blink_time e) e.

(** One iteration of [loop] with its buttons: [current_millis] is the
    value of [millis()] at its top, [button_millis] the one read in
    [handleButtons]. *)
Definition loop_buttons (now : RtcDateTime) (current_millis : Z)
           (pins : buttons) (button_millis : Z) (s : sketch) : sketch :=
  let s := on_core (loop now current_millis) s in
  let s := handleButtons pins button_millis s in
  on_edit (loop_cursor current_millis) s.

(** Consecutive iterations with their buttons. *)
Definition run_buttons (ticks : list (RtcDateTime * Z * buttons * Z))
           (s : sketch) : sketch :=
  fold_left (fun s t =>
               loop_buttons (fst (fst (fst t))) (snd (fst (fst t)))
                            (snd (fst t)) (snd t) s)
            ticks s.

(** The sketch after [setup].  The log [rtc_set] is that of [setRTCTime]
    and starts empty: the compile time that setup() gives to the clock
    when its reading is invalid or of a year before 2023 is written
    before, and changes no variable of the sketch. *)
Definition boot (now : RtcDateTime) (e : list Z) : sketch :=
  mkSketch (setup now (power_on e)) editor_on.

(** The count-down [updateDisplay] prints while the bell is on, for the
    value [millis_now] of [millis()]: [elapsed] and [remaining] are
    [unsigned long]s, and [remaining] is set to 0 when it is below 0. *)
Definition remaining (millis_now : Z) (st : state) : Z :=
  let elapsed := unsigned_long (millis_now - bellStart st) in
  let remaining :=
    unsigned_long (unsigned_long (bell_duration st) - elapsed / 1000) in
  if remaining <? 0 then 0 else remaining.

(** ** Predicates of the statements on the editor *)

(** Every cell of the store holds a byte. *)
Definition byte_cells (e : list Z) : Prop :=
  Forall (fun b => 0 <= b < 256) e.

(** The settings are in their domains and equal to their cells of a
    marked store, and the array of flags has its size. *)
Definition config_ok (st : state) : Prop :=
  holds_table (eeprom st)
  /\ EEPROM.read (eeprom st) EEPROM_INIT_FLAG = 170
  /\ (MIN_BELL_DURATION <= bell_duration st <= MAX_BELL_DURATION
      /\ EEPROM.read (eeprom st) BELL_DURATION_ADDR = bell_duration st)
  /\ (1 <= weekend st <= 7
      /\ EEPROM.read (eeprom st) WEEKEND_DAY_ADDR = weekend st)
  /\ (0 <= total_alarms st <= MAX_ALARMS
      /\ EEPROM.read (eeprom st) ALARM_COUNT_ADDR = total_alarms st)
  /\ length (alarms_triggered_today st) = Z.to_nat MAX_ALARMS.

(** The mode, the field and the alarm number are in their ranges. *)
Definition editor_ok (e : editor) : Prop :=
  0 <= setMode e <= 4 /\ 0 <= field e <= 2
  /\ 1 <= current_alarm e <= MAX_ALARMS.

(** The relay and the bell LED are on exactly while a session is. *)
Definition relay_follows_bell (st : state) : Prop :=
  relay st = bellActive st /\ led_bell st = bellActive st.

(** The press that a call of [handleButtons] acts on: the first accepted
    one in the order SET, NEXT, UP, DOWN. *)
Definition first_press (pins : buttons) (current_millis : Z) (s : sketch)
  : sketch :=
  if accepted (bt_set pins) (btn_set_prev (edit s)) 300 current_millis s
  then press_set current_millis s
  else if accepted (bt_next pins) (btn_next_prev (edit s)) 300 current_millis s
  then press_next current_millis s
  else if accepted (bt_up pins) (btn_up_prev (edit s)) 200 current_millis s
  then press_up current_millis s
  else if accepted (bt_down pins) (btn_down_prev (edit s)) 200 current_millis s
  then press_down current_millis s
  else s.

(** The four levels stored for the next call. *)
Definition latch_pins (pins : buttons) (e : editor) : editor :=
  set_btn_down_prev (bt_down pins)
    (set_btn_up_prev (bt_up pins)
       (set_btn_next_prev (bt_next pins)
          (set_btn_set_prev (bt_set pins) e))).

(** The levels stored by the last call and the start of the gesture. *)
Definition latch_view (e : editor) : bool * bool * bool * bool * Z :=
  (btn_set_prev e, btn_next_prev e, btn_up_prev e, btn_down_prev e,
   reset_start_time e).

(** What the editor shows and edits. *)
Definition edit_view (e : editor) : Z * Z * Z * Z * Z :=
  (setMode e, field e, current_alarm e, alarm_hour e, alarm_minute e).

(** The invariant of the sketch. *)
Definition sketch_ok (s : sketch) : Prop :=
  config_ok (core s) /\ editor_ok (edit s) /\ relay_follows_bell (core s).

(** The four pins released. *)
Definition released : buttons := mkButtons true true true true.

(** One pin low, the others high. *)
Definition only_set : buttons := mkButtons false true true true.
Definition only_next : buttons := mkButtons true false true true.
Definition only_up : buttons := mkButtons true true false true.
Definition only_down : buttons := mkButtons true true true false.

(** SET and NEXT low. *)
Definition set_and_next : buttons := mkButtons false false true true.

(** The store after the loop that zeroes [n] cells from
    [ALARM_DATA_START] on. *)
Definition zero_cells (n : nat) (e : list Z) : list Z :=
  fold_left (fun l i => EEPROM.write (ALARM_DATA_START + Z.of_nat i) 0 l)
            (seq 0 n) e.

(** The cells of the alarm table. *)
Definition table_cell (a : Z) : Prop :=
  ALARM_DATA_START <= a < ALARM_DATA_START + 2 * MAX_ALARMS.

(** Three iterations of a Monday morning with the buttons released. *)
Definition released_ticks : list (RtcDateTime * Z * buttons * Z) :=
  [ (at_time 1 7 59 59, 3599000, released, 3599001);
    (at_time 1 8 0 0, 3600000, released, 3600201);
    (at_time 1 8 0 1, 3601000, released, 3601001) ].

(** A press of one button at [t] ms and its release 100 ms later, on a
    Monday at 07:00. *)
Definition press_release (pins : buttons) (t : Z)
  : list (RtcDateTime * Z * buttons * Z) :=
  [ (at_time 1 7 0 0, t, pins, t + 1);
    (at_time 1 7 0 0, t + 100, released, t + 101) ].

(** The buttons that bring the editor to the minute of alarm #1: three
    times SET, twice NEXT. *)
Definition to_alarm_minute : list (RtcDateTime * Z * buttons * Z) :=
  press_release only_set 1000 ++ press_release only_set 1500
  ++ press_release only_set 2000 ++ press_release only_next 2500
  ++ press_release only_next 3000.

(** The entry of the alarm 08:00 as alarm #1: to the minute, NEXT to
    commit, twice SET back to the normal mode. *)
Definition one_alarm_entry : list (RtcDateTime * Z * buttons * Z) :=
  to_alarm_minute ++ press_release only_next 3500
  ++ press_release only_set 4000 ++ press_release only_set 4500.

(** The editor on the minute of alarm #1, 08:00, after a first boot. *)
Definition at_alarm_minute : sketch :=
  run_buttons to_alarm_minute (boot (at_time 1 7 0 0) erased).

(** The duplicate table in the normal mode, SET and NEXT held since the
    call at 10000 ms. *)
Definition held_since_10000 : sketch :=
  mkSketch duplicates
    (set_reset_start_time 10000
       (set_btn_next_prev false (set_btn_set_prev false editor_on))).

(** The duplicate table after its Monday morning: the bell of 08:00 has
    rung and ended, the clock is at 08:01:00. *)
Definition rung_duplicates : sketch :=
  mkSketch (run duplicates_morning duplicates) editor_on.

(** The duplicate table with the editor in the bell-duration mode. *)
Definition duration_mode : sketch :=
  mkSketch duplicates (set_setMode 2 editor_on).

(** What a write to the clock is: made in the time mode, which is kept,
    of the time the variables hold afterwards, the seconds and the day
    being those found. *)
Definition clock_written (s s' : sketch) : Prop :=
  setMode (edit s) = 1
  /\ setMode (edit s') = 1
  /\ rtc_set (edit s')
     = (hh (core s'), mm (core s'), ss (core s')) :: rtc_set (edit s)
  /\ ss (core s') = ss (core s)
  /\ set_day (core s') = set_day (core s).

(** The duplicate table with the editor in the time mode, on the hour. *)
Definition time_mode : sketch :=
  mkSketch duplicates (set_setMode 1 editor_on).

(** The threshold of the stop test for each bell duration of the domain
    1..99, with the product computed as an [int]. *)
Definition effective_millis (d : Z) : Z :=
  if d <=? 32 then d * 1000
  else if d <=? 65 then 4294901760 + d * 1000
  else if d <=? 98 then d * 1000 - 65536
  else 4294901760 + d * 1000 - 65536.

(** * Properties *)

(** ** EEPROM cells *)

Lemma uint8_t_id (v : Z) : 0 <= v < 256 -> uint8_t v = v.
Proof. intros Hv. unfold uint8_t. apply Z.mod_small. exact Hv. Qed.

Lemma read_write_eq (e : list Z) (a v : Z) :
  0 <= a -> (Z.to_nat a < length e)%nat ->
  EEPROM.read (EEPROM.write a v e) a = uint8_t v.
Proof.
  intros _ Hlen. unfold EEPROM.read, EEPROM.write.
  rewrite list_lookup_insert_eq by exact Hlen. reflexivity.
Qed.

Lemma read_write_ne (e : list Z) (a b v : Z) :
  0 <= a -> 0 <= b -> a <> b ->
  EEPROM.read (EEPROM.write a v e) b = EEPROM.read e b.
Proof.
  intros Ha Hb Hab. unfold EEPROM.read, EEPROM.write.
  rewrite list_lookup_insert_ne by lia. reflexivity.
Qed.

Lemma length_write (e : list Z) (a v : Z) :
  length (EEPROM.write a v e) = length e.
Proof. unfold EEPROM.write. apply length_insert. Qed.

(** ** Alarm table access *)

Lemma readAlarm_in_range (st : state) (index : Z) :
  0 <= index < total_alarms st ->
  readAlarm st index =
    (EEPROM.read (eeprom st) (ALARM_DATA_START + index * 2),
     EEPROM.read (eeprom st) (ALARM_DATA_START + index * 2 + 1)).
Proof.
  intros [Hlo Hhi]. unfold readAlarm.
  destruct (index <? 0) eqn:E1; [apply Z.ltb_lt in E1; lia|].
  destruct (index >=? total_alarms st) eqn:E2; [|reflexivity].
  rewrite Z.geb_le in E2. lia.
Qed.

(** C10: an index that is negative or not below [total_alarms] reads as
    (0,0); the answer is the same whatever the store holds, and
    [readAlarm] returns no state: nothing is read from or written to a
    slot. *)
Theorem readAlarm_out_of_range (st : state) (index : Z) :
  index < 0 \/ total_alarms st <= index ->
  readAlarm st index = (0, 0)
  /\ (forall e : list Z, readAlarm (set_eeprom e st) index = (0, 0)).
Proof.
  intros Hout.
  assert (Hb : (index <? 0) || (index >=? total_alarms st) = true).
  { apply orb_true_iff. destruct Hout as [Hneg | Hge].
    - left. apply Z.ltb_lt. exact Hneg.
    - right. rewrite Z.geb_le. exact Hge. }
  split.
  - unfold readAlarm. rewrite Hb. reflexivity.
  - intros e. unfold readAlarm. simpl. rewrite Hb. reflexivity.
Qed.

(** Index 2 of a table of two alarms. *)
Lemma readAlarm_out_of_range_witness :
  total_alarms duplicates = 2
  /\ readAlarm duplicates 2 = (0, 0)
  /\ (forall e : list Z, readAlarm (set_eeprom e duplicates) 2 = (0, 0)).
Proof.
  split; [vm_compute; reflexivity|].
  apply (readAlarm_out_of_range duplicates 2).
  right. vm_compute. discriminate.
Defined.

Lemma saveAlarm_unfold (index hour minute : Z) (st : state) :
  0 <= index < MAX_ALARMS ->
  saveAlarm index hour minute st =
    let st1 := EEPROM_write (ALARM_DATA_START + index * 2 + 1) minute
                 (EEPROM_write (ALARM_DATA_START + index * 2) hour st) in
    if index >=? total_alarms st then
      EEPROM_write ALARM_COUNT_ADDR (index + 1)
        (set_total_alarms (index + 1) st1)
    else st1.
Proof.
  intros [Hlo Hhi]. unfold saveAlarm.
  destruct (index <? 0) eqn:E1; [apply Z.ltb_lt in E1; lia|].
  destruct (index >=? MAX_ALARMS) eqn:E2; [rewrite Z.geb_le in E2; lia|].
  reflexivity.
Qed.

(** The two cells of slot [index] after [saveAlarm]. *)
Lemma saveAlarm_cells (index hour minute : Z) (st : state) :
  0 <= index < MAX_ALARMS -> holds_table (eeprom st) ->
  let st' := saveAlarm index hour minute st in
  EEPROM.read (eeprom st') (ALARM_DATA_START + index * 2) = uint8_t hour
  /\ EEPROM.read (eeprom st') (ALARM_DATA_START + index * 2 + 1)
     = uint8_t minute.
Proof.
  intros Hi Hlen. unfold holds_table, ALARM_DATA_START, MAX_ALARMS in *.
  cbv zeta. rewrite saveAlarm_unfold by exact Hi. cbv zeta.
  unfold ALARM_DATA_START, ALARM_COUNT_ADDR.
  destruct (index >=? total_alarms st); unfold EEPROM_write; simpl.
  - rewrite !(read_write_ne _ 12) by lia.
    split.
    + rewrite read_write_ne by lia. apply read_write_eq; lia.
    + apply read_write_eq; [lia|]. rewrite length_write. lia.
  - split.
    + rewrite read_write_ne by lia. apply read_write_eq; lia.
    + apply read_write_eq; [lia|]. rewrite length_write. lia.
Qed.

(** Cells outside slot [index] and the count cell are not written. *)
Lemma saveAlarm_other_cells (index hour minute a : Z) (st : state) :
  0 <= index < MAX_ALARMS -> 0 <= a ->
  a <> ALARM_DATA_START + index * 2 ->
  a <> ALARM_DATA_START + index * 2 + 1 ->
  a <> ALARM_COUNT_ADDR ->
  EEPROM.read (eeprom (saveAlarm index hour minute st)) a
  = EEPROM.read (eeprom st) a.
Proof.
  intros Hi Ha H1 H2 H3. unfold ALARM_DATA_START, MAX_ALARMS, ALARM_COUNT_ADDR in *.
  rewrite saveAlarm_unfold by exact Hi. cbv zeta.
  unfold ALARM_DATA_START, ALARM_COUNT_ADDR.
  destruct (index >=? total_alarms st); unfold EEPROM_write; simpl;
    rewrite !read_write_ne by lia; reflexivity.
Qed.

Lemma saveAlarm_total (index hour minute : Z) (st : state) :
  0 <= index < MAX_ALARMS ->
  total_alarms (saveAlarm index hour minute st)
  = if index >=? total_alarms st then index + 1 else total_alarms st.
Proof.
  intros Hi. rewrite saveAlarm_unfold by exact Hi. cbv zeta.
  destruct (index >=? total_alarms st); reflexivity.
Qed.

Lemma saveAlarm_count_cell (index hour minute : Z) (st : state) :
  0 <= index < MAX_ALARMS -> holds_table (eeprom st) ->
  total_alarms st <= index ->
  EEPROM.read (eeprom (saveAlarm index hour minute st)) ALARM_COUNT_ADDR
  = index + 1.
Proof.
  intros Hi Hlen Hge. unfold holds_table, ALARM_DATA_START, MAX_ALARMS in *.
  rewrite saveAlarm_unfold by exact Hi. cbv zeta.
  destruct (index >=? total_alarms st) eqn:E; [|rewrite Z.geb_leb in E; apply Z.leb_gt in E; lia].
  unfold EEPROM_write, ALARM_COUNT_ADDR. simpl.
  rewrite read_write_eq; [apply uint8_t_id; lia | lia |].
  rewrite !length_write. lia.
Qed.

(** C9: [saveAlarm] at a slot inside the capacity stores the low bytes of
    the pair in the two cells of the slot (the pair itself when it is a
    pair of bytes, as every hour and minute is), so that the slot reads
    back as saved; an index not below [total_alarms] makes the count
    [index + 1], in the variable and in its EEPROM cell, and an index below
    it leaves the count; saving at index 4 with a count of 2 gives a count
    of 5, after which the skipped slot 3 reads as the cells it was left
    with, (0,0) on a zero-initialised table. *)
Theorem saveAlarm_spec (index hour minute : Z) (st : state) :
  0 <= index < MAX_ALARMS ->
  holds_table (eeprom st) ->
  let st' := saveAlarm index hour minute st in
  let slot := ALARM_DATA_START + index * 2 in
  (EEPROM.read (eeprom st') slot = uint8_t hour
   /\ EEPROM.read (eeprom st') (slot + 1) = uint8_t minute)
  /\ readAlarm st' index = (uint8_t hour, uint8_t minute)
  /\ (0 <= hour < 256 -> 0 <= minute < 256 ->
      readAlarm st' index = (hour, minute))
  /\ (total_alarms st <= index ->
      total_alarms st' = index + 1
      /\ EEPROM.read (eeprom st') ALARM_COUNT_ADDR = index + 1)
  /\ (index < total_alarms st -> total_alarms st' = total_alarms st)
  /\ (index = 4 -> total_alarms st = 2 ->
      total_alarms st' = 5
      /\ readAlarm st' 3
         = (EEPROM.read (eeprom st) (ALARM_DATA_START + 6),
            EEPROM.read (eeprom st) (ALARM_DATA_START + 7))
      /\ (EEPROM.read (eeprom st) (ALARM_DATA_START + 6) = 0 ->
          EEPROM.read (eeprom st) (ALARM_DATA_START + 7) = 0 ->
          readAlarm st' 3 = (0, 0))).
Proof.
  intros Hi Hlen st' slot.
  pose proof (saveAlarm_cells index hour minute st Hi Hlen) as [Hh Hm].
  pose proof (saveAlarm_total index hour minute st Hi) as Htot.
  fold st' in Hh, Hm, Htot. fold slot in Hh, Hm.
  assert (Hin : 0 <= index < total_alarms st').
  { rewrite Htot. destruct (index >=? total_alarms st) eqn:E; [lia|].
    rewrite Z.geb_leb in E. apply Z.leb_gt in E. lia. }
  assert (Hread : readAlarm st' index = (uint8_t hour, uint8_t minute)).
  { rewrite readAlarm_in_range by exact Hin. fold slot. rewrite Hh, Hm.
    reflexivity. }
  split; [split; assumption|].
  split; [exact Hread|].
  split.
  { intros Hhr Hmr. rewrite Hread, !uint8_t_id by assumption. reflexivity. }
  split.
  { intros Hge. split.
    - rewrite Htot. destruct (index >=? total_alarms st) eqn:E; [reflexivity|].
      rewrite Z.geb_leb in E. apply Z.leb_gt in E. lia.
    - apply saveAlarm_count_cell; assumption. }
  split.
  { intros Hlt. rewrite Htot.
    destruct (index >=? total_alarms st) eqn:E; [|reflexivity].
    rewrite Z.geb_le in E. lia. }
  intros H4 H2.
  assert (Ht5 : total_alarms st' = 5).
  { rewrite Htot, H2, H4. reflexivity. }
  assert (Hr3 : readAlarm st' 3
                = (EEPROM.read (eeprom st) (ALARM_DATA_START + 6),
                   EEPROM.read (eeprom st) (ALARM_DATA_START + 7))).
  { rewrite readAlarm_in_range by lia. unfold st'.
    rewrite !saveAlarm_other_cells
      by (unfold ALARM_DATA_START, ALARM_COUNT_ADDR, MAX_ALARMS in *; lia).
    reflexivity. }
  split; [exact Ht5|]. split; [exact Hr3|].
  intros Hz1 Hz2. rewrite Hr3, Hz1, Hz2. reflexivity.
Qed.

(** A save at index 4 over a zero-initialised table of two alarms. *)
Lemma saveAlarm_spec_witness :
  let st' := saveAlarm 4 10 30 duplicates in
  total_alarms duplicates = 2
  /\ readAlarm st' 4 = (10, 30)
  /\ total_alarms st' = 5
  /\ EEPROM.read (eeprom st') ALARM_COUNT_ADDR = 5
  /\ readAlarm st' 3 = (0, 0).
Proof.
  cbv zeta.
  assert (Hi : 0 <= 4 < MAX_ALARMS) by (vm_compute; split; congruence).
  assert (Hlen : holds_table (eeprom duplicates))
    by (vm_compute; discriminate).
  pose proof (saveAlarm_spec 4 10 30 duplicates Hi Hlen) as H.
  cbv zeta in H. destruct H as (_ & _ & Hread & Hgrow & _ & Hex).
  assert (Ht : total_alarms duplicates = 2) by (vm_compute; reflexivity).
  split; [exact Ht|].
  split; [apply Hread; vm_compute; split; congruence|].
  destruct Hgrow as [Hg1 Hg2]; [rewrite Ht; vm_compute; discriminate|].
  split; [exact Hg1|]. split; [exact Hg2|].
  destruct (Hex eq_refl Ht) as (_ & _ & Hzero).
  apply Hzero; vm_compute; reflexivity.
Defined.

(** ** Weekend policy *)

Lemma isWeekend_iff (st : state) (d : Z) :
  isWeekend st d = true
  <-> (weekend st = 6 /\ (d = 6 \/ d = 7)) \/ (weekend st <> 6 /\ d = weekend st).
Proof.
  unfold isWeekend. destruct (weekend st =? 6) eqn:E.
  - apply Z.eqb_eq in E. rewrite orb_true_iff, !Z.eqb_eq. intuition lia.
  - apply Z.eqb_neq in E. rewrite Z.eqb_eq. intuition lia.
Qed.

(** ** Next-bell finder *)

Lemma findNextBell_for_Some (n : nat) (i k : Z) (st : state) :
  findNextBell_for n i st = Some k ->
  i <= k < i + Z.of_nat n
  /\ eligible st k = true
  /\ (forall j, i <= j < k -> eligible st j = false).
Proof.
  revert i. induction n as [|n IH]; intros i H; simpl in H; [discriminate|].
  fold (eligible st i) in H. destruct (eligible st i) eqn:E.
  - inversion H; subst k. split; [lia|]. split; [exact E|]. intros j Hj. lia.
  - apply IH in H. destruct H as (Hk & Hel & Hbefore).
    split; [lia|]. split; [exact Hel|].
    intros j Hj. destruct (Z.eq_dec j i) as [->|Hne]; [exact E|].
    apply Hbefore. lia.
Qed.

Lemma findNextBell_for_None (n : nat) (i : Z) (st : state) :
  findNextBell_for n i st = None ->
  forall j, i <= j < i + Z.of_nat n -> eligible st j = false.
Proof.
  revert i. induction n as [|n IH]; intros i H j Hj; simpl in H; [lia|].
  fold (eligible st i) in H. destruct (eligible st i) eqn:E; [discriminate|].
  destruct (Z.eq_dec j i) as [->|Hne]; [exact E|].
  apply (IH (i + 1) H). lia.
Qed.

(** The scan finds the first eligible slot, if there is one. *)
Lemma findNextBell_for_first (n : nat) (i k : Z) (st : state) :
  i <= k < i + Z.of_nat n ->
  eligible st k = true ->
  (forall j, i <= j < k -> eligible st j = false) ->
  findNextBell_for n i st = Some k.
Proof.
  intros Hk Hel Hbefore.
  destruct (findNextBell_for n i st) as [k'|] eqn:E.
  - apply findNextBell_for_Some in E. destruct E as (Hk' & Hel' & Hbefore').
    destruct (Z.lt_trichotomy k k') as [Hlt | [-> | Hgt]]; [|reflexivity|].
    + rewrite Hbefore' in Hel by lia. discriminate.
    + rewrite Hbefore in Hel' by lia. discriminate.
  - rewrite (findNextBell_for_None n i st E k Hk) in Hel. discriminate.
Qed.

(** [findNextBell] assigns the three next-bell variables and no other. *)
Lemma findNextBell_shape (st : state) :
  exists h m b,
    findNextBell st = set_next_bell_found b (set_next_bell h m st).
Proof.
  unfold findNextBell. cbn [set_day total_alarms set_next_bell_found].
  destruct (isWeekend _ _).
  { exists (next_bell_hour st), (next_bell_minute st), false. reflexivity. }
  destruct (total_alarms st =? 0).
  { exists (next_bell_hour st), (next_bell_minute st), false. reflexivity. }
  destruct (findNextBell_for _ _ _) as [k|].
  - destruct (readAlarm _ k) as [h m]. exists h, m, true. reflexivity.
  - destruct (total_alarms st >? 0).
    + destruct (readAlarm _ 0) as [h m]. exists h, m, true. reflexivity.
    + exists (next_bell_hour st), (next_bell_minute st), false. reflexivity.
Qed.

(** The scan does not look at the next-bell variables. *)
Lemma findNextBell_for_found (n : nat) (i : Z) (b : bool) (st : state) :
  findNextBell_for n i (set_next_bell_found b st) = findNextBell_for n i st.
Proof. revert i. induction n as [|n IH]; intros i; simpl; [reflexivity|].
  rewrite IH. reflexivity.
Qed.

(** The table [(9,0); (8,0)] on a Monday at 08:30, nothing triggered. *)
Example findNextBell_out_of_order :
  readAlarm out_of_order_0830 0 = (9, 0)
  /\ readAlarm out_of_order_0830 1 = (8, 0)
  /\ next_bell (findNextBell out_of_order_0830) = Some (9, 0).
Proof. vm_compute. repeat split; reflexivity. Qed.

(** The test of the scan is the one the specification words. *)
Lemma eligible_iff (st : state) (i : Z) :
  eligible st i = true <-> qualifies st i.
Proof.
  unfold eligible, is_future, is_current_untriggered, qualifies,
    strictly_later, due_untriggered.
  destruct (readAlarm st i) as [h m]. cbn [fst snd].
  rewrite !orb_true_iff, !andb_true_iff, negb_true_iff, !Z.gtb_ltb,
    !Z.ltb_lt, !Z.eqb_eq.
  split.
  - intros [[H | [H1 H2]] | [[H1 H2] H3]].
    + left. left. exact H.
    + left. right. split; assumption.
    + right. split; [congruence | exact H3].
  - intros [[H | [H1 H2]] | [H1 H2]].
    + left. left. exact H.
    + left. right. split; assumption.
    + right. injection H1 as Hh Hm. repeat split; assumption.
Qed.

Lemma eligible_false_iff (st : state) (i : Z) :
  eligible st i = false <-> ~ qualifies st i.
Proof.
  rewrite <- eligible_iff. destruct (eligible st i); split; intros H.
  - discriminate.
  - exfalso. apply H. reflexivity.
  - discriminate.
  - reflexivity.
Qed.

(** C5: [findNextBell] announces nothing on a weekend day or on an empty
    table; otherwise it announces the first slot, in table order, whose
    stored pair is strictly later than the current (hour, minute) or
    equal to it with the slot untriggered, and slot 0 when no slot is; on
    the table [(9,0); (8,0)] at 08:30 the announcement is (9,0). *)
Theorem findNextBell_spec (st : state) :
  (isWeekend st (set_day st) = true \/ total_alarms st = 0 ->
   next_bell (findNextBell st) = None)
  /\ (isWeekend st (set_day st) = false -> 0 < total_alarms st ->
      (forall i,
          0 <= i < total_alarms st ->
          qualifies st i ->
          (forall j, 0 <= j < i -> ~ qualifies st j) ->
          next_bell (findNextBell st) = Some (readAlarm st i))
      /\ ((forall j, 0 <= j < total_alarms st -> ~ qualifies st j) ->
          next_bell (findNextBell st) = Some (readAlarm st 0)))
  /\ (readAlarm out_of_order_0830 0 = (9, 0)
      /\ readAlarm out_of_order_0830 1 = (8, 0)
      /\ next_bell (findNextBell out_of_order_0830) = Some (9, 0)).
Proof.
  split; [|split].
  - intros Hnone. unfold findNextBell.
    cbn [set_day total_alarms set_next_bell_found].
    change (isWeekend (set_next_bell_found false st) (set_day st))
      with (isWeekend st (set_day st)).
    destruct (isWeekend st (set_day st)) eqn:Ew; [reflexivity|].
    destruct Hnone as [H|H]; [discriminate|]. rewrite H. reflexivity.
  - intros Hw Hpos.
    assert (Hnz : (total_alarms st =? 0) = false) by (apply Z.eqb_neq; lia).
    assert (Hgt : (total_alarms st >? 0) = true)
      by (rewrite Z.gtb_ltb; apply Z.ltb_lt; lia).
    split.
    + intros i Hi Hel Hbefore. apply eligible_iff in Hel.
      assert (Hbefore' : forall j, 0 <= j < i -> eligible st j = false)
        by (intros j Hj; apply eligible_false_iff, Hbefore, Hj).
      unfold findNextBell.
      cbn [set_day total_alarms set_next_bell_found].
      change (isWeekend (set_next_bell_found false st) (set_day st))
        with (isWeekend st (set_day st)).
      rewrite Hw, Hnz, findNextBell_for_found.
      rewrite (findNextBell_for_first _ 0 i st) by (try assumption; lia).
      change (readAlarm (set_next_bell_found false st) i)
        with (readAlarm st i).
      destruct (readAlarm st i) as [h m]. reflexivity.
    + intros Hnot. unfold findNextBell.
      cbn [set_day total_alarms set_next_bell_found].
      change (isWeekend (set_next_bell_found false st) (set_day st))
        with (isWeekend st (set_day st)).
      rewrite Hw, Hnz, findNextBell_for_found.
      destruct (findNextBell_for _ 0 st) as [k|] eqn:E.
      * apply findNextBell_for_Some in E. destruct E as (Hk & Hel & _).
        apply eligible_iff in Hel. exfalso. apply (Hnot k); [lia | exact Hel].
      * rewrite Hgt.
        change (readAlarm (set_next_bell_found false st) 0)
          with (readAlarm st 0).
        destruct (readAlarm st 0) as [h m]. reflexivity.
  - exact findNextBell_out_of_order.
Qed.

(** The table (8,0), (9,0) at 09:00, nothing triggered: slot 0 is past,
    slot 1 is the current minute and untriggered, and is announced; at
    08:30 slot 1 is later, and is announced. *)
Lemma findNextBell_spec_witness :
  (readAlarm hourly_0900 0 = (8, 0) /\ readAlarm hourly_0900 1 = (9, 0)
   /\ (hh hourly_0900, mm hourly_0900) = (9, 0)
   /\ (hh hourly_0830, mm hourly_0830) = (8, 30))
  /\ (~ qualifies hourly_0900 0 /\ due_untriggered hourly_0900 1
      /\ next_bell (findNextBell hourly_0900)
         = Some (readAlarm hourly_0900 1))
  /\ (~ qualifies hourly_0830 0
      /\ strictly_later hourly_0830 (readAlarm hourly_0830 1)
      /\ next_bell (findNextBell hourly_0830)
         = Some (readAlarm hourly_0830 1)).
Proof.
  assert (Hn9 : ~ qualifies hourly_0900 0)
    by (apply eligible_false_iff; vm_compute; reflexivity).
  assert (Hd9 : due_untriggered hourly_0900 1)
    by (split; vm_compute; reflexivity).
  assert (Hn8 : ~ qualifies hourly_0830 0)
    by (apply eligible_false_iff; vm_compute; reflexivity).
  assert (Hl8 : strictly_later hourly_0830 (readAlarm hourly_0830 1))
    by (left; vm_compute; reflexivity).
  split; [vm_compute; repeat split; reflexivity|].
  split.
  - split; [exact Hn9|]. split; [exact Hd9|].
    destruct (findNextBell_spec hourly_0900) as (_ & H & _).
    destruct H as [Hfirst _]; [vm_compute; reflexivity ..|].
    apply Hfirst; [vm_compute; split; congruence | right; exact Hd9 |].
    intros j Hj. replace j with 0 by lia. exact Hn9.
  - split; [exact Hn8|]. split; [exact Hl8|].
    destruct (findNextBell_spec hourly_0830) as (_ & H & _).
    destruct H as [Hfirst _]; [vm_compute; reflexivity ..|].
    apply Hfirst; [vm_compute; split; congruence | left; exact Hl8 |].
    intros j Hj. replace j with 0 by lia. exact Hn8.
Defined.

(** ** Daily trigger flags *)

#[global] Arguments clear_triggered : simpl never.
#[global] Arguments cleared : simpl never.
#[global] Arguments initializeEEPROM : simpl never.

(** Reads a field through the assignments made to the state. *)
Ltac fields :=
  cbn [eeprom hh mm ss set_day bell_duration weekend total_alarms
       next_bell_hour next_bell_minute next_bell_found rtc_valid
       last_rtc_update bellActive bellStart lastBellMinute
       alarms_triggered_today last_checked_day relay led_bell
       set_eeprom set_clock set_bell_duration set_weekend set_total_alarms
       set_next_bell set_next_bell_found set_rtc_valid set_last_rtc_update
       set_bellActive set_bellStart set_lastBellMinute
       set_alarms_triggered_today set_last_checked_day set_pins
       EEPROM_write set_triggered].

Ltac fields_in H :=
  cbn [eeprom hh mm ss set_day bell_duration weekend total_alarms
       next_bell_hour next_bell_minute next_bell_found rtc_valid
       last_rtc_update bellActive bellStart lastBellMinute
       alarms_triggered_today last_checked_day relay led_bell
       set_eeprom set_clock set_bell_duration set_weekend set_total_alarms
       set_next_bell set_next_bell_found set_rtc_valid set_last_rtc_update
       set_bellActive set_bellStart set_lastBellMinute
       set_alarms_triggered_today set_last_checked_day set_pins
       EEPROM_write set_triggered] in H.

Lemma fold_set_triggered (ixs : list nat) (st : state) :
  fold_left (fun s i => set_triggered (Z.of_nat i) false s) ixs st
  = set_alarms_triggered_today
      (fold_left (fun l i => <[i := false]> l) ixs (alarms_triggered_today st))
      st.
Proof.
  revert st. induction ixs as [|i ixs IH]; intros st.
  - destruct st; reflexivity.
  - simpl. rewrite IH. unfold set_triggered. simpl. rewrite Nat2Z.id.
    reflexivity.
Qed.

Lemma clear_triggered_eq (st : state) :
  clear_triggered st
  = set_alarms_triggered_today (cleared (alarms_triggered_today st)) st.
Proof. apply fold_set_triggered. Qed.

Lemma insert_false_keeps (fl : list bool) (i k : nat) :
  default false (fl !! k) = false ->
  default false (<[i := false]> fl !! k) = false.
Proof.
  intros H. destruct (decide (i = k)) as [->|Hne].
  - destruct (decide (k < length fl)%nat) as [Hlt|Hge].
    + rewrite list_lookup_insert_eq by exact Hlt. reflexivity.
    + rewrite list_insert_ge by lia. exact H.
  - rewrite list_lookup_insert_ne by exact Hne. exact H.
Qed.

Lemma fold_insert_false_keeps (ixs : list nat) (fl : list bool) (k : nat) :
  default false (fl !! k) = false ->
  default false (fold_left (fun l i => <[i := false]> l) ixs fl !! k) = false.
Proof.
  revert fl. induction ixs as [|i ixs IH]; intros fl H; simpl; [exact H|].
  apply IH. apply insert_false_keeps. exact H.
Qed.

Lemma fold_insert_false_In (ixs : list nat) (fl : list bool) (k : nat) :
  In k ixs ->
  default false (fold_left (fun l i => <[i := false]> l) ixs fl !! k) = false.
Proof.
  revert fl. induction ixs as [|i ixs IH]; intros fl Hin; simpl; [contradiction|].
  destruct Hin as [->|Hin]; [|apply IH; exact Hin].
  apply fold_insert_false_keeps.
  destruct (decide (k < length fl)%nat) as [Hlt|Hge].
  - rewrite list_lookup_insert_eq by exact Hlt. reflexivity.
  - rewrite list_insert_ge by lia. rewrite lookup_ge_None_2 by lia.
    reflexivity.
Qed.

(** After the clearing loop every flag of the array reads false. *)
Lemma cleared_false (fl : list bool) (i : Z) :
  i < MAX_ALARMS -> default false (cleared fl !! Z.to_nat i) = false.
Proof.
  intros Hi. apply fold_insert_false_In. apply in_seq.
  unfold MAX_ALARMS in *. lia.
Qed.

Lemma triggered_clear (st : state) (i : Z) :
  i < MAX_ALARMS -> triggered (clear_triggered st) i = false.
Proof.
  intros Hi. rewrite clear_triggered_eq. unfold triggered. fields.
  apply cleared_false. exact Hi.
Qed.

(** A flag that reads true after the clearing loop was out of its reach. *)
Lemma cleared_true (fl : list bool) (k : nat) :
  default false (cleared fl !! k) = true -> default false (fl !! k) = true.
Proof.
  unfold cleared. generalize (seq 0 (Z.to_nat MAX_ALARMS)) as ixs.
  intros ixs. revert fl. induction ixs as [|i ixs IH]; intros fl H; simpl in H;
    [exact H|].
  apply IH in H. destruct (decide (i = k)) as [->|Hne].
  - destruct (decide (k < length fl)%nat) as [Hlt|Hge].
    + rewrite list_lookup_insert_eq in H by exact Hlt. discriminate.
    + rewrite list_insert_ge in H by lia. exact H.
  - rewrite list_lookup_insert_ne in H by exact Hne. exact H.
Qed.

(** ** Clock commit *)

Lemma updateTimeFromRTC_invalid (now : RtcDateTime) (st : state) :
  IsValid now = false -> updateTimeFromRTC now st = set_rtc_valid false st.
Proof. intros H. unfold updateTimeFromRTC. rewrite H. reflexivity. Qed.

Lemma updateTimeFromRTC_same_day (now : RtcDateTime) (st : state) :
  IsValid now = true -> DayOfWeek now + 1 = set_day st ->
  updateTimeFromRTC now st
  = set_rtc_valid true
      (set_clock (Hour now) (Minute now) (Second now) (DayOfWeek now + 1) st).
Proof.
  intros Hv Hd. unfold updateTimeFromRTC. rewrite Hv. fields.
  rewrite Hd, Z.eqb_refl. reflexivity.
Qed.

Lemma updateTimeFromRTC_new_day (now : RtcDateTime) (st : state) :
  IsValid now = true -> DayOfWeek now + 1 <> set_day st ->
  updateTimeFromRTC now st
  = set_rtc_valid true
      (set_lastBellMinute (-1)
         (set_alarms_triggered_today (cleared (alarms_triggered_today st))
            (set_clock (Hour now) (Minute now) (Second now)
               (DayOfWeek now + 1) st))).
Proof.
  intros Hv Hd. unfold updateTimeFromRTC. rewrite Hv. fields.
  destruct (set_day st =? DayOfWeek now + 1) eqn:E;
    [apply Z.eqb_eq in E; lia|].
  cbn [negb]. rewrite clear_triggered_eq. reflexivity.
Qed.

(** The three shapes of the state after [updateTimeFromRTC]. *)
Lemma updateTimeFromRTC_cases (now : RtcDateTime) (st : state) :
  (IsValid now = false /\ updateTimeFromRTC now st = set_rtc_valid false st)
  \/ (IsValid now = true /\ DayOfWeek now + 1 = set_day st
      /\ updateTimeFromRTC now st
         = set_rtc_valid true
             (set_clock (Hour now) (Minute now) (Second now)
                (DayOfWeek now + 1) st))
  \/ (IsValid now = true /\ DayOfWeek now + 1 <> set_day st
      /\ updateTimeFromRTC now st
         = set_rtc_valid true
             (set_lastBellMinute (-1)
                (set_alarms_triggered_today
                   (cleared (alarms_triggered_today st))
                   (set_clock (Hour now) (Minute now) (Second now)
                      (DayOfWeek now + 1) st)))).
Proof.
  destruct (IsValid now) eqn:Hv.
  - destruct (Z.eq_dec (DayOfWeek now + 1) (set_day st)) as [Hd|Hd].
    + right; left. auto using updateTimeFromRTC_same_day.
    + right; right. auto using updateTimeFromRTC_new_day.
  - left. auto using updateTimeFromRTC_invalid.
Qed.

(** ** The parts of the loop *)

Lemma loop_poll_cases (now : RtcDateTime) (current_millis : Z) (st : state) :
  (polls current_millis st = false /\ loop_poll now current_millis st = st)
  \/ (polls current_millis st = true
      /\ loop_poll now current_millis st
         = updateTimeFromRTC now (set_last_rtc_update current_millis st)).
Proof.
  unfold loop_poll, polls, checkForAlarms.
  destruct (unsigned_long (current_millis - last_rtc_update st) >=? 1000).
  - right. split; [reflexivity|].
    destruct (negb _); reflexivity.
  - left. split; reflexivity.
Qed.

(** The state in which the bell was started for slot [k]. *)
Lemma start_bell_shape (k current_millis : Z) (st : state) :
  exists h m b,
    start_bell k current_millis st
    = set_next_bell_found b (set_next_bell h m
        (set_bellActive true (set_bellStart current_millis
           (set_pins true true (set_lastBellMinute (mm st)
              (set_triggered k true st)))))).
Proof.
  unfold start_bell.
  destruct (findNextBell_shape
              (set_bellActive true (set_bellStart current_millis
                 (set_pins true true (set_lastBellMinute (mm st)
                    (set_triggered k true st)))))) as (h & m & b & E).
  exists h, m, b. exact E.
Qed.

(** The scan either fires no slot and changes nothing, or starts the bell
    for the first slot that fires. *)
Lemma loop_for_cases (n : nat) (i current_millis : Z) (st : state) :
  (loop_for n i current_millis st = st
   /\ forall j, i <= j < i + Z.of_nat n -> fires st j = false)
  \/ (exists k,
        i <= k < i + Z.of_nat n
        /\ fires st k = true
        /\ (forall j, i <= j < k -> fires st j = false)
        /\ loop_for n i current_millis st = start_bell k current_millis st).
Proof.
  revert i. induction n as [|n IH]; intros i.
  - left. split; [reflexivity|]. intros j Hj. lia.
  - cbn [loop_for]. destruct (fires st i) eqn:E.
    + right. exists i. split; [lia|]. split; [exact E|].
      split; [intros j Hj; lia | reflexivity].
    + destruct (IH (i + 1)) as [[Heq Hno] | (k & Hk & Hf & Hbefore & Heq)].
      * left. split; [exact Heq|]. intros j Hj.
        destruct (Z.eq_dec j i) as [->|Hne]; [exact E | apply Hno; lia].
      * right. exists k. split; [lia|]. split; [exact Hf|].
        split; [|exact Heq]. intros j Hj.
        destruct (Z.eq_dec j i) as [->|Hne]; [exact E | apply Hbefore; lia].
Qed.

Lemma loop_start_cases (current_millis : Z) (st : state) :
  (loop_start current_millis st = st
   /\ (bellActive st = false -> isWeekend st (set_day st) = false ->
       forall j, 0 <= j < total_alarms st -> fires st j = false))
  \/ (bellActive st = false /\ isWeekend st (set_day st) = false
      /\ exists k,
           0 <= k < total_alarms st
           /\ fires st k = true
           /\ (forall j, 0 <= j < k -> fires st j = false)
           /\ loop_start current_millis st
              = start_bell k current_millis st).
Proof.
  unfold loop_start.
  destruct (bellActive st) eqn:Eb; cbn [negb andb].
  { left. split; [reflexivity|]. intros H. discriminate. }
  destruct (isWeekend st (set_day st)) eqn:Ew; cbn [negb].
  { left. split; [reflexivity|]. intros _ H. discriminate. }
  destruct (loop_for_cases (Z.to_nat (total_alarms st)) 0 current_millis st)
    as [[Heq Hno] | (k & Hk & Hf & Hbefore & Heq)].
  - left. split; [exact Heq|]. intros _ _ j Hj. apply Hno. lia.
  - right. split; [reflexivity|]. split; [reflexivity|].
    exists k. split; [lia|]. split; [exact Hf|].
    split; [|exact Heq]. intros j Hj. apply Hbefore. lia.
Qed.

Lemma loop_stop_cases (current_millis : Z) (st : state) :
  (bellActive st = true /\ bell_millis st <= elapsed current_millis st
   /\ loop_stop current_millis st
      = set_bellActive false (set_pins false false st))
  \/ ((bellActive st = false \/ elapsed current_millis st < bell_millis st)
      /\ loop_stop current_millis st = st).
Proof.
  unfold loop_stop, elapsed. destruct (bellActive st); cbn [andb].
  - destruct (_ >=? _) eqn:E.
    + left. rewrite Z.geb_le in E. auto.
    + right. rewrite Z.geb_leb in E. apply Z.leb_gt in E. auto.
  - right. auto.
Qed.

(** ** What each part of the loop leaves alone *)

Lemma loop_poll_settings (now : RtcDateTime) (current_millis : Z) (st : state) :
  settings_view (loop_poll now current_millis st) = settings_view st.
Proof.
  destruct (loop_poll_cases now current_millis st) as [[_ E] | [_ E]];
    rewrite E; [reflexivity|].
  destruct (updateTimeFromRTC_cases now (set_last_rtc_update current_millis st))
    as [[_ Eu] | [(_ & _ & Eu) | (_ & _ & Eu)]]; rewrite Eu; reflexivity.
Qed.

Lemma loop_poll_bell (now : RtcDateTime) (current_millis : Z) (st : state) :
  bell_view (loop_poll now current_millis st) = bell_view st.
Proof.
  destruct (loop_poll_cases now current_millis st) as [[_ E] | [_ E]];
    rewrite E; [reflexivity|].
  destruct (updateTimeFromRTC_cases now (set_last_rtc_update current_millis st))
    as [[_ Eu] | [(_ & _ & Eu) | (_ & _ & Eu)]]; rewrite Eu; reflexivity.
Qed.

Lemma loop_poll_next_bell (now : RtcDateTime) (current_millis : Z) (st : state) :
  next_bell (loop_poll now current_millis st) = next_bell st.
Proof.
  destruct (loop_poll_cases now current_millis st) as [[_ E] | [_ E]];
    rewrite E; [reflexivity|].
  destruct (updateTimeFromRTC_cases now (set_last_rtc_update current_millis st))
    as [[_ Eu] | [(_ & _ & Eu) | (_ & _ & Eu)]]; rewrite Eu; reflexivity.
Qed.

(** The poll keeps the flags and [lastBellMinute], or clears both. *)
Lemma loop_poll_trigger (now : RtcDateTime) (current_millis : Z) (st : state) :
  trigger_view (loop_poll now current_millis st) = trigger_view st
  \/ (polls current_millis st = true /\ IsValid now = true
      /\ DayOfWeek now + 1 <> set_day st
      /\ trigger_view (loop_poll now current_millis st)
         = (cleared (alarms_triggered_today st), -1)).
Proof.
  destruct (loop_poll_cases now current_millis st) as [[_ E] | [Hp E]];
    rewrite E; [left; reflexivity|].
  destruct (updateTimeFromRTC_cases now (set_last_rtc_update current_millis st))
    as [[_ Eu] | [(_ & _ & Eu) | (Hv & Hd & Eu)]]; rewrite Eu.
  - left; reflexivity.
  - left; reflexivity.
  - right. repeat split; assumption.
Qed.

(** The poll keeps the committed time on a failed reading. *)
Lemma loop_poll_invalid (now : RtcDateTime) (current_millis : Z) (st : state) :
  IsValid now = false ->
  clock_view (loop_poll now current_millis st) = clock_view st
  /\ trigger_view (loop_poll now current_millis st) = trigger_view st.
Proof.
  intros Hv.
  destruct (loop_poll_cases now current_millis st) as [[_ E] | [_ E]];
    rewrite E; [split; reflexivity|].
  rewrite updateTimeFromRTC_invalid by exact Hv. split; reflexivity.
Qed.

Lemma loop_start_settings (current_millis : Z) (st : state) :
  settings_view (loop_start current_millis st) = settings_view st.
Proof.
  destruct (loop_start_cases current_millis st)
    as [[E _] | (_ & _ & k & _ & _ & _ & E)]; rewrite E; [reflexivity|].
  destruct (start_bell_shape k current_millis st) as (h & m & b & Es).
  rewrite Es. reflexivity.
Qed.

Lemma loop_start_clock (current_millis : Z) (st : state) :
  clock_view (loop_start current_millis st) = clock_view st.
Proof.
  destruct (loop_start_cases current_millis st)
    as [[E _] | (_ & _ & k & _ & _ & _ & E)]; rewrite E; [reflexivity|].
  destruct (start_bell_shape k current_millis st) as (h & m & b & Es).
  rewrite Es. reflexivity.
Qed.

Lemma loop_stop_settings (current_millis : Z) (st : state) :
  settings_view (loop_stop current_millis st) = settings_view st.
Proof.
  destruct (loop_stop_cases current_millis st) as [(_ & _ & E) | [_ E]];
    rewrite E; reflexivity.
Qed.

Lemma loop_stop_clock (current_millis : Z) (st : state) :
  clock_view (loop_stop current_millis st) = clock_view st.
Proof.
  destruct (loop_stop_cases current_millis st) as [(_ & _ & E) | [_ E]];
    rewrite E; reflexivity.
Qed.

Lemma loop_stop_trigger (current_millis : Z) (st : state) :
  trigger_view (loop_stop current_millis st) = trigger_view st.
Proof.
  destruct (loop_stop_cases current_millis st) as [(_ & _ & E) | [_ E]];
    rewrite E; reflexivity.
Qed.

Lemma loop_stop_next_bell (current_millis : Z) (st : state) :
  next_bell (loop_stop current_millis st) = next_bell st.
Proof.
  destruct (loop_stop_cases current_millis st) as [(_ & _ & E) | [_ E]];
    rewrite E; reflexivity.
Qed.

(** No part of the loop writes the EEPROM or a setting. *)
Lemma loop_settings (now : RtcDateTime) (current_millis : Z) (st : state) :
  settings_view (loop now current_millis st) = settings_view st.
Proof.
  unfold loop.
  rewrite loop_stop_settings, loop_start_settings, loop_poll_settings.
  reflexivity.
Qed.

(** The day and the weekend selector after an iteration are those its
    scan was gated on. *)
Lemma loop_day (now : RtcDateTime) (current_millis : Z) (st : state) :
  let st1 := loop_poll now current_millis st in
  let st' := loop now current_millis st in
  set_day st' = set_day st1 /\ weekend st' = weekend st1.
Proof.
  cbv zeta. unfold loop.
  pose proof (loop_stop_clock current_millis
                (loop_start current_millis
                   (loop_poll now current_millis st))) as H1.
  pose proof (loop_start_clock current_millis
                (loop_poll now current_millis st)) as H2.
  pose proof (loop_stop_settings current_millis
                (loop_start current_millis
                   (loop_poll now current_millis st))) as H3.
  pose proof (loop_start_settings current_millis
                (loop_poll now current_millis st)) as H4.
  unfold clock_view, settings_view in *. split; congruence.
Qed.

Lemma loop_start_weekend (current_millis : Z) (st : state) :
  isWeekend st (set_day st) = true -> loop_start current_millis st = st.
Proof.
  intros H. unfold loop_start. rewrite H, andb_false_r. reflexivity.
Qed.

Lemma loop_start_active (current_millis : Z) (st : state) :
  bellActive st = true -> loop_start current_millis st = st.
Proof. intros H. unfold loop_start. rewrite H. reflexivity. Qed.

Lemma loop_stop_inactive (current_millis : Z) (st : state) :
  bellActive st = false -> loop_stop current_millis st = st.
Proof. intros H. unfold loop_stop. rewrite H. reflexivity. Qed.

Lemma isWeekend_ext (st1 st2 : state) (d : Z) :
  weekend st1 = weekend st2 -> isWeekend st1 d = isWeekend st2 d.
Proof. intros H. unfold isWeekend. rewrite H. reflexivity. Qed.

(** ** Weekend suppression *)

(** On a weekend day an iteration without an active bell is its poll. *)
Lemma loop_weekend_idle (now : RtcDateTime) (current_millis : Z) (st : state) :
  let st' := loop now current_millis st in
  isWeekend st' (set_day st') = true -> bellActive st = false ->
  st' = loop_poll now current_millis st.
Proof.
  cbv zeta. intros Hw Hidle.
  destruct (loop_day now current_millis st) as [Hd Hs]. cbv zeta in Hd, Hs.
  rewrite Hd, (isWeekend_ext _ _ _ Hs) in Hw.
  unfold loop. rewrite (loop_start_weekend _ _ Hw).
  apply loop_stop_inactive.
  pose proof (loop_poll_bell now current_millis st) as Hb.
  unfold bell_view in Hb. congruence.
Qed.

(** On a weekend day no flag is set by an iteration. *)
Lemma loop_weekend_flags (now : RtcDateTime) (current_millis : Z) (st : state)
      (i : Z) :
  let st' := loop now current_millis st in
  isWeekend st' (set_day st') = true ->
  triggered st' i = true -> triggered st i = true.
Proof.
  cbv zeta. intros Hw.
  destruct (loop_day now current_millis st) as [Hd Hs]. cbv zeta in Hd, Hs.
  rewrite Hd, (isWeekend_ext _ _ _ Hs) in Hw.
  unfold loop. rewrite (loop_start_weekend _ _ Hw).
  pose proof (loop_stop_trigger current_millis
                (loop_poll now current_millis st)) as Ht.
  unfold triggered. unfold trigger_view in Ht.
  replace (alarms_triggered_today
             (loop_stop current_millis (loop_poll now current_millis st)))
    with (alarms_triggered_today (loop_poll now current_millis st))
    by congruence.
  destruct (loop_poll_trigger now current_millis st)
    as [E | (_ & _ & _ & E)]; unfold trigger_view in E.
  - replace (alarms_triggered_today (loop_poll now current_millis st))
      with (alarms_triggered_today st) by congruence.
    trivial.
  - replace (alarms_triggered_today (loop_poll now current_millis st))
      with (cleared (alarms_triggered_today st)) by congruence.
    apply cleared_true.
Qed.

(** C6: [isWeekend] holds exactly for Friday and Saturday under selector
    6 and for the selected day under any other selector; in an iteration
    whose day is a weekend day no bell session starts and no trigger flag
    is set; the reset of the flags and of [lastBellMinute] at a change of
    day takes place on a weekend day too. *)
Theorem weekend_suppression :
  (forall (st : state) (d : Z),
      isWeekend st d = true
      <-> (weekend st = 6 /\ (d = 6 \/ d = 7))
          \/ (weekend st <> 6 /\ d = weekend st))
  /\ (forall now current_millis st,
        let st' := loop now current_millis st in
        isWeekend st' (set_day st') = true ->
        (bellActive st = false ->
         bellActive st' = false /\ relay st' = relay st
         /\ led_bell st' = led_bell st)
        /\ (forall i, triggered st' i = true -> triggered st i = true))
  /\ (forall now current_millis st,
        let st' := loop now current_millis st in
        polls current_millis st = true ->
        IsValid now = true ->
        DayOfWeek now + 1 <> set_day st ->
        isWeekend st (DayOfWeek now + 1) = true ->
        set_day st' = DayOfWeek now + 1
        /\ (forall i, i < MAX_ALARMS -> triggered st' i = false)
        /\ lastBellMinute st' = -1).
Proof.
  split; [exact isWeekend_iff|]. split.
  - intros now current_millis st st' Hw. split.
    + intros Hidle.
      pose proof (loop_weekend_idle now current_millis st Hw Hidle) as E.
      fold st' in E. rewrite E.
      pose proof (loop_poll_bell now current_millis st) as Hb.
      unfold bell_view in Hb. repeat split; congruence.
    + intros i. apply (loop_weekend_flags now current_millis st i Hw).
  - intros now current_millis st st' Hp Hv Hd Hw.
    destruct (loop_poll_cases now current_millis st) as [[Hp' _] | [_ Ep]];
      [congruence|].
    rewrite (updateTimeFromRTC_new_day now
               (set_last_rtc_update current_millis st) Hv Hd) in Ep.
    assert (Hw1 : isWeekend (loop_poll now current_millis st)
                    (set_day (loop_poll now current_millis st)) = true).
    { rewrite Ep. exact Hw. }
    assert (E : st' = loop_stop current_millis
                        (loop_poll now current_millis st)).
    { unfold st', loop. rewrite (loop_start_weekend _ _ Hw1). reflexivity. }
    pose proof (loop_stop_trigger current_millis
                  (loop_poll now current_millis st)) as Ht.
    pose proof (loop_stop_clock current_millis
                  (loop_poll now current_millis st)) as Hc.
    rewrite <- E in Ht, Hc. rewrite Ep in Ht, Hc.
    unfold trigger_view, clock_view in Ht, Hc. fields_in Ht. fields_in Hc.
    split; [congruence|]. split; [|congruence].
    intros i Hi. unfold triggered.
    replace (alarms_triggered_today st')
      with (cleared (alarms_triggered_today st)) by congruence.
    apply cleared_false. exact Hi.
Qed.

(** The table (8,0) on the default policy: its bell has rung on the
    Thursday, flag 0 is set and [lastBellMinute] is 0.  The poll at
    00:00:00 brings Friday, a weekend day, and clears both.  At 08:00:00
    of the Friday the alarm is due (slot 0 reads 08:00, its flag is
    clear, [lastBellMinute] is not the minute): no bell starts and the
    flag stays clear. *)
Lemma weekend_suppression_witness :
  (readAlarm thursday_night 0 = (8, 0)
   /\ triggered thursday_night 0 = true
   /\ lastBellMinute thursday_night = 0)
  /\ (set_day friday_midnight = 6
      /\ (forall i, i < MAX_ALARMS -> triggered friday_midnight i = false)
      /\ lastBellMinute friday_midnight = -1)
  /\ (let st' := loop (at_time 5 8 0 0) 90000000 friday_midnight in
      (isWeekend st' (set_day st') = true
       /\ readAlarm st' 0 = (hh st', mm st')
       /\ lastBellMinute st' <> mm st')
      /\ (bellActive st' = false /\ relay st' = false)
      /\ triggered st' 0 = false).
Proof.
  destruct weekend_suppression as (_ & Hquiet & Hreset).
  assert (Hfri : set_day friday_midnight = 6
                 /\ (forall i, i < MAX_ALARMS ->
                                triggered friday_midnight i = false)
                 /\ lastBellMinute friday_midnight = -1).
  { apply (Hreset (at_time 5 0 0 0) 61200000 thursday_night);
      vm_compute; congruence. }
  split; [vm_compute; repeat split; reflexivity|].
  split; [exact Hfri|].
  cbv zeta.
  assert (Hw : isWeekend (loop (at_time 5 8 0 0) 90000000 friday_midnight)
                 (set_day (loop (at_time 5 8 0 0) 90000000 friday_midnight))
               = true) by (vm_compute; reflexivity).
  destruct (Hquiet (at_time 5 8 0 0) 90000000 friday_midnight Hw)
    as [Hidle Hflags].
  split; [split; [exact Hw | vm_compute; split; congruence]|].
  split.
  - destruct Hidle as (Hb & Hr & _); [vm_compute; reflexivity|].
    split; [exact Hb|]. rewrite Hr. vm_compute. reflexivity.
  - destruct (triggered (loop (at_time 5 8 0 0) 90000000 friday_midnight) 0)
      eqn:E; [|reflexivity].
    apply Hflags in E. destruct Hfri as (_ & Hclear & _).
    rewrite Hclear in E by (vm_compute; reflexivity). discriminate.
Defined.

(** ** The trigger scan *)

Lemma length_cleared (fl : list bool) : length (cleared fl) = length fl.
Proof.
  unfold cleared. generalize (seq 0 (Z.to_nat MAX_ALARMS)) as ixs.
  intros ixs. revert fl. induction ixs as [|i ixs IH]; intros fl; simpl;
    [reflexivity|].
  rewrite IH. apply length_insert.
Qed.

Lemma readAlarm_ext (st1 st2 : state) (i : Z) :
  settings_view st1 = settings_view st2 -> readAlarm st1 i = readAlarm st2 i.
Proof.
  unfold settings_view. intros H. injection H as He _ _ Ht.
  unfold readAlarm. rewrite He, Ht. reflexivity.
Qed.

(** What starting the bell for slot [i] assigns. *)
Lemma start_bell_effect (i current_millis : Z) (st : state) :
  let st' := start_bell i current_millis st in
  bell_view st' = (true, current_millis, true, true)
  /\ trigger_view st'
     = (<[Z.to_nat i := true]> (alarms_triggered_today st), mm st)
  /\ settings_view st' = settings_view st
  /\ clock_view st' = clock_view st.
Proof.
  cbv zeta. destruct (start_bell_shape i current_millis st) as (h & m & b & E).
  rewrite E. repeat split.
Qed.

(** The flags and [lastBellMinute] after an iteration are those after its
    poll, or those with the flag of the first firing slot set. *)
Lemma loop_trigger_cases (now : RtcDateTime) (current_millis : Z) (st : state) :
  let st1 := loop_poll now current_millis st in
  let st' := loop now current_millis st in
  (trigger_view st' = trigger_view st1
   /\ (bellActive st = false -> bellActive st' = false))
  \/ (exists k,
        0 <= k < total_alarms st1
        /\ fires st1 k = true
        /\ (forall j, 0 <= j < k -> fires st1 j = false)
        /\ bellActive st1 = false
        /\ isWeekend st1 (set_day st1) = false
        /\ trigger_view st'
           = (<[Z.to_nat k := true]> (alarms_triggered_today st1), mm st1)).
Proof.
  cbv zeta. unfold loop.
  pose proof (loop_stop_trigger current_millis
                (loop_start current_millis
                   (loop_poll now current_millis st))) as Hs.
  rewrite Hs.
  destruct (loop_start_cases current_millis (loop_poll now current_millis st))
    as [[E _] | (Hb & Hw & k & Hk & Hf & Hbefore & E)]; rewrite E.
  - left. split; [reflexivity|]. intros Hidle. apply eq_trans with
      (bellActive (loop_poll now current_millis st)).
    + rewrite loop_stop_inactive; [reflexivity|].
      pose proof (loop_poll_bell now current_millis st) as Hv.
      unfold bell_view in Hv. congruence.
    + pose proof (loop_poll_bell now current_millis st) as Hv.
      unfold bell_view in Hv. congruence.
  - right. exists k.
    destruct (start_bell_effect k current_millis
                (loop_poll now current_millis st)) as (_ & Ht & _).
    cbv zeta in Ht. rewrite Ht. repeat split; try assumption; lia.
Qed.

(** An iteration sets at most one flag. *)
Lemma loop_one_flag (now : RtcDateTime) (current_millis : Z) (st : state)
      (i j : Z) :
  let st' := loop now current_millis st in
  0 <= i -> 0 <= j ->
  triggered st i = false -> triggered st' i = true ->
  triggered st j = false -> triggered st' j = true ->
  i = j.
Proof.
  cbv zeta. intros Hi Hj Hi0 Hi1 Hj0 Hj1.
  assert (Hbase : forall x, triggered st x = false ->
            triggered (loop_poll now current_millis st) x = false).
  { intros x Hx. unfold triggered in *.
    destruct (loop_poll_trigger now current_millis st)
      as [E | (_ & _ & _ & E)]; unfold trigger_view in E.
    - replace (alarms_triggered_today (loop_poll now current_millis st))
        with (alarms_triggered_today st) by congruence.
      exact Hx.
    - replace (alarms_triggered_today (loop_poll now current_millis st))
        with (cleared (alarms_triggered_today st)) by congruence.
      destruct (default false (cleared _ !! _)) eqn:Ec; [|reflexivity].
      apply cleared_true in Ec. congruence. }
  apply Hbase in Hi0, Hj0.
  destruct (loop_trigger_cases now current_millis st)
    as [[E _] | (k & Hk & _ & _ & _ & _ & E)];
    cbv zeta in E; unfold trigger_view in E; unfold triggered in *.
  - replace (alarms_triggered_today (loop now current_millis st))
      with (alarms_triggered_today (loop_poll now current_millis st)) in Hi1
      by congruence.
    congruence.
  - replace (alarms_triggered_today (loop now current_millis st))
      with (<[Z.to_nat k := true]>
              (alarms_triggered_today (loop_poll now current_millis st)))
      in Hi1, Hj1 by congruence.
    destruct (Z.eq_dec i k) as [->|Hik].
    + destruct (Z.eq_dec j k) as [->|Hjk]; [reflexivity|].
      rewrite list_lookup_insert_ne in Hj1 by lia. congruence.
    + rewrite list_lookup_insert_ne in Hi1 by lia. congruence.
Qed.

(** With the bell idle on a working day the scan starts the bell for the
    first slot that fires. *)
Lemma loop_start_first (current_millis : Z) (st : state) (i : Z) :
  bellActive st = false -> isWeekend st (set_day st) = false ->
  0 <= i < total_alarms st ->
  fires st i = true ->
  (forall j, 0 <= j < i -> fires st j = false) ->
  loop_start current_millis st = start_bell i current_millis st.
Proof.
  intros Hidle Hw Hi Hf Hbefore.
  destruct (loop_start_cases current_millis st)
    as [[_ Hno] | (_ & _ & k & Hk & Hfk & Hbk & E)].
  - rewrite (Hno Hidle Hw i Hi) in Hf. discriminate.
  - destruct (Z.lt_trichotomy i k) as [Hlt | [-> | Hgt]].
    + rewrite (Hbk i) in Hf by lia. discriminate.
    + exact E.
    + rewrite (Hbefore k) in Hfk by lia. discriminate.
Qed.

(** The firing condition reads the table, the committed time, the flags
    and [lastBellMinute]. *)
Lemma fires_ext (st1 st2 : state) (i : Z) :
  settings_view st1 = settings_view st2 ->
  clock_view st1 = clock_view st2 ->
  trigger_view st1 = trigger_view st2 ->
  fires st1 i = fires st2 i.
Proof.
  intros Hs Hc Ht. unfold fires, triggered.
  rewrite (readAlarm_ext st1 st2 i Hs).
  unfold clock_view in Hc. unfold trigger_view in Ht.
  injection Hc as Hh Hm _ _. injection Ht as Hfl Hlb.
  rewrite Hh, Hm, Hfl, Hlb. reflexivity.
Qed.

Lemma fires_true (st : state) (i h m : Z) :
  readAlarm st i = (h, m) ->
  fires st i = true ->
  h = hh st /\ m = mm st /\ triggered st i = false /\ lastBellMinute st <> mm st.
Proof.
  intros Hr Hf. unfold fires in Hf. rewrite Hr in Hf.
  apply andb_true_iff in Hf. destruct Hf as [Hf Hl].
  apply andb_true_iff in Hf. destruct Hf as [Hf Ht].
  apply andb_true_iff in Hf. destruct Hf as [Hh Hm].
  apply Z.eqb_eq in Hh, Hm. apply negb_true_iff in Ht, Hl.
  apply Z.eqb_neq in Hl. auto.
Qed.

Lemma fires_false (st : state) (i h m : Z) :
  readAlarm st i = (h, m) ->
  fires st i = false ->
  h = hh st -> m = mm st -> lastBellMinute st <> mm st ->
  triggered st i = true.
Proof.
  intros Hr Hf Hh Hm Hl. unfold fires in Hf. rewrite Hr in Hf.
  apply Z.eqb_eq in Hh, Hm. apply Z.eqb_neq in Hl.
  rewrite Hh, Hm, Hl in Hf. cbn [andb negb] in Hf.
  rewrite andb_true_r in Hf. apply negb_false_iff in Hf. exact Hf.
Qed.

(** One iteration keeps the duplicate table in its state: the flag of
    slot 1 stays clear. *)
Lemma duplicate_table_loop (now : RtcDateTime) (current_millis : Z)
      (st : state) :
  duplicate_table st -> duplicate_table (loop now current_millis st).
Proof.
  intros (Ht & H0 & H1 & Hlen & Hf1 & Hf0).
  pose proof (loop_settings now current_millis st) as Hset.
  pose proof (loop_poll_settings now current_millis st) as Hset1.
  set (st1 := loop_poll now current_millis st) in *.
  (* the poll keeps the flags part of the invariant *)
  assert (Hinv1 : length (alarms_triggered_today st1) = Z.to_nat MAX_ALARMS
                  /\ triggered st1 1 = false
                  /\ (triggered st1 0 = true -> lastBellMinute st1 = 0)).
  { unfold triggered in *.
    destruct (loop_poll_trigger now current_millis st)
      as [E | (_ & _ & _ & E)]; fold st1 in E; unfold trigger_view in E;
      injection E as Efl Elb; rewrite Efl, Elb.
    - auto.
    - rewrite length_cleared. split; [exact Hlen|].
      split; [apply cleared_false; reflexivity|].
      intros Hc. rewrite cleared_false in Hc by reflexivity. discriminate. }
  destruct Hinv1 as (Hlen1 & Hf1' & Hf0').
  assert (Hr0 : readAlarm st1 0 = (8, 0))
    by (rewrite (readAlarm_ext st1 st 0 Hset1); exact H0).
  assert (Hr1 : readAlarm st1 1 = (8, 0))
    by (rewrite (readAlarm_ext st1 st 1 Hset1); exact H1).
  assert (Ht1 : total_alarms st1 = 2).
  { unfold settings_view in Hset1. congruence. }
  unfold duplicate_table.
  rewrite (readAlarm_ext _ st 0 Hset), (readAlarm_ext _ st 1 Hset).
  split; [unfold settings_view in Hset; congruence|].
  split; [exact H0|]. split; [exact H1|].
  unfold triggered in *.
  pose proof (loop_trigger_cases now current_millis st) as Hcases.
  cbv zeta in Hcases. fold st1 in Hcases.
  destruct Hcases as [[E _] | (k & Hk & Hfk & Hbefore & _ & _ & E)];
    unfold trigger_view in E; injection E as Efl Elb; rewrite Efl, Elb.
  - auto.
  - rewrite length_insert. split; [exact Hlen1|].
    assert (Hk01 : k = 0 \/ k = 1) by lia.
    destruct Hk01 as [-> | ->].
    + destruct (fires_true st1 0 8 0 Hr0 Hfk) as (_ & Hm & _ & _).
      split; [rewrite list_lookup_insert_ne by (cbv; lia); exact Hf1'|].
      intros _. symmetry. exact Hm.
    + exfalso.
      destruct (fires_true st1 1 8 0 Hr1 Hfk) as (Hh & Hm & _ & Hl).
      assert (Hfired : triggered st1 0 = true).
      { apply (fires_false st1 0 8 0 Hr0); try assumption.
        apply Hbefore. lia. }
      apply Hf0' in Hfired. congruence.
Qed.

Lemma duplicate_table_run (ticks : list (RtcDateTime * Z)) (st : state) :
  duplicate_table st -> duplicate_table (run ticks st).
Proof.
  revert st. induction ticks as [|[now current_millis] ticks IH]; intros st H.
  - exact H.
  - cbn [run fold_left fst snd]. apply IH.
    apply duplicate_table_loop. exact H.
Qed.

(** The Monday morning over the duplicate table. *)
Example duplicates_morning_run :
  duplicate_table duplicates
  /\ take 2 (alarms_triggered_today (run duplicates_morning duplicates))
     = [true; false]
  /\ lastBellMinute (run duplicates_morning duplicates) = 0
  /\ bellActive (run duplicates_morning duplicates) = false.
Proof.
  split.
  - unfold duplicate_table. vm_compute. repeat split; congruence.
  - vm_compute. repeat split.
Qed.

(** C4: with the bell idle on a working day, the scan starts the bell for
    the first slot in table order that matches the current (hour, minute),
    is untriggered and whose minute differs from [lastBellMinute], and for
    no other; it changes nothing when no slot does.  Starting the bell
    sets that one flag; an iteration of the loop sets at most one flag.
    On the duplicate table (8,0), (8,0) the flag of index 1 is never set,
    whatever the iterations; it is index 0 that fires. *)
Theorem first_match_fires :
  (forall current_millis st,
      bellActive st = false -> isWeekend st (set_day st) = false ->
      (forall i,
          0 <= i < total_alarms st ->
          fires st i = true ->
          (forall j, 0 <= j < i -> fires st j = false) ->
          loop_start current_millis st = start_bell i current_millis st
          /\ bellActive (loop_start current_millis st) = true
          /\ alarms_triggered_today (loop_start current_millis st)
             = <[Z.to_nat i := true]> (alarms_triggered_today st)
          /\ lastBellMinute (loop_start current_millis st) = mm st)
      /\ ((forall j, 0 <= j < total_alarms st -> fires st j = false) ->
          loop_start current_millis st = st))
  /\ (forall now current_millis st i j,
        0 <= i -> 0 <= j ->
        triggered st i = false ->
        triggered (loop now current_millis st) i = true ->
        triggered st j = false ->
        triggered (loop now current_millis st) j = true ->
        i = j)
  /\ (forall ticks st,
        duplicate_table st ->
        duplicate_table (run ticks st)
        /\ triggered (run ticks st) 1 = false)
  /\ (duplicate_table duplicates
      /\ take 2 (alarms_triggered_today (run duplicates_morning duplicates))
         = [true; false]).
Proof.
  split; [|split; [|split]].
  - intros current_millis st Hidle Hw. split.
    + intros i Hi Hf Hbefore.
      assert (E : loop_start current_millis st
                  = start_bell i current_millis st)
        by (apply loop_start_first; assumption).
      split; [exact E|]. rewrite E.
      destruct (start_bell_effect i current_millis st) as (Hb & Ht & _).
      cbv zeta in Hb, Ht. unfold bell_view in Hb. unfold trigger_view in Ht.
      repeat split; congruence.
    + intros Hno.
      destruct (loop_start_cases current_millis st)
        as [[E _] | (_ & _ & k & Hk & Hfk & _)]; [exact E|].
      rewrite (Hno k Hk) in Hfk. discriminate.
  - intros now current_millis st i j. apply loop_one_flag.
  - intros ticks st H. pose proof (duplicate_table_run ticks st H) as H'.
    split; [exact H'|]. destruct H' as (_ & _ & _ & _ & Hf1 & _). exact Hf1.
  - destruct duplicates_morning_run as (H1 & H2 & _). split; assumption.
Qed.

(** The duplicate table over its Monday morning. *)
Lemma first_match_fires_witness :
  duplicate_table duplicates
  /\ triggered (run duplicates_morning duplicates) 1 = false.
Proof.
  destruct first_match_fires as (_ & _ & H & Hd & _).
  split; [exact Hd|]. apply (H duplicates_morning duplicates Hd).
Defined.

(** ** The bell session *)

(** With the bell on, an iteration is its poll followed by the stop test. *)
Lemma loop_active (now : RtcDateTime) (current_millis : Z) (st : state) :
  bellActive st = true ->
  loop now current_millis st
  = loop_stop current_millis (loop_poll now current_millis st).
Proof.
  intros Hon. unfold loop. rewrite loop_start_active; [reflexivity|].
  pose proof (loop_poll_bell now current_millis st) as Hb.
  unfold bell_view in Hb. congruence.
Qed.

(** The stop test of an iteration with the bell on: the session goes on
    below the threshold [bell_millis] and ends from it on. *)
Lemma bell_session_loop (now : RtcDateTime) (current_millis : Z) (st : state) :
  bellActive st = true ->
  let st' := loop now current_millis st in
  (elapsed current_millis st < bell_millis st ->
   bellActive st' = true /\ relay st' = relay st /\ led_bell st' = led_bell st
   /\ bellStart st' = bellStart st)
  /\ (bell_millis st <= elapsed current_millis st ->
      bellActive st' = false /\ relay st' = false /\ led_bell st' = false).
Proof.
  intros Hon. cbv zeta. rewrite (loop_active now current_millis st Hon).
  pose proof (loop_poll_bell now current_millis st) as Hb.
  pose proof (loop_poll_settings now current_millis st) as Hs.
  set (st1 := loop_poll now current_millis st) in *.
  unfold bell_view in Hb. unfold settings_view in Hs.
  assert (Hm : bell_millis st1 = bell_millis st)
    by (unfold bell_millis; congruence).
  assert (He : elapsed current_millis st1 = elapsed current_millis st)
    by (unfold elapsed; congruence).
  destruct (loop_stop_cases current_millis st1)
    as [(_ & Hge & E) | [Hlt E]]; rewrite E.
  - split; [intros H; lia|]. intros _. repeat split.
  - destruct Hlt as [Hoff | Hlt]; [congruence|].
    split; [|intros H; lia]. intros _. repeat split; congruence.
Qed.

(** Up to 32 s the product [bell_duration * 1000] is an [int]. *)
Lemma bell_millis_small (st : state) :
  0 <= bell_duration st <= 32 -> bell_millis st = bell_duration st * 1000.
Proof.
  intros H. unfold bell_millis, int, unsigned_long.
  rewrite (Z.mod_small (bell_duration st * 1000 + 32768)) by lia.
  rewrite Z.mod_small by lia. lia.
Qed.

(** From 33 s to 65 s the product overflows into a negative [int], which
    the conversion to [unsigned long] makes a threshold of more than 49
    days. *)
Lemma bell_millis_overflow (st : state) :
  33 <= bell_duration st <= 65 ->
  bell_millis st = 4294901760 + bell_duration st * 1000.
Proof.
  intros H. unfold bell_millis, int, unsigned_long.
  replace (bell_duration st * 1000 + 32768)
    with (bell_duration st * 1000 - 32768 + 1 * 65536) by lia.
  rewrite Z.mod_add by lia.
  rewrite (Z.mod_small (bell_duration st * 1000 - 32768)) by lia.
  replace (bell_duration st * 1000 - 32768 - 32768)
    with (4294901760 + bell_duration st * 1000 + (-1) * 4294967296) by lia.
  rewrite Z.mod_add by lia. apply Z.mod_small. lia.
Qed.

(** For a duration of at most 32 s a session lasts as configured: on
    below [bell_duration] seconds of elapsed time, off from there on. *)
Lemma bell_session_short (now : RtcDateTime) (current_millis : Z) (st : state) :
  bellActive st = true -> 1 <= bell_duration st <= 32 ->
  let st' := loop now current_millis st in
  (elapsed current_millis st < bell_duration st * 1000 ->
   bellActive st' = true /\ relay st' = relay st)
  /\ (bell_duration st * 1000 <= elapsed current_millis st ->
      bellActive st' = false /\ relay st' = false).
Proof.
  intros Hon Hd. cbv zeta.
  destruct (bell_session_loop now current_millis st Hon) as [Hlt Hge].
  cbv zeta in Hlt, Hge. rewrite bell_millis_small in Hlt, Hge by lia.
  split; intros H; [apply Hlt in H | apply Hge in H]; tauto.
Qed.

(** The session of the default duration of 30 s started at 3600000 ms:
    on at 29.9 s, off at 30.0 s. *)
Example bell_session_30_seconds :
  let st := loop (at_time 1 8 0 0) 3600000 duplicates in
  bellActive st = true /\ bellStart st = 3600000 /\ bell_duration st = 30
  /\ bellActive (loop (at_time 1 8 0 29) 3629900 st) = true
  /\ relay (loop (at_time 1 8 0 29) 3629900 st) = true
  /\ bellActive (loop (at_time 1 8 0 30) 3630000 st) = false
  /\ relay (loop (at_time 1 8 0 30) 3630000 st) = false.
Proof. vm_compute. repeat split. Qed.

(** C7, at a duration of 33 s: the value passes the validation of
    [setup]; the threshold of the stop test is 4294934760 ms, so that the
    session started at 3600000 ms stays on, with the relay energised, in
    every iteration below that elapsed time: it is found on 33 s, 34 s and
    one hour after its start. *)
Theorem bell_of_33_seconds_stays_on :
  (bellActive bell_of_33_seconds = true
   /\ bellStart bell_of_33_seconds = 3600000
   /\ bell_duration bell_of_33_seconds = 33
   /\ EEPROM.read (eeprom bell_of_33_seconds) BELL_DURATION_ADDR = 33
   /\ bell_duration
        (setup (at_time 1 9 0 0) (power_on (eeprom bell_of_33_seconds))) = 33
   /\ bell_millis bell_of_33_seconds = 4294934760)
  /\ (forall now current_millis,
        elapsed current_millis bell_of_33_seconds < 4294934760 ->
        bellActive (loop now current_millis bell_of_33_seconds) = true
        /\ relay (loop now current_millis bell_of_33_seconds) = true)
  /\ (elapsed 3633000 bell_of_33_seconds = 33000
      /\ bell_view (loop (at_time 1 8 0 33) 3633000 bell_of_33_seconds)
         = (true, 3600000, true, true)
      /\ bell_view (loop (at_time 1 8 0 34) 3634000 bell_of_33_seconds)
         = (true, 3600000, true, true)
      /\ bell_view (loop (at_time 1 9 0 0) 7200000 bell_of_33_seconds)
         = (true, 3600000, true, true)).
Proof.
  assert (Hon : bellActive bell_of_33_seconds = true)
    by (vm_compute; reflexivity).
  assert (Hm : bell_millis bell_of_33_seconds = 4294934760)
    by (vm_compute; reflexivity).
  split; [vm_compute; repeat split|]. split; [|vm_compute; repeat split].
  intros now current_millis Hlt.
  destruct (bell_session_loop now current_millis bell_of_33_seconds Hon)
    as [Hgo _]. cbv zeta in Hgo. rewrite Hm in Hgo.
  destruct (Hgo Hlt) as (Ha & Hr & _).
  split; [exact Ha|]. rewrite Hr. vm_compute. reflexivity.
Qed.

(** ** A failed clock reading *)

Lemma insert_true_keeps (fl : list bool) (k i : nat) :
  default false (fl !! i) = true ->
  default false (<[k := true]> fl !! i) = true.
Proof.
  intros H. destruct (decide (k = i)) as [->|Hne].
  - destruct (decide (i < length fl)%nat) as [Hlt|Hge].
    + rewrite list_lookup_insert_eq by exact Hlt. reflexivity.
    + rewrite list_insert_ge by lia. exact H.
  - rewrite list_lookup_insert_ne by exact Hne. exact H.
Qed.

(** C3 as stated fails: the bell of 08:00 of [two_minutes] has ended; the
    next iteration polls the clock, the reading fails, and the scan starts
    the bell of 08:01 against the retained time. *)
Lemma invalid_reading_starts_bell :
  let st := run two_minutes_bell two_minutes in
  let st' := loop no_time 3676000 st in
  IsValid no_time = false
  /\ polls 3676000 st = true
  /\ clock_view st = (8, 1, 10, 2)
  /\ bell_view st = (false, 3645000, false, false)
  /\ bell_view st' = (true, 3676000, true, true)
  /\ triggered st 1 = false /\ triggered st' 1 = true
  /\ lastBellMinute st = 0 /\ lastBellMinute st' = 1
  /\ ~ (trigger_view st' = trigger_view st /\ bell_view st' = bell_view st).
Proof.
  vm_compute. repeat split; try reflexivity.
  intros [H _]. discriminate H.
Qed.

(** C3, amended: on a failed reading [updateTimeFromRTC] assigns
    [rtc_valid] and nothing else, so that an iteration keeps the hour,
    minute, second and day of the last good reading and the settings, and
    runs no day rollover: a set flag stays set, and [lastBellMinute]
    changes only when a bell starts.  The scan of the loop is not
    skipped: with the bell idle on a working day, the first slot that
    fires against the retained time starts the bell.  A bell session that
    is on and below its threshold stays on with its relay, and flags and
    [lastBellMinute] are kept. *)
Theorem invalid_reading_tick (now : RtcDateTime) (current_millis : Z)
        (st : state) :
  IsValid now = false ->
  let st' := loop now current_millis st in
  updateTimeFromRTC now st = set_rtc_valid false st
  /\ clock_view st' = clock_view st
  /\ settings_view st' = settings_view st
  /\ trigger_view (loop_poll now current_millis st) = trigger_view st
  /\ (forall i, triggered st i = true -> triggered st' i = true)
  /\ (lastBellMinute st' = lastBellMinute st
      \/ (bellActive st = false /\ lastBellMinute st' = mm st))
  /\ (bellActive st = false -> isWeekend st (set_day st) = false ->
      forall i,
        0 <= i < total_alarms st ->
        fires st i = true ->
        (forall j, 0 <= j < i -> fires st j = false) ->
        trigger_view st'
        = (<[Z.to_nat i := true]> (alarms_triggered_today st), mm st)
        /\ bellStart st' = current_millis)
  /\ (bellActive st = true -> elapsed current_millis st < bell_millis st ->
      bell_view st' = bell_view st /\ trigger_view st' = trigger_view st).
Proof.
  intros Hv st'.
  destruct (loop_poll_invalid now current_millis st Hv) as [Hc1 Ht1].
  pose proof (loop_poll_bell now current_millis st) as Hb1.
  pose proof (loop_poll_settings now current_millis st) as Hs1.
  set (st1 := loop_poll now current_millis st) in *.
  assert (Hc : clock_view st' = clock_view st).
  { unfold st', loop. fold st1.
    rewrite loop_stop_clock, loop_start_clock. exact Hc1. }
  split; [apply updateTimeFromRTC_invalid; exact Hv|].
  split; [exact Hc|].
  split; [apply loop_settings|].
  split; [exact Ht1|].
  pose proof (loop_trigger_cases now current_millis st) as Hcases.
  cbv zeta in Hcases. fold st1 st' in Hcases.
  split; [|split; [|split]].
  - intros i Hi. unfold triggered, trigger_view in *.
    injection Ht1 as Hfl1 Hlb1.
    destruct Hcases as [[E _] | (k & _ & _ & _ & _ & _ & E)];
      injection E as Efl Elb; rewrite Efl.
    + rewrite Hfl1. exact Hi.
    + apply insert_true_keeps. rewrite Hfl1. exact Hi.
  - unfold trigger_view, clock_view, bell_view in *.
    injection Ht1 as Hfl1 Hlb1. injection Hc1 as Hh1 Hm1 Hss1 Hd1.
    injection Hb1 as Hba1 Hbs1 Hr1 Hl1.
    destruct Hcases as [[E _] | (k & _ & _ & _ & Hidle & _ & E)];
      injection E as Efl Elb.
    + left. congruence.
    + right. split; congruence.
  - intros Hidle Hw i Hi Hf Hbefore.
    assert (Hfires : forall j, fires st1 j = fires st j)
      by (intros j; apply fires_ext; assumption).
    assert (Es : loop_start current_millis st1
                 = start_bell i current_millis st1).
    { apply loop_start_first.
      - unfold bell_view in Hb1. congruence.
      - rewrite (isWeekend_ext st1 st)
          by (unfold settings_view in Hs1; congruence).
        unfold clock_view in Hc1. congruence.
      - unfold settings_view in Hs1. congruence.
      - rewrite Hfires. exact Hf.
      - intros j Hj. rewrite Hfires. apply Hbefore. exact Hj. }
    destruct (start_bell_effect i current_millis st1) as (Hbe & Hte & _).
    cbv zeta in Hbe, Hte. rewrite <- Es in Hbe, Hte.
    unfold st', loop. fold st1.
    set (st2 := loop_start current_millis st1) in *.
    split.
    + rewrite loop_stop_trigger, Hte.
      unfold trigger_view, clock_view in Ht1, Hc1. congruence.
    + unfold bell_view in Hbe.
      destruct (loop_stop_cases current_millis st2)
        as [(_ & _ & E) | [_ E]]; rewrite E; fields; congruence.
  - intros Hon Hlt.
    destruct (bell_session_loop now current_millis st Hon) as [Hgo _].
    cbv zeta in Hgo. fold st' in Hgo.
    destruct (Hgo Hlt) as (Ha & Hr & Hl & Hs).
    unfold bell_view.
    split; [congruence|].
    unfold st'. rewrite (loop_active now current_millis st Hon). fold st1.
    pose proof (loop_stop_trigger current_millis st1) as Hst.
    unfold trigger_view in *. congruence.
Qed.

(** A failed reading during the bell of 08:00 of [two_minutes]. *)
Lemma invalid_reading_tick_witness :
  let st := loop (at_time 1 8 0 45) 3645000 two_minutes in
  let st' := loop no_time 3646000 st in
  IsValid no_time = false
  /\ bellActive st = true
  /\ clock_view st' = clock_view st
  /\ bell_view st' = bell_view st
  /\ trigger_view st' = trigger_view st.
Proof.
  cbv zeta.
  pose proof (invalid_reading_tick no_time 3646000
                (loop (at_time 1 8 0 45) 3645000 two_minutes) eq_refl) as H.
  cbv zeta in H. destruct H as (_ & Hc & _ & _ & _ & _ & _ & Hb).
  split; [reflexivity|]. split; [vm_compute; reflexivity|].
  split; [exact Hc|]. apply Hb; vm_compute; reflexivity.
Defined.

(** ** Boot *)

Lemma initializeEEPROM_marked (st : state) :
  EEPROM.read (eeprom st) EEPROM_INIT_FLAG = 170 -> initializeEEPROM st = st.
Proof.
  intros H. unfold initializeEEPROM. rewrite H. reflexivity.
Qed.

(** What follows the validation in [setup] leaves the settings alone. *)
Lemma setup_settings_view (now : RtcDateTime) (st : state) :
  settings_view (setup now st)
  = settings_view (setup_settings (initializeEEPROM (set_pins false false st))).
Proof.
  unfold setup, quickBellTest.
  set (st1 := setup_settings (initializeEEPROM (set_pins false false st))).
  destruct (findNextBell_shape
              (set_last_checked_day (set_day (updateTimeFromRTC now st1))
                 (updateTimeFromRTC now st1))) as (h & m & b & E).
  rewrite E.
  destruct (updateTimeFromRTC_cases now st1)
    as [[_ Eu] | [(_ & _ & Eu) | (_ & _ & Eu)]]; rewrite Eu; reflexivity.
Qed.

(** The validation of the three persisted settings. *)
Lemma setup_settings_spec (st : state) :
  let b := EEPROM.read (eeprom st) BELL_DURATION_ADDR in
  let w := EEPROM.read (eeprom st) WEEKEND_DAY_ADDR in
  let n := EEPROM.read (eeprom st) ALARM_COUNT_ADDR in
  settings_view (setup_settings st)
  = ((if n >? MAX_ALARMS then EEPROM.write ALARM_COUNT_ADDR 0 else id)
       ((if (w <? 1) || (w >? 7) then EEPROM.write WEEKEND_DAY_ADDR 6 else id)
          ((if (b <? MIN_BELL_DURATION) || (b >? MAX_BELL_DURATION)
            then EEPROM.write BELL_DURATION_ADDR 3 else id) (eeprom st))),
     (if (b <? MIN_BELL_DURATION) || (b >? MAX_BELL_DURATION) then 3 else b),
     (if (w <? 1) || (w >? 7) then 6 else w),
     (if n >? MAX_ALARMS then 0 else n)).
Proof.
  cbv zeta. unfold setup_settings. fields.
  destruct ((EEPROM.read (eeprom st) BELL_DURATION_ADDR <? MIN_BELL_DURATION)
            || (EEPROM.read (eeprom st) BELL_DURATION_ADDR >? MAX_BELL_DURATION));
    fields;
    destruct ((EEPROM.read (eeprom st) WEEKEND_DAY_ADDR <? 1)
              || (EEPROM.read (eeprom st) WEEKEND_DAY_ADDR >? 7)); fields;
    destruct (EEPROM.read (eeprom st) ALARM_COUNT_ADDR >? MAX_ALARMS);
    reflexivity.
Qed.

Lemma read_write_cell (e : list Z) (a v : Z) :
  holds_table e -> 0 <= a < ALARM_DATA_START -> 0 <= v < 256 ->
  EEPROM.read (EEPROM.write a v e) a = v.
Proof.
  intros Hlen Ha Hv. unfold holds_table, ALARM_DATA_START, MAX_ALARMS in *.
  rewrite read_write_eq by lia. apply uint8_t_id. exact Hv.
Qed.

Lemma holds_table_write (e : list Z) (a v : Z) :
  holds_table e -> holds_table (EEPROM.write a v e).
Proof. unfold holds_table. rewrite length_write. trivial. Qed.

(** The validation of [setup] on a store that carries the 0xAA mark:
    what is replaced, what is kept, and the cells written. *)
Lemma setup_marked_store (now : RtcDateTime) (e : list Z) :
  holds_table e ->
  EEPROM.read e EEPROM_INIT_FLAG = 170 ->
  let b := EEPROM.read e BELL_DURATION_ADDR in
  let w := EEPROM.read e WEEKEND_DAY_ADDR in
  let n := EEPROM.read e ALARM_COUNT_ADDR in
  let st := setup now (power_on e) in
  (b < 1 \/ 99 < b ->
   bell_duration st = 3 /\ EEPROM.read (eeprom st) BELL_DURATION_ADDR = 3)
  /\ (1 <= b <= 99 ->
      bell_duration st = b /\ EEPROM.read (eeprom st) BELL_DURATION_ADDR = b)
  /\ (w < 1 \/ 7 < w ->
      weekend st = 6 /\ EEPROM.read (eeprom st) WEEKEND_DAY_ADDR = 6)
  /\ (1 <= w <= 7 ->
      weekend st = w /\ EEPROM.read (eeprom st) WEEKEND_DAY_ADDR = w)
  /\ (30 < n ->
      total_alarms st = 0 /\ EEPROM.read (eeprom st) ALARM_COUNT_ADDR = 0)
  /\ (n <= 30 ->
      total_alarms st = n /\ EEPROM.read (eeprom st) ALARM_COUNT_ADDR = n)
  /\ (1 <= b <= 99 -> 1 <= w <= 7 -> n <= 30 -> eeprom st = e)
  /\ (forall a, 0 <= a -> a <> BELL_DURATION_ADDR -> a <> WEEKEND_DAY_ADDR ->
                a <> ALARM_COUNT_ADDR ->
                EEPROM.read (eeprom st) a = EEPROM.read e a).
Proof.
  intros Hlen Hflag b w n st.
  assert (Hview : settings_view st
            = settings_view (setup_settings (set_pins false false (power_on e)))).
  { unfold st. rewrite setup_settings_view.
    rewrite initializeEEPROM_marked by exact Hflag. reflexivity. }
  rewrite setup_settings_spec in Hview.
  cbn [eeprom set_pins power_on] in Hview. fold b w n in Hview.
  clearbody st.
  unfold settings_view in Hview. injection Hview as He Hb Hw Hn.
  rewrite He, Hb, Hw, Hn. clear He Hb Hw Hn.
  unfold MIN_BELL_DURATION, MAX_BELL_DURATION, MAX_ALARMS.
  rewrite !Z.gtb_ltb.
  pose proof (holds_table_write e BELL_DURATION_ADDR 3 Hlen) as Hlen1.
  pose proof (holds_table_write e WEEKEND_DAY_ADDR 6 Hlen) as Hlen2.
  pose proof (holds_table_write _ WEEKEND_DAY_ADDR 6 Hlen1) as Hlen3.
  assert (Hne1 : BELL_DURATION_ADDR <> WEEKEND_DAY_ADDR) by discriminate.
  assert (Hne2 : BELL_DURATION_ADDR <> ALARM_COUNT_ADDR) by discriminate.
  assert (Hne3 : WEEKEND_DAY_ADDR <> ALARM_COUNT_ADDR) by discriminate.
  assert (Hr1 : 0 <= BELL_DURATION_ADDR < ALARM_DATA_START) by (cbv; intuition discriminate).
  assert (Hr2 : 0 <= WEEKEND_DAY_ADDR < ALARM_DATA_START) by (cbv; intuition discriminate).
  assert (Hr3 : 0 <= ALARM_COUNT_ADDR < ALARM_DATA_START) by (cbv; intuition discriminate).
  destruct (Z.ltb_spec b 1) as [Hb1|Hb1];
    destruct (Z.ltb_spec 99 b) as [Hb2|Hb2];
    destruct (Z.ltb_spec w 1) as [Hw1|Hw1];
    destruct (Z.ltb_spec 7 w) as [Hw2|Hw2];
    destruct (Z.ltb_spec 30 n) as [Hn1|Hn1];
    cbn [orb id];
    (repeat split; intros;
     try lia;
     rewrite ?(read_write_ne _ ALARM_COUNT_ADDR) by lia;
     rewrite ?(read_write_ne _ WEEKEND_DAY_ADDR) by lia;
     rewrite ?(read_write_ne _ BELL_DURATION_ADDR) by lia;
     rewrite ?read_write_cell by (try lia; repeat apply holds_table_write; assumption);
     reflexivity).
Qed.

(** A first boot, on an erased store: the defaults written by
    [initializeEEPROM] pass the validation. *)
Example setup_first_boot :
  settings_view first_boot
  = (eeprom first_boot, 30, 6, 0)
  /\ EEPROM.read (eeprom first_boot) EEPROM_INIT_FLAG = 170
  /\ EEPROM.read (eeprom first_boot) BELL_DURATION_ADDR = 30
  /\ EEPROM.read (eeprom first_boot) WEEKEND_DAY_ADDR = 6
  /\ EEPROM.read (eeprom first_boot) ALARM_COUNT_ADDR = 0
  /\ take 60 (drop 50 (eeprom first_boot)) = replicate 60 0.
Proof. vm_compute. repeat split. Qed.

(** ** Day rollover *)

(** C2, in [updateTimeFromRTC] and at the change from Thursday to Friday:
    a valid reading of another day clears the flags of all slots and sets
    [lastBellMinute] to -1; a failed reading or one of the same day leaves
    both; in no case does [updateTimeFromRTC] assign the next-bell
    variables.  After the iteration that commits the Friday, the bell of
    08:00 is still announced, where [findNextBell] on that state announces
    none. *)
Theorem day_rollover_keeps_next_bell :
  (forall now st,
      IsValid now = true -> DayOfWeek now + 1 <> set_day st ->
      let st' := updateTimeFromRTC now st in
      set_day st' = DayOfWeek now + 1
      /\ (forall i, i < MAX_ALARMS -> triggered st' i = false)
      /\ lastBellMinute st' = -1)
  /\ (forall now st,
        IsValid now = false \/ DayOfWeek now + 1 = set_day st ->
        trigger_view (updateTimeFromRTC now st) = trigger_view st)
  /\ (forall now st, next_bell (updateTimeFromRTC now st) = next_bell st)
  /\ (let st' := loop (at_time 5 0 0 0) 61200000 thursday_night in
      polls 61200000 thursday_night = true
      /\ set_day thursday_night = 5 /\ set_day st' = 6
      /\ triggered thursday_night 0 = true
      /\ lastBellMinute thursday_night = 0
      /\ alarms_triggered_today st' = replicate (Z.to_nat MAX_ALARMS) false
      /\ lastBellMinute st' = -1
      /\ next_bell thursday_night = Some (8, 0)
      /\ next_bell st' = Some (8, 0)
      /\ isWeekend st' (set_day st') = true
      /\ next_bell (findNextBell st') = None).
Proof.
  split; [|split; [|split]].
  - intros now st Hv Hd. cbv zeta.
    rewrite (updateTimeFromRTC_new_day now st Hv Hd).
    split; [reflexivity|]. split; [|reflexivity].
    intros i Hi. unfold triggered. fields. apply cleared_false. exact Hi.
  - intros now st [Hv | Hd].
    + rewrite updateTimeFromRTC_invalid by exact Hv. reflexivity.
    + destruct (updateTimeFromRTC_cases now st)
        as [[_ E] | [(_ & _ & E) | (_ & Hne & _)]];
        [rewrite E; reflexivity | rewrite E; reflexivity | contradiction].
  - intros now st.
    destruct (updateTimeFromRTC_cases now st)
      as [[_ E] | [(_ & _ & E) | (_ & _ & E)]]; rewrite E; reflexivity.
  - vm_compute. repeat split.
Qed.

(** ** One bell per alarm and day *)

(** A triggered slot does not fire: no alarm rings twice between two
    resets of the flags. *)
Lemma fires_triggered (st : state) (i : Z) :
  triggered st i = true -> fires st i = false.
Proof.
  intros H. unfold fires. destruct (readAlarm st i) as [h m].
  rewrite H. cbn [negb]. rewrite andb_false_r. reflexivity.
Qed.

(** A slot whose minute is [lastBellMinute] does not fire. *)
Lemma fires_last_minute (st : state) (i h : Z) :
  readAlarm st i = (h, lastBellMinute st) -> fires st i = false.
Proof.
  intros Hr. unfold fires. rewrite Hr.
  destruct (h =? hh st), (triggered st i), (lastBellMinute st =? mm st);
    reflexivity.
Qed.

(** Within the day the poll keeps the day, the flags and
    [lastBellMinute]. *)
Lemma loop_poll_same_day (now : RtcDateTime) (current_millis : Z) (st : state) :
  IsValid now = false \/ DayOfWeek now + 1 = set_day st ->
  set_day (loop_poll now current_millis st) = set_day st
  /\ trigger_view (loop_poll now current_millis st) = trigger_view st.
Proof.
  intros Hday.
  destruct (loop_poll_cases now current_millis st) as [[_ E] | [_ E]];
    rewrite E; [split; reflexivity|].
  destruct (updateTimeFromRTC_cases now (set_last_rtc_update current_millis st))
    as [[_ Eu] | [(_ & Hd & Eu) | (Hv & Hne & _)]].
  - rewrite Eu. split; reflexivity.
  - rewrite Eu. split; [exact Hd | reflexivity].
  - destruct Hday as [Hi | Hd]; [congruence | contradiction].
Qed.

(** Once the bell of 08:00 has rung, no iteration of the same day starts
    a bell: the alarm of 09:00 has the minute of the last bell. *)
Lemma hourly_after_first_loop (now : RtcDateTime) (current_millis : Z)
      (st : state) :
  hourly_after_first st ->
  IsValid now = false \/ DayOfWeek now + 1 = set_day st ->
  hourly_after_first (loop now current_millis st)
  /\ set_day (loop now current_millis st) = set_day st
  /\ (bellActive st = false ->
      bell_view (loop now current_millis st) = bell_view st).
Proof.
  intros (Ht & H0 & H1 & Hf0 & Hf1 & Hlb) Hday.
  pose proof (loop_settings now current_millis st) as Hset.
  pose proof (loop_poll_settings now current_millis st) as Hset1.
  pose proof (loop_poll_bell now current_millis st) as Hbell1.
  destruct (loop_poll_same_day now current_millis st Hday) as [Hd1 Htr1].
  destruct (loop_day now current_millis st) as [Hd _]. cbv zeta in Hd.
  unfold loop in *.
  set (st1 := loop_poll now current_millis st) in *.
  assert (Hr0 : readAlarm st1 0 = (8, 0))
    by (rewrite (readAlarm_ext st1 st 0 Hset1); exact H0).
  assert (Hr1 : readAlarm st1 1 = (9, 0))
    by (rewrite (readAlarm_ext st1 st 1 Hset1); exact H1).
  assert (Ht1 : total_alarms st1 = 2)
    by (unfold settings_view in Hset1; congruence).
  assert (Hlb1 : lastBellMinute st1 = 0)
    by (unfold trigger_view in Htr1; congruence).
  assert (Es : loop_start current_millis st1 = st1).
  { destruct (loop_start_cases current_millis st1)
      as [[E _] | (_ & _ & k & Hk & Hfk & _)]; [exact E|].
    exfalso. assert (Hk01 : k = 0 \/ k = 1) by lia.
    destruct Hk01 as [-> | ->].
    - rewrite (fires_last_minute st1 0 8) in Hfk by congruence. discriminate.
    - rewrite (fires_last_minute st1 1 9) in Hfk by congruence. discriminate. }
  rewrite Es in *.
  pose proof (loop_stop_trigger current_millis st1) as Htr.
  split; [|split; [congruence|]].
  - unfold hourly_after_first, triggered in *.
    rewrite (readAlarm_ext _ st 0 Hset), (readAlarm_ext _ st 1 Hset).
    unfold settings_view, trigger_view in *.
    replace (alarms_triggered_today (loop_stop current_millis st1))
      with (alarms_triggered_today st) by congruence.
    repeat split; congruence.
  - intros Hoff. rewrite loop_stop_inactive; [exact Hbell1|].
    unfold bell_view in Hbell1. congruence.
Qed.

Lemma hourly_after_first_run (ticks : list (RtcDateTime * Z)) (st : state) :
  hourly_after_first st ->
  same_day (set_day st) ticks ->
  hourly_after_first (run ticks st)
  /\ (bellActive st = false -> bell_view (run ticks st) = bell_view st).
Proof.
  revert st. induction ticks as [|[now current_millis] ticks IH];
    intros st H Hday.
  - split; [exact H | trivial].
  - apply Forall_cons in Hday. destruct Hday as [Hnow Hrest].
    cbn [fst] in Hnow.
    destruct (hourly_after_first_loop now current_millis st H Hnow)
      as (H' & Hd & Hidle).
    cbn [run fold_left fst snd]. rewrite <- Hd in Hrest.
    destruct (IH _ H' Hrest) as [Hinv Hidle'].
    split; [exact Hinv|]. intros Hoff.
    specialize (Hidle Hoff). rewrite <- Hidle. apply Hidle'.
    unfold bell_view in Hidle. congruence.
Qed.

(** C1, on the table (8,0), (9,0): once the bell of 08:00 has rung and
    ended, no sequence of iterations of the same day, however long, sets
    the flag of the alarm of 09:00 or starts a bell; on the Monday of
    [hourly] the polls of 09:00:00 to 09:01:00 match the alarm and leave
    the bell off, the flag clear and 09:00 announced as the next bell. *)
Theorem second_hourly_bell_never_rings :
  (forall ticks st,
      hourly_after_first st ->
      bellActive st = false ->
      same_day (set_day st) ticks ->
      triggered (run ticks st) 1 = false
      /\ bellActive (run ticks st) = false
      /\ relay (run ticks st) = relay st)
  /\ (let st := run hourly_first_bell hourly in
      let st' := run hourly_second_bell st in
      hourly_after_first st
      /\ bell_view st = (false, 3600000, false, false)
      /\ set_day st = 2 /\ isWeekend st (set_day st) = false
      /\ same_day 2 hourly_second_bell
      /\ clock_view (run (take 2 hourly_second_bell) st) = (9, 0, 0, 2)
      /\ bell_view (run (take 2 hourly_second_bell) st)
         = (false, 3600000, false, false)
      /\ clock_view st' = (9, 1, 0, 2)
      /\ bell_view st' = (false, 3600000, false, false)
      /\ triggered st' 1 = false
      /\ next_bell st' = Some (9, 0)).
Proof.
  split.
  - intros ticks st H Hoff Hday.
    destruct (hourly_after_first_run ticks st H Hday) as [Hinv Hidle].
    destruct Hinv as (_ & _ & _ & _ & Hf1 & _).
    specialize (Hidle Hoff). unfold bell_view in Hidle.
    split; [exact Hf1|]. split; congruence.
  - cbv zeta. split; [unfold hourly_after_first; vm_compute; repeat split|].
    split; [vm_compute; reflexivity|]. split; [vm_compute; reflexivity|].
    split; [vm_compute; reflexivity|].
    split.
    { unfold same_day, hourly_second_bell.
      repeat (apply Forall_cons; split; [right; reflexivity|]).
      apply Forall_nil. exact I. }
    vm_compute. repeat split.
Qed.

(** * The rest of the sketch *)

#[global] Arguments zero_cells : simpl never.
#[global] Arguments resetAllAlarms : simpl never.

(** Reads a field through the assignments made to the sketch. *)
Ltac efields :=
  cbn [core edit on_core on_edit
       setMode field current_alarm alarm_hour alarm_minute show_cursor
       cursor_blink_time last_button_time btn_set_prev btn_next_prev
       btn_up_prev btn_down_prev reset_start_time rtc_set
       set_last_button_time set_setMode set_field set_current_alarm
       set_alarm_time set_cursor set_btn_set_prev set_btn_next_prev
       set_btn_up_prev set_btn_down_prev set_reset_start_time set_rtc_set
       bt_set bt_next bt_up bt_down fst snd];
  fields.

Ltac efields_in H :=
  cbn [core edit on_core on_edit
       setMode field current_alarm alarm_hour alarm_minute show_cursor
       cursor_blink_time last_button_time btn_set_prev btn_next_prev
       btn_up_prev btn_down_prev reset_start_time rtc_set
       set_last_button_time set_setMode set_field set_current_alarm
       set_alarm_time set_cursor set_btn_set_prev set_btn_next_prev
       set_btn_up_prev set_btn_down_prev set_reset_start_time set_rtc_set
       bt_set bt_next bt_up bt_down fst snd] in H;
  fields_in H.

(** ** Zeroing the alarm table *)

Lemma fold_EEPROM_write_zero (ixs : list nat) (st : state) :
  fold_left (fun s i => EEPROM_write (ALARM_DATA_START + Z.of_nat i) 0 s)
            ixs st
  = set_eeprom
      (fold_left (fun l i => EEPROM.write (ALARM_DATA_START + Z.of_nat i) 0 l)
                 ixs (eeprom st))
      st.
Proof.
  revert st. induction ixs as [|i ixs IH]; intros st.
  - destruct st; reflexivity.
  - cbn [fold_left]. rewrite IH. reflexivity.
Qed.

Lemma length_fold_write_zero (ixs : list nat) (e : list Z) :
  length (fold_left
            (fun l i => EEPROM.write (ALARM_DATA_START + Z.of_nat i) 0 l)
            ixs e)
  = length e.
Proof.
  revert e. induction ixs as [|i ixs IH]; intros e; cbn [fold_left];
    [reflexivity|].
  rewrite IH. apply length_write.
Qed.

Lemma read_fold_write_zero_other (ixs : list nat) (e : list Z) (a : Z) :
  0 <= a ->
  (forall i, In i ixs -> a <> ALARM_DATA_START + Z.of_nat i) ->
  EEPROM.read
    (fold_left (fun l i => EEPROM.write (ALARM_DATA_START + Z.of_nat i) 0 l)
               ixs e) a
  = EEPROM.read e a.
Proof.
  intros Ha. revert e. induction ixs as [|i ixs IH]; intros e Hout;
    cbn [fold_left]; [reflexivity|].
  rewrite IH by (intros j Hj; apply Hout; right; exact Hj).
  apply read_write_ne.
  - unfold ALARM_DATA_START. lia.
  - exact Ha.
  - intros E. apply (Hout i); [left; reflexivity | symmetry; exact E].
Qed.

Lemma write_zero_keeps_zero (e : list Z) (a b : Z) :
  0 <= a -> 0 <= b ->
  EEPROM.read e a = 0 -> EEPROM.read (EEPROM.write b 0 e) a = 0.
Proof.
  intros Ha Hb H. destruct (Z.eq_dec b a) as [->|Hne].
  - destruct (decide (Z.to_nat a < length e)%nat) as [Hlt|Hge].
    + rewrite read_write_eq by assumption. reflexivity.
    + unfold EEPROM.write. rewrite list_insert_ge by lia. exact H.
  - rewrite read_write_ne by assumption. exact H.
Qed.

Lemma read_fold_write_zero_keeps (ixs : list nat) (e : list Z) (a : Z) :
  0 <= a -> EEPROM.read e a = 0 ->
  EEPROM.read
    (fold_left (fun l i => EEPROM.write (ALARM_DATA_START + Z.of_nat i) 0 l)
               ixs e) a
  = 0.
Proof.
  intros Ha. revert e. induction ixs as [|i ixs IH]; intros e H;
    cbn [fold_left]; [exact H|].
  apply IH. apply write_zero_keeps_zero;
    [exact Ha | unfold ALARM_DATA_START; lia | exact H].
Qed.

Lemma read_fold_write_zero_in (ixs : list nat) (e : list Z) (i : nat) :
  In i ixs ->
  (Z.to_nat (ALARM_DATA_START + Z.of_nat i) < length e)%nat ->
  EEPROM.read
    (fold_left (fun l j => EEPROM.write (ALARM_DATA_START + Z.of_nat j) 0 l)
               ixs e) (ALARM_DATA_START + Z.of_nat i)
  = 0.
Proof.
  revert e. induction ixs as [|j ixs IH]; intros e Hin Hlen;
    cbn [fold_left]; [contradiction|].
  destruct Hin as [->|Hin].
  - apply read_fold_write_zero_keeps; [unfold ALARM_DATA_START; lia|].
    rewrite read_write_eq by (try assumption; unfold ALARM_DATA_START; lia).
    reflexivity.
  - apply IH; [exact Hin|]. rewrite length_write. exact Hlen.
Qed.

Lemma length_zero_cells (n : nat) (e : list Z) :
  length (zero_cells n e) = length e.
Proof. apply length_fold_write_zero. Qed.

(** The zeroed cells read 0, the others as before. *)
Lemma read_zero_cells_in (n : nat) (e : list Z) (a : Z) :
  ALARM_DATA_START <= a < ALARM_DATA_START + Z.of_nat n ->
  (Z.to_nat a < length e)%nat ->
  EEPROM.read (zero_cells n e) a = 0.
Proof.
  intros Ha Hlen. unfold zero_cells.
  replace a with (ALARM_DATA_START + Z.of_nat (Z.to_nat (a - ALARM_DATA_START)))
    by (unfold ALARM_DATA_START in *; lia).
  apply read_fold_write_zero_in.
  - apply in_seq. unfold ALARM_DATA_START in *. lia.
  - replace (ALARM_DATA_START + Z.of_nat (Z.to_nat (a - ALARM_DATA_START)))
      with a by (unfold ALARM_DATA_START in *; lia).
    exact Hlen.
Qed.

Lemma read_zero_cells_out (n : nat) (e : list Z) (a : Z) :
  0 <= a ->
  a < ALARM_DATA_START \/ ALARM_DATA_START + Z.of_nat n <= a ->
  EEPROM.read (zero_cells n e) a = EEPROM.read e a.
Proof.
  intros Ha Hout. unfold zero_cells.
  apply read_fold_write_zero_other; [exact Ha|].
  intros i Hi. apply in_seq in Hi. lia.
Qed.

(** ** First-boot initialisation of the store *)

Lemma initializeEEPROM_unmarked (st : state) :
  EEPROM.read (eeprom st) EEPROM_INIT_FLAG <> 170 ->
  initializeEEPROM st
  = set_eeprom
      (zero_cells (Z.to_nat (MAX_ALARMS * 2))
         (EEPROM.write ALARM_COUNT_ADDR 0
            (EEPROM.write WEEKEND_DAY_ADDR 6
               (EEPROM.write BELL_DURATION_ADDR 30
                  (EEPROM.write EEPROM_INIT_FLAG 170 (eeprom st))))))
      st.
Proof.
  intros H. unfold initializeEEPROM.
  apply Z.eqb_neq in H. rewrite H. cbn [negb].
  rewrite fold_EEPROM_write_zero. reflexivity.
Qed.

(** The defaults, the zeroed table and the kept cells of [initializeEEPROM]. *)
Lemma initializeEEPROM_cells (st : state) :
  holds_table (eeprom st) ->
  let st' := initializeEEPROM st in
  st' = set_eeprom (eeprom st') st
  /\ holds_table (eeprom st')
  /\ EEPROM.read (eeprom st') EEPROM_INIT_FLAG = 170
  /\ (EEPROM.read (eeprom st) EEPROM_INIT_FLAG = 170 -> st' = st)
  /\ (EEPROM.read (eeprom st) EEPROM_INIT_FLAG <> 170 ->
      EEPROM.read (eeprom st') BELL_DURATION_ADDR = 30
      /\ EEPROM.read (eeprom st') WEEKEND_DAY_ADDR = 6
      /\ EEPROM.read (eeprom st') ALARM_COUNT_ADDR = 0
      /\ (forall a, table_cell a -> EEPROM.read (eeprom st') a = 0)
      /\ (forall a, 0 <= a -> ~ table_cell a ->
                    a <> EEPROM_INIT_FLAG -> a <> BELL_DURATION_ADDR ->
                    a <> WEEKEND_DAY_ADDR -> a <> ALARM_COUNT_ADDR ->
                    EEPROM.read (eeprom st') a = EEPROM.read (eeprom st) a))
  /\ initializeEEPROM st' = st'.
Proof.
  intros Hlen st'.
  destruct (Z.eq_dec (EEPROM.read (eeprom st) EEPROM_INIT_FLAG) 170)
    as [Hm | Hu].
  - assert (E : st' = st) by (apply initializeEEPROM_marked; exact Hm).
    rewrite E. split; [destruct st; reflexivity|].
    split; [exact Hlen|]. split; [exact Hm|]. split; [reflexivity|].
    split; [intros H; contradiction|].
    apply initializeEEPROM_marked. exact Hm.
  - pose proof (initializeEEPROM_unmarked st Hu) as E. fold st' in E.
    assert (He : eeprom st'
                 = zero_cells (Z.to_nat (MAX_ALARMS * 2))
                     (EEPROM.write ALARM_COUNT_ADDR 0
                        (EEPROM.write WEEKEND_DAY_ADDR 6
                           (EEPROM.write BELL_DURATION_ADDR 30
                              (EEPROM.write EEPROM_INIT_FLAG 170 (eeprom st))))))
      by (rewrite E; reflexivity).
    clearbody st'.
    assert (Hlen' : holds_table (eeprom st')).
    { unfold holds_table. rewrite He, length_zero_cells, !length_write.
      exact Hlen. }
    unfold holds_table, table_cell, ALARM_DATA_START, MAX_ALARMS,
      EEPROM_INIT_FLAG, BELL_DURATION_ADDR, WEEKEND_DAY_ADDR,
      ALARM_COUNT_ADDR in *.
    assert (Hflag : EEPROM.read (eeprom st') 0 = 170).
    { rewrite He, read_zero_cells_out by (unfold ALARM_DATA_START; lia).
      rewrite !read_write_ne by lia. rewrite read_write_eq by lia.
      reflexivity. }
    split; [rewrite E; reflexivity|].
    split; [exact Hlen'|]. split; [exact Hflag|].
    split; [intros H; contradiction|].
    split.
    + intros _. rewrite He.
      split; [|split; [|split; [|split]]].
      * rewrite read_zero_cells_out by (unfold ALARM_DATA_START; lia).
        rewrite !read_write_ne by lia.
        rewrite read_write_eq by (rewrite ?length_write; lia). reflexivity.
      * rewrite read_zero_cells_out by (unfold ALARM_DATA_START; lia).
        rewrite !read_write_ne by lia.
        rewrite read_write_eq by (rewrite ?length_write; lia). reflexivity.
      * rewrite read_zero_cells_out by (unfold ALARM_DATA_START; lia).
        rewrite read_write_eq by (rewrite ?length_write; lia). reflexivity.
      * intros a Ha. apply read_zero_cells_in.
        -- unfold ALARM_DATA_START. lia.
        -- rewrite !length_write. lia.
      * intros a Ha Hnt H0 H10 H11 H12.
        rewrite read_zero_cells_out by (unfold ALARM_DATA_START; lia).
        rewrite !read_write_ne by lia. reflexivity.
    + apply initializeEEPROM_marked. exact Hflag.
Qed.

(** X1: [initializeEEPROM] on a store that holds the table: only the store
    changes; afterwards it is marked; a marked store is left as found; an
    unmarked one gets the defaults 30, 6 and 0 and a zeroed alarm table,
    its other cells being kept; a second call changes nothing. *)
Theorem initializeEEPROM_spec (st : state) :
  holds_table (eeprom st) ->
  let st' := initializeEEPROM st in
  st' = set_eeprom (eeprom st') st
  /\ holds_table (eeprom st')
  /\ EEPROM.read (eeprom st') EEPROM_INIT_FLAG = 170
  /\ (EEPROM.read (eeprom st) EEPROM_INIT_FLAG = 170 -> st' = st)
  /\ (EEPROM.read (eeprom st) EEPROM_INIT_FLAG <> 170 ->
      EEPROM.read (eeprom st') BELL_DURATION_ADDR = 30
      /\ EEPROM.read (eeprom st') WEEKEND_DAY_ADDR = 6
      /\ EEPROM.read (eeprom st') ALARM_COUNT_ADDR = 0
      /\ (forall a, table_cell a -> EEPROM.read (eeprom st') a = 0)
      /\ (forall a, 0 <= a -> ~ table_cell a ->
                    a <> EEPROM_INIT_FLAG -> a <> BELL_DURATION_ADDR ->
                    a <> WEEKEND_DAY_ADDR -> a <> ALARM_COUNT_ADDR ->
                    EEPROM.read (eeprom st') a = EEPROM.read (eeprom st) a))
  /\ initializeEEPROM st' = st'.
Proof. intros Hlen. exact (initializeEEPROM_cells st Hlen). Qed.

(** An erased store. *)
Lemma initializeEEPROM_spec_witness :
  let st' := initializeEEPROM (power_on erased) in
  EEPROM.read erased EEPROM_INIT_FLAG <> 170
  /\ EEPROM.read (eeprom st') EEPROM_INIT_FLAG = 170
  /\ EEPROM.read (eeprom st') BELL_DURATION_ADDR = 30
  /\ (forall a, table_cell a -> EEPROM.read (eeprom st') a = 0)
  /\ initializeEEPROM st' = st'.
Proof.
  cbv zeta.
  assert (Hlen : holds_table (eeprom (power_on erased)))
    by (vm_compute; discriminate).
  assert (Hu : EEPROM.read (eeprom (power_on erased)) EEPROM_INIT_FLAG <> 170)
    by (vm_compute; discriminate).
  pose proof (initializeEEPROM_spec (power_on erased) Hlen) as H.
  cbv zeta in H. destruct H as (_ & _ & Hf & _ & Hd & Hi).
  destruct (Hd Hu) as (H10 & _ & _ & Ht & _).
  split; [exact Hu|]. split; [exact Hf|]. split; [exact H10|].
  split; [exact Ht | exact Hi].
Defined.

(** ** The validation at boot, on a marked store and on another *)

(** C8, amended: on a store that carries the 0xAA mark, [setup] replaces
    a persisted bell duration outside 1..99 by 3, a persisted weekend
    selector outside 1..7 by 6 and a persisted alarm count above 30 by 0,
    each in the variable and in its EEPROM cell; a value inside its
    domain is kept, in the variable and in the cell; no other cell is
    written, and with the three values in their domains the store is left
    as found.  On a store without the mark the persisted values are not
    validated: the settings are the defaults 30, 6 and 0 of
    [initializeEEPROM], in the variables and in the cells.  [setup] is
    total: there is no error to return. *)
Theorem setup_validates (now : RtcDateTime) (e : list Z) :
  holds_table e ->
  let b := EEPROM.read e BELL_DURATION_ADDR in
  let w := EEPROM.read e WEEKEND_DAY_ADDR in
  let n := EEPROM.read e ALARM_COUNT_ADDR in
  let st := setup now (power_on e) in
  (EEPROM.read e EEPROM_INIT_FLAG = 170 ->
   (b < 1 \/ 99 < b ->
    bell_duration st = 3 /\ EEPROM.read (eeprom st) BELL_DURATION_ADDR = 3)
   /\ (1 <= b <= 99 ->
       bell_duration st = b /\ EEPROM.read (eeprom st) BELL_DURATION_ADDR = b)
   /\ (w < 1 \/ 7 < w ->
       weekend st = 6 /\ EEPROM.read (eeprom st) WEEKEND_DAY_ADDR = 6)
   /\ (1 <= w <= 7 ->
       weekend st = w /\ EEPROM.read (eeprom st) WEEKEND_DAY_ADDR = w)
   /\ (30 < n ->
       total_alarms st = 0 /\ EEPROM.read (eeprom st) ALARM_COUNT_ADDR = 0)
   /\ (n <= 30 ->
       total_alarms st = n /\ EEPROM.read (eeprom st) ALARM_COUNT_ADDR = n)
   /\ (1 <= b <= 99 -> 1 <= w <= 7 -> n <= 30 -> eeprom st = e)
   /\ (forall a, 0 <= a -> a <> BELL_DURATION_ADDR ->
                 a <> WEEKEND_DAY_ADDR -> a <> ALARM_COUNT_ADDR ->
                 EEPROM.read (eeprom st) a = EEPROM.read e a))
  /\ (EEPROM.read e EEPROM_INIT_FLAG <> 170 ->
      (bell_duration st = 30
       /\ EEPROM.read (eeprom st) BELL_DURATION_ADDR = 30)
      /\ (weekend st = 6 /\ EEPROM.read (eeprom st) WEEKEND_DAY_ADDR = 6)
      /\ (total_alarms st = 0
          /\ EEPROM.read (eeprom st) ALARM_COUNT_ADDR = 0)).
Proof.
  intros Hlen b w n st. split.
  - intros Hflag. exact (setup_marked_store now e Hlen Hflag).
  - intros Hflag.
    pose proof (setup_settings_view now (power_on e)) as Hview.
    fold st in Hview. clearbody st.
    set (st0 := set_pins false false (power_on e)) in *.
    assert (Hlen0 : holds_table (eeprom st0)) by exact Hlen.
    destruct (initializeEEPROM_cells st0 Hlen0)
      as (_ & _ & _ & _ & Hunmarked & _).
    cbv zeta in Hunmarked.
    destruct (Hunmarked Hflag) as (Hb & Hw & Hn & _).
    rewrite setup_settings_spec in Hview. cbv zeta in Hview.
    rewrite Hb, Hw, Hn in Hview.
    unfold MIN_BELL_DURATION, MAX_BELL_DURATION, MAX_ALARMS in Hview.
    cbn [Z.ltb Z.gtb Z.compare Pos.compare Pos.compare_cont orb id] in Hview.
    unfold settings_view in Hview. injection Hview as He Hd Hwk Ht.
    rewrite He, Hd, Hwk, Ht, Hb, Hw, Hn. repeat split; reflexivity.
Qed.

(** The store of the spec's example, which is marked: 150, 0 and 200
    become 3, 6 and 0. *)
Lemma setup_validates_witness :
  let st := setup (at_time 1 7 0 0) (power_on corrupt_store) in
  (EEPROM.read corrupt_store EEPROM_INIT_FLAG = 170
   /\ EEPROM.read corrupt_store BELL_DURATION_ADDR = 150
   /\ EEPROM.read corrupt_store WEEKEND_DAY_ADDR = 0
   /\ EEPROM.read corrupt_store ALARM_COUNT_ADDR = 200)
  /\ (bell_duration st = 3
      /\ EEPROM.read (eeprom st) BELL_DURATION_ADDR = 3)
  /\ (weekend st = 6 /\ EEPROM.read (eeprom st) WEEKEND_DAY_ADDR = 6)
  /\ (total_alarms st = 0 /\ EEPROM.read (eeprom st) ALARM_COUNT_ADDR = 0).
Proof.
  cbv zeta.
  assert (Hlen : holds_table corrupt_store) by (vm_compute; discriminate).
  assert (Hflag : EEPROM.read corrupt_store EEPROM_INIT_FLAG = 170)
    by (vm_compute; reflexivity).
  pose proof (setup_validates (at_time 1 7 0 0) corrupt_store Hlen) as H.
  cbv zeta in H. destruct H as [H _].
  destruct (H Hflag) as (Hb & _ & Hw & _ & Hn & _).
  split; [vm_compute; repeat split|].
  split; [apply Hb; right; vm_compute; reflexivity|].
  split; [apply Hw; left; vm_compute; reflexivity|].
  apply Hn; vm_compute; reflexivity.
Defined.

(** C8 as stated fails on a store without the mark: a persisted bell
    duration of 150 is replaced by 30, not by 3, and the persisted
    settings 45, 3 and 1, all inside their domains, are not kept but
    replaced by 30, 6 and 0. *)
Lemma unmarked_store_gets_defaults :
  let st1 := setup (at_time 1 7 0 0) (power_on unmarked_150) in
  let st2 := setup (at_time 1 7 0 0) (power_on unmarked_in_domain) in
  (EEPROM.read unmarked_150 EEPROM_INIT_FLAG <> 170
   /\ EEPROM.read unmarked_150 BELL_DURATION_ADDR = 150
   /\ bell_duration st1 = 30
   /\ EEPROM.read (eeprom st1) BELL_DURATION_ADDR = 30)
  /\ (EEPROM.read unmarked_in_domain EEPROM_INIT_FLAG <> 170
      /\ (EEPROM.read unmarked_in_domain BELL_DURATION_ADDR,
          EEPROM.read unmarked_in_domain WEEKEND_DAY_ADDR,
          EEPROM.read unmarked_in_domain ALARM_COUNT_ADDR) = (45, 3, 1)
      /\ (bell_duration st2, weekend st2, total_alarms st2) = (30, 6, 0)
      /\ (EEPROM.read (eeprom st2) BELL_DURATION_ADDR,
          EEPROM.read (eeprom st2) WEEKEND_DAY_ADDR,
          EEPROM.read (eeprom st2) ALARM_COUNT_ADDR) = (30, 6, 0)).
Proof.
  cbv zeta. vm_compute. repeat split; congruence.
Qed.

(** ** Factory reset *)

Lemma resetAllAlarms_shape (st : state) :
  resetAllAlarms st
  = set_next_bell_found false
      (set_pins false false
         (set_lastBellMinute (-1)
            (set_bellActive false
               (set_alarms_triggered_today
                  (cleared (alarms_triggered_today st))
                  (set_eeprom
                     (zero_cells (Z.to_nat (MAX_ALARMS * 2))
                        (EEPROM.write ALARM_COUNT_ADDR 0 (eeprom st)))
                     (set_total_alarms 0 st)))))).
Proof.
  unfold resetAllAlarms.
  rewrite fold_EEPROM_write_zero, clear_triggered_eq.
  unfold findNextBell. fields.
  match goal with |- context [isWeekend ?x ?d] => destruct (isWeekend x d) end;
    reflexivity.
Qed.

(** The cells and the variables after [resetAllAlarms]. *)
Lemma resetAllAlarms_cells (st : state) :
  holds_table (eeprom st) ->
  let st' := resetAllAlarms st in
  (total_alarms st' = 0
   /\ EEPROM.read (eeprom st') ALARM_COUNT_ADDR = 0)
  /\ (forall a, table_cell a -> EEPROM.read (eeprom st') a = 0)
  /\ (forall a, 0 <= a -> ~ table_cell a -> a <> ALARM_COUNT_ADDR ->
                EEPROM.read (eeprom st') a = EEPROM.read (eeprom st) a)
  /\ holds_table (eeprom st')
  /\ (forall i, readAlarm st' i = (0, 0))
  /\ (forall i, i < MAX_ALARMS -> triggered st' i = false)
  /\ length (alarms_triggered_today st') = length (alarms_triggered_today st)
  /\ lastBellMinute st' = -1
  /\ bell_view st' = (false, bellStart st, false, false)
  /\ next_bell st' = None
  /\ clock_view st' = clock_view st
  /\ bell_duration st' = bell_duration st
  /\ weekend st' = weekend st.
Proof.
  intros Hlen st'. unfold st'. rewrite resetAllAlarms_shape.
  unfold triggered, bell_view, clock_view, next_bell. fields.
  unfold holds_table, table_cell, ALARM_DATA_START, MAX_ALARMS,
    ALARM_COUNT_ADDR in *.
  split; [split; [reflexivity|]|].
  { rewrite read_zero_cells_out by (unfold ALARM_DATA_START; lia).
    rewrite read_write_eq by lia. reflexivity. }
  split.
  { intros a Ha. apply read_zero_cells_in.
    - unfold ALARM_DATA_START. lia.
    - rewrite length_write. lia. }
  split.
  { intros a Ha Hnt H12.
    rewrite read_zero_cells_out by (unfold ALARM_DATA_START; lia).
    rewrite read_write_ne by lia. reflexivity. }
  split; [rewrite length_zero_cells, length_write; exact Hlen|].
  split.
  { intros i. unfold readAlarm. fields.
    destruct (i <? 0) eqn:E1; [reflexivity|].
    destruct (i >=? 0) eqn:E2; [reflexivity|].
    apply Z.ltb_ge in E1. rewrite Z.geb_leb in E2. apply Z.leb_gt in E2. lia. }
  split; [intros i Hi; apply cleared_false; exact Hi|].
  split; [apply length_cleared|].
  repeat split.
Qed.

(** X2: [resetAllAlarms]: the count is 0 in the variable and in its cell,
    every cell of the alarm table is 0 and no other cell is written,
    every index reads as (0,0), the flags of the array are clear,
    [lastBellMinute] is -1, the bell, the relay and the LED are off, no
    next bell is announced, and the time, the bell duration and the
    weekend selector are kept. *)
Theorem resetAllAlarms_spec (st : state) :
  holds_table (eeprom st) ->
  let st' := resetAllAlarms st in
  (total_alarms st' = 0
   /\ EEPROM.read (eeprom st') ALARM_COUNT_ADDR = 0)
  /\ (forall a, table_cell a -> EEPROM.read (eeprom st') a = 0)
  /\ (forall a, 0 <= a -> ~ table_cell a -> a <> ALARM_COUNT_ADDR ->
                EEPROM.read (eeprom st') a = EEPROM.read (eeprom st) a)
  /\ holds_table (eeprom st')
  /\ (forall i, readAlarm st' i = (0, 0))
  /\ (forall i, i < MAX_ALARMS -> triggered st' i = false)
  /\ length (alarms_triggered_today st') = length (alarms_triggered_today st)
  /\ lastBellMinute st' = -1
  /\ bell_view st' = (false, bellStart st, false, false)
  /\ next_bell st' = None
  /\ clock_view st' = clock_view st
  /\ bell_duration st' = bell_duration st
  /\ weekend st' = weekend st.
Proof. intros Hlen. exact (resetAllAlarms_cells st Hlen). Qed.

(** A reset during the bell of 08:00 of the duplicate table. *)
Lemma resetAllAlarms_spec_witness :
  let st := loop (at_time 1 8 0 0) 3600000 duplicates in
  let st' := resetAllAlarms st in
  (total_alarms st = 2 /\ bellActive st = true /\ triggered st 0 = true)
  /\ total_alarms st' = 0
  /\ (forall i, readAlarm st' i = (0, 0))
  /\ (forall i, i < MAX_ALARMS -> triggered st' i = false)
  /\ bell_view st' = (false, 3600000, false, false).
Proof.
  cbv zeta.
  assert (Hlen : holds_table
                   (eeprom (loop (at_time 1 8 0 0) 3600000 duplicates)))
    by (vm_compute; discriminate).
  pose proof (resetAllAlarms_spec _ Hlen) as H. cbv zeta in H.
  destruct H as ((Ht & _) & _ & _ & _ & Hr & Hf & _ & _ & Hb & _).
  split; [vm_compute; repeat split|].
  split; [exact Ht|]. split; [exact Hr|]. split; [exact Hf|]. exact Hb.
Defined.

(** ** An empty table *)

Lemma loop_start_empty (current_millis : Z) (st : state) :
  total_alarms st = 0 -> loop_start current_millis st = st.
Proof.
  intros H. unfold loop_start. rewrite H.
  destruct (negb (bellActive st) && negb (isWeekend st (set_day st)));
    reflexivity.
Qed.

Lemma loop_empty (now : RtcDateTime) (current_millis : Z) (st : state) :
  total_alarms st = 0 ->
  loop now current_millis st
  = loop_stop current_millis (loop_poll now current_millis st).
Proof.
  intros H. unfold loop. rewrite loop_start_empty; [reflexivity|].
  pose proof (loop_poll_settings now current_millis st) as Hs.
  unfold settings_view in Hs. congruence.
Qed.

(** X3: With an empty table no sequence of iterations starts a bell: the
    table stays empty, an idle bell stays idle with its relay, and no
    flag is set. *)
Theorem empty_table_never_rings (ticks : list (RtcDateTime * Z)) (st : state) :
  total_alarms st = 0 ->
  total_alarms (run ticks st) = 0
  /\ (bellActive st = false -> bell_view (run ticks st) = bell_view st)
  /\ (forall i, triggered (run ticks st) i = true -> triggered st i = true).
Proof.
  revert st. induction ticks as [|[now current_millis] ticks IH];
    intros st H.
  - split; [exact H|]. split; trivial.
  - cbn [run fold_left fst snd].
    pose proof (loop_settings now current_millis st) as Hs.
    pose proof (loop_poll_bell now current_millis st) as Hb.
    pose proof (loop_empty now current_millis st H) as E.
    assert (H' : total_alarms (loop now current_millis st) = 0)
      by (unfold settings_view in Hs; congruence).
    destruct (IH _ H') as (Ht & Hidle & Hfl).
    split; [exact Ht|]. split.
    + intros Hoff.
      assert (Hb' : bell_view (loop now current_millis st) = bell_view st).
      { rewrite E. rewrite loop_stop_inactive; [exact Hb|].
        unfold bell_view in Hb. congruence. }
      rewrite <- Hb'. apply Hidle. unfold bell_view in Hb'. congruence.
    + intros i Hi. apply Hfl in Hi. revert Hi. unfold triggered.
      pose proof (loop_stop_trigger current_millis
                    (loop_poll now current_millis st)) as Hst.
      rewrite <- E in Hst. unfold trigger_view in Hst.
      replace (alarms_triggered_today (loop now current_millis st))
        with (alarms_triggered_today (loop_poll now current_millis st))
        by congruence.
      destruct (loop_poll_trigger now current_millis st)
        as [Et | (_ & _ & _ & Et)]; unfold trigger_view in Et.
      * replace (alarms_triggered_today (loop_poll now current_millis st))
          with (alarms_triggered_today st) by congruence.
        trivial.
      * replace (alarms_triggered_today (loop_poll now current_millis st))
          with (cleared (alarms_triggered_today st)) by congruence.
        apply cleared_true.
Qed.

(** After a factory reset the Monday morning of the duplicate table
    passes in silence. *)
Lemma empty_table_never_rings_witness :
  let st := resetAllAlarms duplicates in
  total_alarms st = 0
  /\ bell_view (run duplicates_morning st) = bell_view st.
Proof.
  cbv zeta.
  assert (H0 : total_alarms (resetAllAlarms duplicates) = 0)
    by (vm_compute; reflexivity).
  destruct (empty_table_never_rings duplicates_morning _ H0) as (_ & H & _).
  split; [exact H0|]. apply H. vm_compute. reflexivity.
Defined.

(** ** The settings invariant *)

Lemma byte_read (e : list Z) (a : Z) :
  byte_cells e -> 0 <= EEPROM.read e a < 256.
Proof.
  intros Hb. unfold EEPROM.read.
  destruct (e !! Z.to_nat a) as [b|] eqn:E; cbn [default]; [|lia].
  unfold byte_cells in Hb. rewrite Forall_forall in Hb.
  apply Hb. eapply list_elem_of_lookup_2. exact E.
Qed.

(** [setup_settings] assigns the three settings and their cells only. *)
Lemma setup_settings_frame (st : state) :
  bell_view (setup_settings st) = bell_view st
  /\ trigger_view (setup_settings st) = trigger_view st
  /\ clock_view (setup_settings st) = clock_view st.
Proof.
  unfold setup_settings. fields.
  destruct ((EEPROM.read (eeprom st) BELL_DURATION_ADDR <? MIN_BELL_DURATION)
            || (EEPROM.read (eeprom st) BELL_DURATION_ADDR >? MAX_BELL_DURATION));
    fields;
    destruct ((EEPROM.read (eeprom st) WEEKEND_DAY_ADDR <? 1)
              || (EEPROM.read (eeprom st) WEEKEND_DAY_ADDR >? 7)); fields;
    destruct (EEPROM.read (eeprom st) ALARM_COUNT_ADDR >? MAX_ALARMS);
    repeat split.
Qed.

(** The validation leaves the three settings in their domains and equal
    to their cells. *)
Lemma setup_settings_valid (st : state) :
  holds_table (eeprom st) ->
  EEPROM.read (eeprom st) EEPROM_INIT_FLAG = 170 ->
  0 <= EEPROM.read (eeprom st) ALARM_COUNT_ADDR ->
  let st' := setup_settings st in
  holds_table (eeprom st')
  /\ EEPROM.read (eeprom st') EEPROM_INIT_FLAG = 170
  /\ (MIN_BELL_DURATION <= bell_duration st' <= MAX_BELL_DURATION
      /\ EEPROM.read (eeprom st') BELL_DURATION_ADDR = bell_duration st')
  /\ (1 <= weekend st' <= 7
      /\ EEPROM.read (eeprom st') WEEKEND_DAY_ADDR = weekend st')
  /\ (0 <= total_alarms st' <= MAX_ALARMS
      /\ EEPROM.read (eeprom st') ALARM_COUNT_ADDR = total_alarms st').
Proof.
  intros Hlen Hflag Hn st'.
  pose proof (setup_settings_spec st) as Hview. cbv zeta in Hview.
  fold st' in Hview. clearbody st'.
  unfold settings_view in Hview. injection Hview as He Hb Hw Ht.
  rewrite He, Hb, Hw, Ht. clear He Hb Hw Ht.
  set (e := eeprom st) in *.
  set (b := EEPROM.read e BELL_DURATION_ADDR).
  set (w := EEPROM.read e WEEKEND_DAY_ADDR).
  set (n := EEPROM.read e ALARM_COUNT_ADDR) in *.
  unfold MIN_BELL_DURATION, MAX_BELL_DURATION, MAX_ALARMS.
  rewrite !Z.gtb_ltb.
  assert (Hne0 : EEPROM_INIT_FLAG <> BELL_DURATION_ADDR) by discriminate.
  assert (Hne0' : EEPROM_INIT_FLAG <> WEEKEND_DAY_ADDR) by discriminate.
  assert (Hne0'' : EEPROM_INIT_FLAG <> ALARM_COUNT_ADDR) by discriminate.
  assert (Hne1 : BELL_DURATION_ADDR <> WEEKEND_DAY_ADDR) by discriminate.
  assert (Hne2 : BELL_DURATION_ADDR <> ALARM_COUNT_ADDR) by discriminate.
  assert (Hne3 : WEEKEND_DAY_ADDR <> ALARM_COUNT_ADDR) by discriminate.
  assert (Hr0 : 0 <= EEPROM_INIT_FLAG < ALARM_DATA_START)
    by (cbv; intuition discriminate).
  assert (Hr1 : 0 <= BELL_DURATION_ADDR < ALARM_DATA_START)
    by (cbv; intuition discriminate).
  assert (Hr2 : 0 <= WEEKEND_DAY_ADDR < ALARM_DATA_START)
    by (cbv; intuition discriminate).
  assert (Hr3 : 0 <= ALARM_COUNT_ADDR < ALARM_DATA_START)
    by (cbv; intuition discriminate).
  destruct (Z.ltb_spec b 1) as [Hb1|Hb1];
    destruct (Z.ltb_spec 99 b) as [Hb2|Hb2];
    destruct (Z.ltb_spec w 1) as [Hw1|Hw1];
    destruct (Z.ltb_spec 7 w) as [Hw2|Hw2];
    destruct (Z.ltb_spec 30 n) as [Hn1|Hn1];
    cbn [orb id];
    (split; [repeat apply holds_table_write; exact Hlen|]);
    (repeat split;
     try lia;
     rewrite ?(read_write_ne _ ALARM_COUNT_ADDR) by lia;
     rewrite ?(read_write_ne _ WEEKEND_DAY_ADDR) by lia;
     rewrite ?(read_write_ne _ BELL_DURATION_ADDR) by lia;
     rewrite ?read_write_cell
       by (try lia; repeat apply holds_table_write; assumption);
     first [reflexivity | exact Hflag]).
Qed.

(** After the validation [setup] assigns the time, the flags, the
    next-bell variables and the two pins. *)
Lemma setup_tail (now : RtcDateTime) (st : state) :
  let st1 := setup_settings (initializeEEPROM (set_pins false false st)) in
  let st' := setup now st in
  settings_view st' = settings_view st1
  /\ bellActive st' = bellActive st1
  /\ relay st' = false /\ led_bell st' = false
  /\ length (alarms_triggered_today st')
     = length (alarms_triggered_today st1).
Proof.
  cbv zeta. split; [apply setup_settings_view|].
  unfold setup, quickBellTest.
  set (st1 := setup_settings (initializeEEPROM (set_pins false false st))).
  destruct (findNextBell_shape
              (set_last_checked_day (set_day (updateTimeFromRTC now st1))
                 (updateTimeFromRTC now st1))) as (h & m & b & E).
  rewrite E.
  destruct (updateTimeFromRTC_cases now st1)
    as [[_ Eu] | [(_ & _ & Eu) | (_ & _ & Eu)]]; rewrite Eu; fields;
    rewrite ?length_cleared; repeat split.
Qed.

(** The state [setup] leaves. *)
Lemma setup_config_ok (now : RtcDateTime) (e : list Z) :
  holds_table e -> byte_cells e ->
  let st := setup now (power_on e) in
  config_ok st /\ relay_follows_bell st /\ bellActive st = false.
Proof.
  intros Hlen Hbytes st.
  destruct (setup_tail now (power_on e)) as (Hs & Hb & Hr & Hl & Hfl).
  cbv zeta in Hs, Hb, Hr, Hl, Hfl. fold st in Hs, Hb, Hr, Hl, Hfl.
  clearbody st.
  set (st0 := set_pins false false (power_on e)) in *.
  assert (Hlen0 : holds_table (eeprom st0)) by exact Hlen.
  destruct (initializeEEPROM_cells st0 Hlen0)
    as (Eshape & Hlen1 & Hflag1 & Hmarked & Hunmarked & _).
  cbv zeta in Eshape, Hlen1, Hflag1, Hmarked, Hunmarked.
  set (st1 := initializeEEPROM st0) in *.
  assert (Hn1 : 0 <= EEPROM.read (eeprom st1) ALARM_COUNT_ADDR).
  { destruct (Z.eq_dec (EEPROM.read (eeprom st0) EEPROM_INIT_FLAG) 170)
      as [Hm | Hu].
    - rewrite (Hmarked Hm). apply (byte_read e). exact Hbytes.
    - destruct (Hunmarked Hu) as (_ & _ & H12 & _). rewrite H12. lia. }
  destruct (setup_settings_valid st1 Hlen1 Hflag1 Hn1)
    as (Hlen2 & Hflag2 & Hd2 & Hw2 & Ht2).
  cbv zeta in Hlen2, Hflag2, Hd2, Hw2, Ht2.
  destruct (setup_settings_frame st1) as (Hbv & Htv & _).
  set (st2 := setup_settings st1) in *.
  unfold settings_view in Hs. injection Hs as He Hdur Hwk Htot.
  assert (Hfl1 : alarms_triggered_today st2
                 = replicate (Z.to_nat MAX_ALARMS) false).
  { unfold trigger_view in Htv. injection Htv as Htv _. rewrite Htv, Eshape.
    reflexivity. }
  assert (Hoff : bellActive st2 = false).
  { unfold bell_view in Hbv. injection Hbv as Hbv _ _ _. rewrite Hbv, Eshape.
    reflexivity. }
  split; [|split].
  - unfold config_ok. rewrite He, Hdur, Hwk, Htot, Hfl, Hfl1.
    split; [exact Hlen2|]. split; [exact Hflag2|].
    split; [exact Hd2|]. split; [exact Hw2|]. split; [exact Ht2|].
    apply length_replicate.
  - unfold relay_follows_bell. rewrite Hr, Hl, Hb, Hoff. split; reflexivity.
  - rewrite Hb. exact Hoff.
Qed.

(** X4: [setup] on any store of bytes that holds the table, marked or not,
    leaves the settings in their domains (1..99, 1..7, 0..30) and equal
    to their cells, the store marked, the array of flags at its size, and
    the bell, the relay and the LED off. *)
Theorem setup_establishes (now : RtcDateTime) (e : list Z) :
  holds_table e -> byte_cells e ->
  let st := setup now (power_on e) in
  config_ok st /\ relay_follows_bell st /\ bellActive st = false.
Proof. intros Hlen Hbytes. exact (setup_config_ok now e Hlen Hbytes). Qed.

(** The store with three settings out of their domains. *)
Lemma setup_establishes_witness :
  config_ok (setup (at_time 1 7 0 0) (power_on corrupt_store)).
Proof.
  assert (Hlen : holds_table corrupt_store) by (vm_compute; discriminate).
  assert (Hb : byte_cells corrupt_store).
  { unfold byte_cells. apply Forall_forall. intros b Hin.
    apply list_elem_of_In in Hin.
    assert (Hall : forallb (fun b => (0 <=? b) && (b <? 256)) corrupt_store
                   = true) by (vm_compute; reflexivity).
    rewrite forallb_forall in Hall. apply Hall in Hin.
    apply andb_true_iff in Hin. destruct Hin as [H1 H2].
    apply Z.leb_le in H1. apply Z.ltb_lt in H2. lia. }
  apply (setup_establishes (at_time 1 7 0 0) corrupt_store Hlen Hb).
Defined.

(** The invariant reads the settings, their cells and the size of the
    array of flags. *)
Lemma config_ok_ext (st1 st2 : state) :
  settings_view st1 = settings_view st2 ->
  length (alarms_triggered_today st1) = length (alarms_triggered_today st2) ->
  config_ok st2 -> config_ok st1.
Proof.
  unfold settings_view, config_ok. intros Hs Hl H.
  injection Hs as He Hd Hw Ht. rewrite He, Hd, Hw, Ht, Hl. exact H.
Qed.

Lemma config_ok_findNextBell (st : state) :
  config_ok st -> config_ok (findNextBell st).
Proof.
  destruct (findNextBell_shape st) as (h & m & b & E). rewrite E.
  apply config_ok_ext; reflexivity.
Qed.

Lemma relay_follows_bell_findNextBell (st : state) :
  relay_follows_bell st -> relay_follows_bell (findNextBell st).
Proof.
  destruct (findNextBell_shape st) as (h & m & b & E). rewrite E. trivial.
Qed.

(** Closes a side condition on the addresses and bounds of the sketch. *)
Ltac addr :=
  unfold table_cell, holds_table, EEPROM_INIT_FLAG, BELL_DURATION_ADDR,
    WEEKEND_DAY_ADDR, ALARM_COUNT_ADDR, ALARM_DATA_START, MAX_ALARMS,
    MIN_BELL_DURATION, MAX_BELL_DURATION in *;
  lia.

Lemma config_ok_bell_duration (v : Z) (st : state) :
  config_ok st -> MIN_BELL_DURATION <= v <= MAX_BELL_DURATION ->
  config_ok (EEPROM_write BELL_DURATION_ADDR v (set_bell_duration v st)).
Proof.
  intros (Hlen & Hflag & _ & Hw & Ht & Hfl) Hv.
  unfold config_ok. fields.
  split; [apply holds_table_write; exact Hlen|].
  rewrite read_write_cell by (first [exact Hlen | addr]).
  rewrite !(read_write_ne _ BELL_DURATION_ADDR) by addr.
  repeat split; tauto || addr.
Qed.

Lemma config_ok_weekend (v : Z) (st : state) :
  config_ok st -> 1 <= v <= 7 ->
  config_ok (EEPROM_write WEEKEND_DAY_ADDR v (set_weekend v st)).
Proof.
  intros (Hlen & Hflag & Hd & _ & Ht & Hfl) Hv.
  unfold config_ok. fields.
  split; [apply holds_table_write; exact Hlen|].
  rewrite read_write_cell by (first [exact Hlen | addr]).
  rewrite !(read_write_ne _ WEEKEND_DAY_ADDR) by addr.
  repeat split; tauto || addr.
Qed.

Lemma config_ok_total_alarms (v : Z) (st : state) :
  config_ok st -> 0 <= v <= MAX_ALARMS ->
  config_ok (EEPROM_write ALARM_COUNT_ADDR v (set_total_alarms v st)).
Proof.
  intros (Hlen & Hflag & Hd & Hw & _ & Hfl) Hv.
  unfold config_ok. fields.
  split; [apply holds_table_write; exact Hlen|].
  rewrite read_write_cell by (first [exact Hlen | addr]).
  rewrite !(read_write_ne _ ALARM_COUNT_ADDR) by addr.
  repeat split; tauto || addr.
Qed.

(** [saveAlarm] assigns the store and the count only. *)
Lemma saveAlarm_shape (index hour minute : Z) (st : state) :
  saveAlarm index hour minute st
  = set_eeprom (eeprom (saveAlarm index hour minute st))
      (set_total_alarms (total_alarms (saveAlarm index hour minute st)) st).
Proof.
  unfold saveAlarm.
  destruct ((index <? 0) || (index >=? MAX_ALARMS));
    [destruct st; reflexivity|].
  fields. destruct (index >=? total_alarms st); reflexivity.
Qed.

Lemma length_saveAlarm (index hour minute : Z) (st : state) :
  length (eeprom (saveAlarm index hour minute st)) = length (eeprom st).
Proof.
  unfold saveAlarm.
  destruct ((index <? 0) || (index >=? MAX_ALARMS)); [reflexivity|].
  fields. destruct (index >=? total_alarms st); fields;
    rewrite !length_write; reflexivity.
Qed.

(** The count cell after [saveAlarm] is the count. *)
Lemma saveAlarm_count_synced (index hour minute : Z) (st : state) :
  0 <= index < MAX_ALARMS -> holds_table (eeprom st) ->
  EEPROM.read (eeprom st) ALARM_COUNT_ADDR = total_alarms st ->
  EEPROM.read (eeprom (saveAlarm index hour minute st)) ALARM_COUNT_ADDR
  = total_alarms (saveAlarm index hour minute st).
Proof.
  intros Hi Hlen Hsync.
  destruct (Z.le_gt_cases (total_alarms st) index) as [Hge | Hlt].
  - rewrite saveAlarm_count_cell by assumption.
    rewrite saveAlarm_total by exact Hi.
    destruct (index >=? total_alarms st) eqn:E; [reflexivity|].
    rewrite Z.geb_leb in E. apply Z.leb_gt in E. lia.
  - rewrite saveAlarm_total by exact Hi.
    rewrite saveAlarm_unfold by exact Hi. cbv zeta.
    destruct (index >=? total_alarms st) eqn:E;
      [rewrite Z.geb_le in E; lia|].
    unfold EEPROM_write. fields.
    unfold ALARM_DATA_START, ALARM_COUNT_ADDR, MAX_ALARMS in *.
    rewrite !read_write_ne by lia. exact Hsync.
Qed.

Lemma config_ok_saveAlarm (index hour minute : Z) (st : state) :
  0 <= index < MAX_ALARMS -> config_ok st ->
  config_ok (saveAlarm index hour minute st).
Proof.
  intros Hi (Hlen & Hflag & Hd & Hw & Ht & Hfl).
  pose proof (saveAlarm_total index hour minute st Hi) as Htot.
  pose proof (saveAlarm_count_synced index hour minute st Hi Hlen
                (proj2 Ht)) as Hsync.
  pose proof (length_saveAlarm index hour minute st) as Hl.
  assert (Hother : forall a, 0 <= a < ALARM_DATA_START ->
                     a <> ALARM_COUNT_ADDR ->
                     EEPROM.read (eeprom (saveAlarm index hour minute st)) a
                     = EEPROM.read (eeprom st) a).
  { intros a Ha Hne. apply saveAlarm_other_cells; first [assumption | addr]. }
  rewrite saveAlarm_shape. unfold config_ok. fields.
  split; [unfold holds_table in *; rewrite Hl; exact Hlen|].
  rewrite !Hother by addr.
  split; [exact Hflag|]. split; [exact Hd|]. split; [exact Hw|].
  split; [|exact Hfl]. split; [|exact Hsync].
  rewrite Htot. unfold MAX_ALARMS in *.
  destruct (index >=? total_alarms st); lia.
Qed.

Lemma config_ok_resetAllAlarms (st : state) :
  config_ok st -> config_ok (resetAllAlarms st).
Proof.
  intros (Hlen & Hflag & Hd & Hw & Ht & Hfl).
  destruct (resetAllAlarms_cells st Hlen)
    as ((Ht0 & Hc0) & _ & Hother & Hlen' & _ & _ & Hfl' & _ & _ & _ & _
        & Hdur & Hwk).
  cbv zeta in *. unfold config_ok.
  rewrite Ht0, Hc0, Hdur, Hwk, Hfl'.
  rewrite !Hother by addr.
  split; [exact Hlen'|]. split; [exact Hflag|]. split; [exact Hd|].
  split; [exact Hw|]. split; [|exact Hfl].
  unfold MAX_ALARMS. split; [lia | reflexivity].
Qed.

Lemma relay_follows_bell_resetAllAlarms (st : state) :
  relay_follows_bell (resetAllAlarms st).
Proof. rewrite resetAllAlarms_shape. split; reflexivity. Qed.

(** An iteration keeps the size of the array of flags. *)
Lemma loop_flags_length (now : RtcDateTime) (current_millis : Z) (st : state) :
  length (alarms_triggered_today (loop now current_millis st))
  = length (alarms_triggered_today st).
Proof.
  assert (H1 : length (alarms_triggered_today
                         (loop_poll now current_millis st))
               = length (alarms_triggered_today st)).
  { destruct (loop_poll_trigger now current_millis st)
      as [E | (_ & _ & _ & E)]; unfold trigger_view in E;
      injection E as E _; rewrite E; [reflexivity | apply length_cleared]. }
  destruct (loop_trigger_cases now current_millis st)
    as [[E _] | (k & _ & _ & _ & _ & _ & E)]; cbv zeta in E;
    unfold trigger_view in E; injection E as E _; rewrite E.
  - exact H1.
  - rewrite length_insert. exact H1.
Qed.

Lemma config_ok_loop (now : RtcDateTime) (current_millis : Z) (st : state) :
  config_ok st -> config_ok (loop now current_millis st).
Proof.
  apply config_ok_ext; [apply loop_settings | apply loop_flags_length].
Qed.

Lemma relay_follows_bell_loop (now : RtcDateTime) (current_millis : Z)
      (st : state) :
  relay_follows_bell st -> relay_follows_bell (loop now current_millis st).
Proof.
  intros [Hr Hl]. unfold loop.
  pose proof (loop_poll_bell now current_millis st) as Hb.
  set (st1 := loop_poll now current_millis st) in *.
  assert (H1 : relay_follows_bell st1).
  { unfold bell_view in Hb. injection Hb as Ha _ Hr1 Hl1.
    split; congruence. }
  assert (H2 : relay_follows_bell (loop_start current_millis st1)).
  { destruct (loop_start_cases current_millis st1)
      as [[E _] | (_ & _ & k & _ & _ & _ & E)]; rewrite E; [exact H1|].
    destruct (start_bell_effect k current_millis st1) as (Hbe & _).
    cbv zeta in Hbe. unfold bell_view in Hbe. injection Hbe as Ha _ Hr2 Hl2.
    split; congruence. }
  set (st2 := loop_start current_millis st1) in *.
  destruct (loop_stop_cases current_millis st2) as [(_ & _ & E) | [_ E]];
    rewrite E; [split; reflexivity | exact H2].
Qed.

(** ** The buttons *)

(** Destructs the tests of the goal, one after the other. *)
Ltac split_ifs :=
  repeat (efields;
          match goal with
          | |- context [if ?c then _ else _] => destruct c eqn:?
          end);
  efields.

Lemma accepted_eq (pin prev : bool) (window current_millis : Z) (s : sketch) :
  accepted pin prev window current_millis s
  = negb pin && prev
    && (unsigned_long (current_millis - last_button_time (edit s)) >? window).
Proof. reflexivity. Qed.

(** Right after an accepted press no other press is accepted. *)
Lemma accepted_just_pressed (pin prev : bool) (window current_millis : Z)
      (s : sketch) :
  0 <= window -> last_button_time (edit s) = current_millis ->
  accepted pin prev window current_millis s = false.
Proof.
  intros Hw H. unfold accepted. rewrite H, Z.sub_diag.
  replace (unsigned_long 0 >? window) with false.
  - apply andb_false_r.
  - symmetry. unfold unsigned_long. rewrite Z.mod_0_l by lia.
    rewrite Z.gtb_ltb. apply Z.ltb_ge. exact Hw.
Qed.

Lemma accepted_released (prev : bool) (window current_millis : Z) (s : sketch) :
  accepted true prev window current_millis s = false.
Proof. reflexivity. Qed.

Lemma accepted_held (pin : bool) (window current_millis : Z) (s : sketch) :
  accepted pin false window current_millis s = false.
Proof. unfold accepted. destruct pin; reflexivity. Qed.

(** Each press records its time and leaves the stored levels and the
    start of the gesture. *)
Lemma press_set_latch (current_millis : Z) (s : sketch) :
  last_button_time (edit (press_set current_millis s)) = current_millis
  /\ latch_view (edit (press_set current_millis s)) = latch_view (edit s).
Proof. unfold press_set. efields. split_ifs; split; reflexivity. Qed.

(** The steps of a commit assign the store, the count, the alarm number
    and the shown alarm. *)
Lemma save_current_alarm_edit (s : sketch) :
  edit (save_current_alarm s) = edit s.
Proof. reflexivity. Qed.

Lemma next_alarm_number_shape (s : sketch) :
  next_alarm_number s
  = on_edit (set_current_alarm
               (if current_alarm (edit s) + 1 >? MAX_ALARMS then 1
                else current_alarm (edit s) + 1)) s.
Proof.
  unfold next_alarm_number. efields.
  destruct (current_alarm (edit s) + 1 >? MAX_ALARMS); reflexivity.
Qed.

Lemma extend_total_alarms_edit (s : sketch) :
  edit (extend_total_alarms s) = edit s.
Proof.
  unfold extend_total_alarms.
  destruct (current_alarm (edit s) >? total_alarms (core s)); reflexivity.
Qed.

Lemma commit_edit (s : sketch) :
  edit (on_core findNextBell
          (load_current_alarm
             (extend_total_alarms
                (next_alarm_number (save_current_alarm s)))))
  = set_alarm_time
      (shown_alarm
         (core (extend_total_alarms
                  (next_alarm_number (save_current_alarm s))))
         (if current_alarm (edit s) + 1 >? MAX_ALARMS then 1
          else current_alarm (edit s) + 1))
      (set_current_alarm
         (if current_alarm (edit s) + 1 >? MAX_ALARMS then 1
          else current_alarm (edit s) + 1)
         (edit s)).
Proof.
  unfold load_current_alarm. efields.
  rewrite extend_total_alarms_edit, next_alarm_number_shape. reflexivity.
Qed.

Lemma press_next_latch (current_millis : Z) (s : sketch) :
  last_button_time (edit (press_next current_millis s)) = current_millis
  /\ latch_view (edit (press_next current_millis s)) = latch_view (edit s).
Proof.
  unfold press_next. efields.
  destruct (setMode (edit s) =? 1); [split; reflexivity|].
  destruct (setMode (edit s) =? 3); [|split; reflexivity].
  destruct (Z.rem (field (edit s) + 1) 3 =? 0); [|split; reflexivity].
  rewrite commit_edit. split; reflexivity.
Qed.

Lemma press_up_latch (current_millis : Z) (s : sketch) :
  last_button_time (edit (press_up current_millis s)) = current_millis
  /\ latch_view (edit (press_up current_millis s)) = latch_view (edit s).
Proof.
  unfold press_up, setRTCTime. efields. split_ifs; split; reflexivity.
Qed.

Lemma press_down_latch (current_millis : Z) (s : sketch) :
  last_button_time (edit (press_down current_millis s)) = current_millis
  /\ latch_view (edit (press_down current_millis s)) = latch_view (edit s).
Proof.
  unfold press_down, setRTCTime. efields. split_ifs; split; reflexivity.
Qed.

(** A press neither reads nor writes the stored levels. *)
Lemma on_core_on_edit (f : state -> state) (g : editor -> editor)
      (s : sketch) :
  on_core f (on_edit g s) = on_edit g (on_core f s).
Proof. reflexivity. Qed.

Lemma save_current_alarm_set_prev (b : bool) (s : sketch) :
  save_current_alarm (on_edit (set_btn_set_prev b) s)
  = on_edit (set_btn_set_prev b) (save_current_alarm s).
Proof. reflexivity. Qed.

Lemma next_alarm_number_set_prev (b : bool) (s : sketch) :
  next_alarm_number (on_edit (set_btn_set_prev b) s)
  = on_edit (set_btn_set_prev b) (next_alarm_number s).
Proof. rewrite !next_alarm_number_shape. reflexivity. Qed.

Lemma extend_total_alarms_set_prev (b : bool) (s : sketch) :
  extend_total_alarms (on_edit (set_btn_set_prev b) s)
  = on_edit (set_btn_set_prev b) (extend_total_alarms s).
Proof.
  unfold extend_total_alarms. efields.
  destruct (current_alarm (edit s) >? total_alarms (core s)); reflexivity.
Qed.

Lemma load_current_alarm_set_prev (b : bool) (s : sketch) :
  load_current_alarm (on_edit (set_btn_set_prev b) s)
  = on_edit (set_btn_set_prev b) (load_current_alarm s).
Proof. reflexivity. Qed.

Lemma press_next_set_prev (b : bool) (current_millis : Z) (s : sketch) :
  press_next current_millis (on_edit (set_btn_set_prev b) s)
  = on_edit (set_btn_set_prev b) (press_next current_millis s).
Proof.
  unfold press_next. efields.
  destruct (setMode (edit s) =? 1); [reflexivity|].
  destruct (setMode (edit s) =? 3); [|reflexivity].
  destruct (Z.rem (field (edit s) + 1) 3 =? 0); [|reflexivity].
  change (on_edit (set_field (Z.rem (field (edit s) + 1) 3))
            (on_edit (set_last_button_time current_millis)
               (on_edit (set_btn_set_prev b) s)))
    with (on_edit (set_btn_set_prev b)
            (on_edit (set_field (Z.rem (field (edit s) + 1) 3))
               (on_edit (set_last_button_time current_millis) s))).
  rewrite save_current_alarm_set_prev, next_alarm_number_set_prev,
    extend_total_alarms_set_prev, load_current_alarm_set_prev.
  apply on_core_on_edit.
Qed.

Lemma press_up_set_prev (b : bool) (current_millis : Z) (s : sketch) :
  press_up current_millis (on_edit (set_btn_set_prev b) s)
  = on_edit (set_btn_set_prev b) (press_up current_millis s).
Proof. unfold press_up, setRTCTime. efields. split_ifs; reflexivity. Qed.

Lemma press_up_next_prev (b : bool) (current_millis : Z) (s : sketch) :
  press_up current_millis (on_edit (set_btn_next_prev b) s)
  = on_edit (set_btn_next_prev b) (press_up current_millis s).
Proof. unfold press_up, setRTCTime. efields. split_ifs; reflexivity. Qed.

Lemma press_down_set_prev (b : bool) (current_millis : Z) (s : sketch) :
  press_down current_millis (on_edit (set_btn_set_prev b) s)
  = on_edit (set_btn_set_prev b) (press_down current_millis s).
Proof. unfold press_down, setRTCTime. efields. split_ifs; reflexivity. Qed.

Lemma press_down_next_prev (b : bool) (current_millis : Z) (s : sketch) :
  press_down current_millis (on_edit (set_btn_next_prev b) s)
  = on_edit (set_btn_next_prev b) (press_down current_millis s).
Proof. unfold press_down, setRTCTime. efields. split_ifs; reflexivity. Qed.

Lemma press_down_up_prev (b : bool) (current_millis : Z) (s : sketch) :
  press_down current_millis (on_edit (set_btn_up_prev b) s)
  = on_edit (set_btn_up_prev b) (press_down current_millis s).
Proof. unfold press_down, setRTCTime. efields. split_ifs; reflexivity. Qed.

(** After an accepted press the blocks of the other buttons only store
    their levels. *)
Lemma handle_next_just_pressed (pins : buttons) (current_millis : Z)
      (s : sketch) :
  last_button_time (edit s) = current_millis ->
  handle_next pins current_millis s
  = on_edit (set_btn_next_prev (bt_next pins)) s.
Proof.
  intros H. unfold handle_next.
  rewrite accepted_just_pressed by (first [lia | exact H]). reflexivity.
Qed.

Lemma handle_up_just_pressed (pins : buttons) (current_millis : Z)
      (s : sketch) :
  last_button_time (edit s) = current_millis ->
  handle_up pins current_millis s = on_edit (set_btn_up_prev (bt_up pins)) s.
Proof.
  intros H. unfold handle_up.
  rewrite accepted_just_pressed by (first [lia | exact H]). reflexivity.
Qed.

Lemma handle_down_just_pressed (pins : buttons) (current_millis : Z)
      (s : sketch) :
  last_button_time (edit s) = current_millis ->
  handle_down pins current_millis s
  = on_edit (set_btn_down_prev (bt_down pins)) s.
Proof.
  intros H. unfold handle_down.
  rewrite accepted_just_pressed by (first [lia | exact H]). reflexivity.
Qed.

(** [handleButtons] as its first accepted press, the stored levels and the
    reset gesture. *)
Lemma handleButtons_first_press (pins : buttons) (current_millis : Z)
        (s : sketch) :
  handleButtons pins current_millis s
  = reset_gesture pins current_millis
      (on_edit (latch_pins pins) (first_press pins current_millis s)).
Proof.
  unfold handleButtons, first_press. f_equal.
  unfold handle_set at 1.
  destruct (accepted (bt_set pins) (btn_set_prev (edit s)) 300
              current_millis s) eqn:Eset.
  { destruct (press_set_latch current_millis s) as [Ht _].
    rewrite handle_next_just_pressed by exact Ht.
    rewrite handle_up_just_pressed by exact Ht.
    rewrite handle_down_just_pressed by exact Ht.
    reflexivity. }
  unfold handle_next at 1.
  change (accepted (bt_next pins)
            (btn_next_prev (edit (on_edit (set_btn_set_prev (bt_set pins)) s)))
            300 current_millis (on_edit (set_btn_set_prev (bt_set pins)) s))
    with (accepted (bt_next pins) (btn_next_prev (edit s)) 300
            current_millis s).
  destruct (accepted (bt_next pins) (btn_next_prev (edit s)) 300
              current_millis s) eqn:Enext.
  { destruct (press_next_latch current_millis s) as [Ht _].
    rewrite press_next_set_prev.
    rewrite handle_up_just_pressed by exact Ht.
    rewrite handle_down_just_pressed by exact Ht.
    reflexivity. }
  unfold handle_up at 1.
  change (accepted (bt_up pins)
            (btn_up_prev
               (edit (on_edit (set_btn_next_prev (bt_next pins))
                        (on_edit (set_btn_set_prev (bt_set pins)) s))))
            200 current_millis
            (on_edit (set_btn_next_prev (bt_next pins))
               (on_edit (set_btn_set_prev (bt_set pins)) s)))
    with (accepted (bt_up pins) (btn_up_prev (edit s)) 200 current_millis s).
  destruct (accepted (bt_up pins) (btn_up_prev (edit s)) 200
              current_millis s) eqn:Eup.
  { destruct (press_up_latch current_millis s) as [Ht _].
    rewrite press_up_next_prev, press_up_set_prev.
    rewrite handle_down_just_pressed by exact Ht.
    reflexivity. }
  unfold handle_down.
  change (accepted (bt_down pins)
            (btn_down_prev
               (edit (on_edit (set_btn_up_prev (bt_up pins))
                        (on_edit (set_btn_next_prev (bt_next pins))
                           (on_edit (set_btn_set_prev (bt_set pins)) s)))))
            200 current_millis
            (on_edit (set_btn_up_prev (bt_up pins))
               (on_edit (set_btn_next_prev (bt_next pins))
                  (on_edit (set_btn_set_prev (bt_set pins)) s))))
    with (accepted (bt_down pins) (btn_down_prev (edit s)) 200
            current_millis s).
  destruct (accepted (bt_down pins) (btn_down_prev (edit s)) 200
              current_millis s) eqn:Edown.
  { rewrite press_down_up_prev, press_down_next_prev, press_down_set_prev.
    reflexivity. }
  reflexivity.
Qed.

(** X5: [handleButtons] acts on one press at most: the first accepted one in
    the order SET, NEXT, UP, DOWN; an accepted press sets
    [last_button_time] to the time of the call, which fails the tests of
    the buttons after it.  The four levels are stored and the reset
    gesture is examined in every call. *)
Theorem handleButtons_one_press (pins : buttons) (current_millis : Z)
        (s : sketch) :
  handleButtons pins current_millis s
  = reset_gesture pins current_millis
      (on_edit (latch_pins pins) (first_press pins current_millis s)).
Proof. exact (handleButtons_first_press pins current_millis s). Qed.

(** ** The buttons released *)

Lemma first_press_released (current_millis : Z) (s : sketch) :
  first_press released current_millis s = s.
Proof. reflexivity. Qed.

Lemma handleButtons_released (current_millis : Z) (s : sketch) :
  handleButtons released current_millis s
  = on_edit (fun e => set_reset_start_time 0 (latch_pins released e)) s.
Proof. rewrite handleButtons_first_press. reflexivity. Qed.

Lemma loop_cursor_view (current_millis : Z) (e : editor) :
  edit_view (loop_cursor current_millis e) = edit_view e
  /\ latch_view (loop_cursor current_millis e) = latch_view e
  /\ last_button_time (loop_cursor current_millis e) = last_button_time e
  /\ rtc_set (loop_cursor current_millis e) = rtc_set e.
Proof.
  unfold loop_cursor.
  destruct (setMode e >? 0);
    [destruct (unsigned_long (current_millis - cursor_blink_time e) >=? 500)|];
    repeat split.
Qed.

(** X6: With the four buttons released in every iteration, the scheduling
    variables go through the iterations of [loop] alone and the editor
    keeps its mode, field and alarm: [handleButtons] stores the levels and
    clears the start of the gesture, nothing else. *)
Theorem released_buttons_run (ticks : list (RtcDateTime * Z * buttons * Z))
        (s : sketch) :
  Forall (fun t => snd (fst t) = released) ticks ->
  core (run_buttons ticks s)
  = run (map (fun t => (fst (fst (fst t)), snd (fst (fst t)))) ticks) (core s)
  /\ edit_view (edit (run_buttons ticks s)) = edit_view (edit s)
  /\ rtc_set (edit (run_buttons ticks s)) = rtc_set (edit s).
Proof.
  revert s. induction ticks as [|[[[now current_millis] pins] button_millis]
                                  ticks IH]; intros s Hrel.
  - repeat split.
  - apply Forall_cons in Hrel. destruct Hrel as [Hpins Hrel].
    cbn [fst snd] in Hpins. subst pins.
    cbn [run_buttons run map fold_left fst snd].
    fold (run_buttons ticks
            (loop_buttons now current_millis released button_millis s)).
    fold (run (map (fun t => (fst (fst (fst t)), snd (fst (fst t)))) ticks)
              (loop now current_millis (core s))).
    destruct (IH (loop_buttons now current_millis released button_millis s)
                Hrel) as (Hc & He & Hr).
    rewrite Hc, He, Hr. clear Hc He Hr IH.
    unfold loop_buttons. rewrite handleButtons_released.
    destruct (loop_cursor_view current_millis
                (set_reset_start_time 0 (latch_pins released (edit s))))
      as (Hv & _ & _ & Hrs).
    efields. rewrite Hv, Hrs. repeat split.
Qed.

(** Three iterations with the buttons released over the duplicate table. *)
Lemma released_buttons_run_witness :
  Forall (fun t : RtcDateTime * Z * buttons * Z => snd (fst t) = released)
         released_ticks
  /\ core (run_buttons released_ticks (mkSketch duplicates editor_on))
     = run (map (fun t : RtcDateTime * Z * buttons * Z =>
                   (fst (fst (fst t)), snd (fst (fst t)))) released_ticks)
           (core (mkSketch duplicates editor_on)).
Proof.
  assert (H : Forall (fun t : RtcDateTime * Z * buttons * Z =>
                        snd (fst t) = released) released_ticks).
  { unfold released_ticks.
    repeat (apply Forall_cons; split; [reflexivity|]). apply Forall_nil.
    exact I. }
  split; [exact H|].
  exact (proj1 (released_buttons_run released_ticks
                  (mkSketch duplicates editor_on) H)).
Defined.

(** ** The invariant under the buttons *)

Lemma rem_range (x n : Z) : 0 <= x -> 0 < n -> 0 <= Z.rem x n < n.
Proof. intros Hx Hn. apply Z.rem_bound_pos; assumption. Qed.

Lemma saveAlarm_bell (index hour minute : Z) (st : state) :
  bell_view (saveAlarm index hour minute st) = bell_view st
  /\ alarms_triggered_today (saveAlarm index hour minute st)
     = alarms_triggered_today st.
Proof. rewrite saveAlarm_shape. split; reflexivity. Qed.

Lemma relay_follows_bell_ext (st1 st2 : state) :
  bell_view st1 = bell_view st2 ->
  relay_follows_bell st2 -> relay_follows_bell st1.
Proof.
  unfold bell_view, relay_follows_bell. intros H [Hr Hl].
  injection H as Ha _ Hr' Hl'. split; congruence.
Qed.

Lemma sketch_ok_on_edit (g : editor -> editor) (s : sketch) :
  (setMode (g (edit s)), field (g (edit s)), current_alarm (g (edit s)))
  = (setMode (edit s), field (edit s), current_alarm (edit s)) ->
  sketch_ok s -> sketch_ok (on_edit g s).
Proof.
  intros Hv (Hc & He & Hr). split; [exact Hc|]. split; [|exact Hr].
  unfold editor_ok in *. efields.
  injection Hv as Hm Hf Ha. rewrite Hm, Hf, Ha. exact He.
Qed.

Lemma press_set_ok (current_millis : Z) (s : sketch) :
  sketch_ok s -> sketch_ok (press_set current_millis s).
Proof.
  intros (Hc & (Hm & Hf & Ha) & Hr).
  pose proof (rem_range (setMode (edit s) + 1) 5) as Hrem.
  unfold press_set. efields.
  destruct (Z.rem (setMode (edit s) + 1) 5 =? 3);
    [destruct (total_alarms (core s) >? 0)|];
    (split; [exact Hc|]; split; [|exact Hr]);
    unfold editor_ok; efields; unfold MAX_ALARMS in *; lia.
Qed.

Lemma save_current_alarm_ok (s : sketch) :
  sketch_ok s -> sketch_ok (save_current_alarm s).
Proof.
  intros (Hc & He & Hr). unfold save_current_alarm.
  destruct (saveAlarm_bell (current_alarm (edit s) - 1) (alarm_hour (edit s))
              (alarm_minute (edit s)) (core s)) as [Hb _].
  split; [|split; [exact He|]]; efields.
  - apply config_ok_saveAlarm; [|exact Hc].
    destruct He as (_ & _ & Ha). lia.
  - apply (relay_follows_bell_ext _ _ Hb). exact Hr.
Qed.

Lemma next_alarm_number_ok (s : sketch) :
  sketch_ok s -> sketch_ok (next_alarm_number s).
Proof.
  intros (Hc & (Hm & Hf & Ha) & Hr). rewrite next_alarm_number_shape.
  split; [exact Hc|]. split; [|exact Hr].
  unfold editor_ok. efields. unfold MAX_ALARMS in *.
  destruct (Z.ltb_spec 30 (current_alarm (edit s) + 1));
    rewrite Z.gtb_ltb;
    destruct (Z.ltb_spec 30 (current_alarm (edit s) + 1)); lia.
Qed.

Lemma extend_total_alarms_ok (s : sketch) :
  sketch_ok s -> sketch_ok (extend_total_alarms s).
Proof.
  intros (Hc & He & Hr). unfold extend_total_alarms.
  destruct (current_alarm (edit s) >? total_alarms (core s)); efields;
    [|split; [exact Hc | split; [exact He | exact Hr]]].
  split; [|split; [exact He | exact Hr]]. efields.
  apply config_ok_total_alarms; [exact Hc|].
  destruct He as (_ & _ & Ha). lia.
Qed.

Lemma load_current_alarm_ok (s : sketch) :
  sketch_ok s -> sketch_ok (load_current_alarm s).
Proof. apply sketch_ok_on_edit. reflexivity. Qed.

Lemma findNextBell_ok (s : sketch) :
  sketch_ok s -> sketch_ok (on_core findNextBell s).
Proof.
  intros (Hc & He & Hr). split; [|split; [exact He|]]; efields.
  - apply config_ok_findNextBell. exact Hc.
  - apply relay_follows_bell_findNextBell. exact Hr.
Qed.

Lemma set_field_ok (f : Z) (s : sketch) :
  0 <= f <= 2 -> sketch_ok s -> sketch_ok (on_edit (set_field f) s).
Proof.
  intros Hf (Hc & (Hm & _ & Ha) & Hr).
  split; [exact Hc|]. split; [|exact Hr]. unfold editor_ok. efields. lia.
Qed.

Lemma press_next_ok (current_millis : Z) (s : sketch) :
  sketch_ok s -> sketch_ok (press_next current_millis s).
Proof.
  intros Hok.
  assert (Hok1 : sketch_ok (on_edit (set_last_button_time current_millis) s))
    by (apply sketch_ok_on_edit; [reflexivity | exact Hok]).
  destruct Hok as (_ & (_ & Hf & _) & _).
  pose proof (rem_range (field (edit s) + 1) 2) as Hr2.
  pose proof (rem_range (field (edit s) + 1) 3) as Hr3.
  unfold press_next. efields.
  destruct (setMode (edit s) =? 1);
    [apply set_field_ok; [lia | exact Hok1]|].
  destruct (setMode (edit s) =? 3); [|exact Hok1].
  assert (Hok2 : sketch_ok
                   (on_edit (set_field (Z.rem (field (edit s) + 1) 3))
                      (on_edit (set_last_button_time current_millis) s)))
    by (apply set_field_ok; [lia | exact Hok1]).
  destruct (Z.rem (field (edit s) + 1) 3 =? 0); [|exact Hok2].
  apply findNextBell_ok, load_current_alarm_ok, extend_total_alarms_ok,
    next_alarm_number_ok, save_current_alarm_ok. exact Hok2.
Qed.

(** The core functions of the UP and DOWN bodies keep the invariant. *)
Lemma sketch_ok_on_core (f : state -> state) (s : sketch) :
  (config_ok (core s) -> config_ok (f (core s))) ->
  bell_view (f (core s)) = bell_view (core s) ->
  sketch_ok s -> sketch_ok (on_core f s).
Proof.
  intros Hf Hb (Hc & He & Hr). split; [|split; [exact He|]]; efields.
  - apply Hf. exact Hc.
  - apply (relay_follows_bell_ext _ _ Hb). exact Hr.
Qed.

Lemma findNextBell_bell (st : state) :
  bell_view (findNextBell st) = bell_view st.
Proof.
  destruct (findNextBell_shape st) as (h & m & b & E). rewrite E. reflexivity.
Qed.

Lemma set_clock_ok (h m sec d : Z) (s : sketch) :
  sketch_ok s -> sketch_ok (on_core (set_clock h m sec d) s).
Proof.
  apply sketch_ok_on_core; [|reflexivity].
  apply config_ok_ext; reflexivity.
Qed.

Lemma set_day_ok (d : Z) (s : sketch) :
  sketch_ok s ->
  sketch_ok (on_core (fun st => findNextBell
                                  (set_clock (hh st) (mm st) (ss st) d st)) s).
Proof.
  apply sketch_ok_on_core.
  - intros Hc. apply config_ok_findNextBell.
    revert Hc. apply config_ok_ext; reflexivity.
  - rewrite findNextBell_bell. reflexivity.
Qed.

Lemma set_duration_ok (v : Z) (s : sketch) :
  MIN_BELL_DURATION <= v <= MAX_BELL_DURATION ->
  sketch_ok s ->
  sketch_ok (on_core (fun st => EEPROM_write BELL_DURATION_ADDR v
                                  (set_bell_duration v st)) s).
Proof.
  intros Hv. apply sketch_ok_on_core; [|reflexivity].
  intros Hc. apply config_ok_bell_duration; assumption.
Qed.

Lemma set_weekend_ok (v : Z) (s : sketch) :
  1 <= v <= 7 ->
  sketch_ok s ->
  sketch_ok (on_core (fun st => findNextBell
                                  (EEPROM_write WEEKEND_DAY_ADDR v
                                     (set_weekend v st))) s).
Proof.
  intros Hv. apply sketch_ok_on_core.
  - intros Hc. apply config_ok_findNextBell, config_ok_weekend; assumption.
  - rewrite findNextBell_bell. reflexivity.
Qed.

Lemma set_number_ok (a : Z) (hm : Z * Z) (s : sketch) :
  1 <= a <= MAX_ALARMS ->
  sketch_ok s ->
  sketch_ok (on_edit (fun e => set_alarm_time hm (set_current_alarm a e)) s).
Proof.
  intros Ha (Hc & (Hm & Hf & _) & Hr).
  split; [exact Hc|]. split; [|exact Hr]. unfold editor_ok. efields. lia.
Qed.

Lemma setRTCTime_ok (s : sketch) : sketch_ok s -> sketch_ok (setRTCTime s).
Proof. apply sketch_ok_on_edit. reflexivity. Qed.

Lemma press_up_ok (current_millis : Z) (s : sketch) :
  sketch_ok s -> sketch_ok (press_up current_millis s).
Proof.
  intros Hok.
  assert (Hok1 : sketch_ok (on_edit (set_last_button_time current_millis) s))
    by (apply sketch_ok_on_edit; [reflexivity | exact Hok]).
  destruct Hok as ((_ & _ & (Hd & _) & (Hw & _) & _) & (_ & _ & Ha) & _).
  unfold MIN_BELL_DURATION, MAX_BELL_DURATION, MAX_ALARMS in *.
  unfold press_up. efields.
  destruct (setMode (edit s) =? 0); [apply set_day_ok; exact Hok1|].
  destruct (setMode (edit s) =? 1).
  { apply findNextBell_ok, setRTCTime_ok.
    destruct (field (edit s) =? 0); apply set_clock_ok; exact Hok1. }
  destruct (setMode (edit s) =? 2).
  { apply set_duration_ok; [|exact Hok1].
    unfold MIN_BELL_DURATION, MAX_BELL_DURATION. rewrite Z.gtb_ltb.
    destruct (Z.ltb_spec 99 (bell_duration (core s) + 1)); lia. }
  destruct (setMode (edit s) =? 3).
  { destruct (field (edit s) =? 0).
    { apply set_number_ok; [|exact Hok1]. unfold MAX_ALARMS.
      rewrite Z.gtb_ltb.
      destruct (Z.ltb_spec 30 (current_alarm (edit s) + 1)); lia. }
    destruct (field (edit s) =? 1);
      [apply sketch_ok_on_edit; [reflexivity | exact Hok1]|].
    destruct (field (edit s) =? 2);
      [apply sketch_ok_on_edit; [reflexivity | exact Hok1] | exact Hok1]. }
  destruct (setMode (edit s) =? 4); [|exact Hok1].
  apply set_weekend_ok; [|exact Hok1]. rewrite Z.gtb_ltb.
  destruct (Z.ltb_spec 7 (weekend (core s) + 1)); lia.
Qed.

Lemma press_down_ok (current_millis : Z) (s : sketch) :
  sketch_ok s -> sketch_ok (press_down current_millis s).
Proof.
  intros Hok.
  assert (Hok1 : sketch_ok (on_edit (set_last_button_time current_millis) s))
    by (apply sketch_ok_on_edit; [reflexivity | exact Hok]).
  destruct Hok as ((_ & _ & (Hd & _) & (Hw & _) & _) & (_ & _ & Ha) & _).
  unfold MIN_BELL_DURATION, MAX_BELL_DURATION, MAX_ALARMS in *.
  unfold press_down. efields.
  destruct (setMode (edit s) =? 0); [apply set_day_ok; exact Hok1|].
  destruct (setMode (edit s) =? 1).
  { apply findNextBell_ok, setRTCTime_ok.
    destruct (field (edit s) =? 0); apply set_clock_ok; exact Hok1. }
  destruct (setMode (edit s) =? 2).
  { apply set_duration_ok; [|exact Hok1].
    unfold MIN_BELL_DURATION, MAX_BELL_DURATION.
    destruct (Z.ltb_spec (bell_duration (core s) - 1) 1); lia. }
  destruct (setMode (edit s) =? 3).
  { destruct (field (edit s) =? 0).
    { apply set_number_ok; [|exact Hok1]. unfold MAX_ALARMS.
      destruct (Z.ltb_spec (current_alarm (edit s) - 1) 1); lia. }
    destruct (field (edit s) =? 1);
      [apply sketch_ok_on_edit; [reflexivity | exact Hok1]|].
    destruct (field (edit s) =? 2);
      [apply sketch_ok_on_edit; [reflexivity | exact Hok1] | exact Hok1]. }
  destruct (setMode (edit s) =? 4); [|exact Hok1].
  apply set_weekend_ok; [|exact Hok1].
  destruct (Z.ltb_spec (weekend (core s) - 1) 1); lia.
Qed.

Lemma first_press_ok (pins : buttons) (current_millis : Z) (s : sketch) :
  sketch_ok s -> sketch_ok (first_press pins current_millis s).
Proof.
  intros Hok. unfold first_press.
  destruct (accepted _ _ 300 current_millis s);
    [apply press_set_ok; exact Hok|].
  destruct (accepted _ _ 300 current_millis s);
    [apply press_next_ok; exact Hok|].
  destruct (accepted _ _ 200 current_millis s);
    [apply press_up_ok; exact Hok|].
  destruct (accepted _ _ 200 current_millis s);
    [apply press_down_ok; exact Hok | exact Hok].
Qed.

Lemma reset_gesture_ok (pins : buttons) (current_millis : Z) (s : sketch) :
  sketch_ok s -> sketch_ok (reset_gesture pins current_millis s).
Proof.
  intros Hok. unfold reset_gesture.
  destruct (negb (bt_set pins) && negb (bt_next pins));
    [|apply sketch_ok_on_edit; [reflexivity | exact Hok]].
  destruct (reset_start_time (edit s) =? 0);
    [apply sketch_ok_on_edit; [reflexivity | exact Hok]|].
  destruct (unsigned_long (current_millis - reset_start_time (edit s))
            >? 5000); [|exact Hok].
  apply sketch_ok_on_edit; [reflexivity|].
  destruct Hok as (Hc & He & Hr). split; [|split; [exact He|]]; efields.
  - apply config_ok_resetAllAlarms. exact Hc.
  - apply relay_follows_bell_resetAllAlarms.
Qed.

Lemma handleButtons_ok (pins : buttons) (current_millis : Z) (s : sketch) :
  sketch_ok s -> sketch_ok (handleButtons pins current_millis s).
Proof.
  intros Hok. rewrite handleButtons_first_press.
  apply reset_gesture_ok, sketch_ok_on_edit; [reflexivity|].
  apply first_press_ok. exact Hok.
Qed.

Lemma loop_buttons_ok (now : RtcDateTime) (current_millis : Z)
      (pins : buttons) (button_millis : Z) (s : sketch) :
  sketch_ok s ->
  sketch_ok (loop_buttons now current_millis pins button_millis s).
Proof.
  intros Hok. unfold loop_buttons.
  apply sketch_ok_on_edit.
  { destruct (loop_cursor_view current_millis
                (edit (handleButtons pins button_millis
                         (on_core (loop now current_millis) s))))
      as (Hv & _). unfold edit_view in Hv. congruence. }
  apply handleButtons_ok.
  destruct Hok as (Hc & He & Hr). split; [|split; [exact He|]]; efields.
  - apply config_ok_loop. exact Hc.
  - apply relay_follows_bell_loop. exact Hr.
Qed.

Lemma boot_ok (now : RtcDateTime) (e : list Z) :
  holds_table e -> byte_cells e -> sketch_ok (boot now e).
Proof.
  intros Hlen Hbytes.
  destruct (setup_config_ok now e Hlen Hbytes) as (Hc & Hr & _).
  split; [exact Hc|]. split; [|exact Hr].
  unfold boot, editor_ok, editor_on, MAX_ALARMS.
  cbn [edit setMode field current_alarm]. lia.
Qed.

Lemma run_buttons_ok (ticks : list (RtcDateTime * Z * buttons * Z))
      (s : sketch) :
  sketch_ok s -> sketch_ok (run_buttons ticks s).
Proof.
  revert s.
  induction ticks as [|[[[now current_millis] pins] button_millis] ticks IH];
    intros s H0; [exact H0|].
  cbn [run_buttons fold_left fst snd]. apply IH.
  apply loop_buttons_ok. exact H0.
Qed.

Lemma byte_cells_forallb (e : list Z) :
  forallb (fun b => (0 <=? b) && (b <? 256)) e = true -> byte_cells e.
Proof.
  intros Hall. unfold byte_cells. apply Forall_forall. intros b Hin.
  apply list_elem_of_In in Hin.
  rewrite forallb_forall in Hall. apply Hall in Hin.
  apply andb_true_iff in Hin. destruct Hin as [H1 H2].
  apply Z.leb_le in H1. apply Z.ltb_lt in H2. lia.
Qed.

(** X7: After [setup] on any store of bytes that holds the table, and after
    any sequence of iterations with any button levels, the settings are
    in their domains and equal to their cells, the alarm count is at most
    30 (every index of the scans is inside the array of flags), the mode,
    the field and the alarm number of the editor are in their ranges, and
    the relay and the bell LED are on exactly while a session is. *)
Theorem sketch_invariant (now : RtcDateTime) (e : list Z)
        (ticks : list (RtcDateTime * Z * buttons * Z)) :
  holds_table e -> byte_cells e ->
  sketch_ok (run_buttons ticks (boot now e)).
Proof.
  intros Hlen Hbytes. apply run_buttons_ok, boot_ok; assumption.
Qed.

(** The entry of one alarm after a first boot, button by button. *)
Lemma sketch_invariant_witness :
  holds_table erased /\ byte_cells erased
  /\ sketch_ok (run_buttons one_alarm_entry (boot (at_time 1 7 0 0) erased)).
Proof.
  assert (Hlen : holds_table erased) by (vm_compute; discriminate).
  assert (Hb : byte_cells erased)
    by (apply byte_cells_forallb; vm_compute; reflexivity).
  split; [exact Hlen|]. split; [exact Hb|].
  apply (sketch_invariant (at_time 1 7 0 0) erased one_alarm_entry Hlen Hb).
Defined.

(** ** Committing an alarm *)

Lemma press_next_commit_eq (current_millis : Z) (s : sketch) :
  setMode (edit s) = 3 -> field (edit s) = 2 ->
  press_next current_millis s
  = on_core findNextBell
      (load_current_alarm
         (extend_total_alarms
            (next_alarm_number
               (save_current_alarm
                  (on_edit (set_field 0)
                     (on_edit (set_last_button_time current_millis) s)))))).
Proof.
  intros Hm Hf. unfold press_next. efields. rewrite Hm, Hf. reflexivity.
Qed.

(** The count after the steps of a commit. *)
Lemma extend_total_alarms_core (s : sketch) :
  core (extend_total_alarms s)
  = if current_alarm (edit s) >? total_alarms (core s) then
      EEPROM_write ALARM_COUNT_ADDR (current_alarm (edit s))
        (set_total_alarms (current_alarm (edit s)) (core s))
    else core s.
Proof.
  unfold extend_total_alarms.
  destruct (current_alarm (edit s) >? total_alarms (core s)); reflexivity.
Qed.

Lemma readAlarm_findNextBell (st : state) (i : Z) :
  readAlarm (findNextBell st) i = readAlarm st i.
Proof.
  apply readAlarm_ext.
  destruct (findNextBell_shape st) as (h & m & b & E). rewrite E. reflexivity.
Qed.

(** Raising the count leaves the cells of the table. *)
Lemma readAlarm_raise_total (v : Z) (st : state) (i : Z) :
  0 <= i < v ->
  readAlarm (EEPROM_write ALARM_COUNT_ADDR v (set_total_alarms v st)) i
  = (EEPROM.read (eeprom st) (ALARM_DATA_START + i * 2),
     EEPROM.read (eeprom st) (ALARM_DATA_START + i * 2 + 1)).
Proof.
  intros Hi. rewrite readAlarm_in_range by (fields; lia). fields.
  rewrite !read_write_ne by addr. reflexivity.
Qed.

(** X8: NEXT on the minute of alarm number [a] (mode 3, field 2): slot [a-1]
    reads as the bytes of the edited alarm and the other slots of the
    table as before; the number moves to [a+1], from 30 to 1, and the
    field to 0; the count becomes the larger of the old count and [a+1]
    (30 at most), so that committing the last alarm of the table, or one
    beyond it, takes slot [a] into the table with the cells it holds; the
    editor shows the stored alarm of the new number. *)
Theorem commit_alarm (current_millis : Z) (s : sketch) :
  sketch_ok s ->
  setMode (edit s) = 3 -> field (edit s) = 2 ->
  let a := current_alarm (edit s) in
  let a' := if a <? MAX_ALARMS then a + 1 else 1 in
  let s' := press_next current_millis s in
  readAlarm (core s') (a - 1)
  = (uint8_t (alarm_hour (edit s)), uint8_t (alarm_minute (edit s)))
  /\ (forall j, 0 <= j < total_alarms (core s) -> j <> a - 1 ->
                readAlarm (core s') j = readAlarm (core s) j)
  /\ (setMode (edit s') = 3 /\ field (edit s') = 0
      /\ current_alarm (edit s') = a')
  /\ total_alarms (core s')
     = Z.max (total_alarms (core s)) (Z.min (a + 1) MAX_ALARMS)
  /\ EEPROM.read (eeprom (core s')) ALARM_COUNT_ADDR = total_alarms (core s')
  /\ (total_alarms (core s) <= a < MAX_ALARMS ->
      readAlarm (core s') a
      = (EEPROM.read (eeprom (core s)) (ALARM_DATA_START + a * 2),
         EEPROM.read (eeprom (core s)) (ALARM_DATA_START + a * 2 + 1)))
  /\ (alarm_hour (edit s'), alarm_minute (edit s'))
     = readAlarm (core s') (a' - 1).
Proof.
  intros Hok Hm Hf a a' s'.
  assert (Hok' : sketch_ok s').
  { apply press_next_ok. exact Hok. }
  destruct Hok as ((Hlen & _ & _ & _ & (Ht & Hsync) & _) & (_ & _ & Ha) & _).
  fold a in Ha. unfold MAX_ALARMS in *.
  pose proof (press_next_commit_eq current_millis s Hm Hf) as E.
  fold s' in E.
  set (s0 := on_edit (set_field 0)
               (on_edit (set_last_button_time current_millis) s)) in E.
  set (c1 := saveAlarm (a - 1) (alarm_hour (edit s)) (alarm_minute (edit s))
               (core s)).
  assert (Hi : 0 <= a - 1 < MAX_ALARMS) by (unfold MAX_ALARMS; lia).
  assert (Ht1 : total_alarms c1 = Z.max (total_alarms (core s)) a).
  { unfold c1. rewrite saveAlarm_total by exact Hi.
    destruct (a - 1 >=? total_alarms (core s)) eqn:Eg.
    - rewrite Z.geb_le in Eg. lia.
    - rewrite Z.geb_leb in Eg. apply Z.leb_gt in Eg. lia. }
  destruct (saveAlarm_cells (a - 1) (alarm_hour (edit s))
              (alarm_minute (edit s)) (core s) Hi Hlen) as [Hch Hcm].
  cbv zeta in Hch, Hcm. fold c1 in Hch, Hcm.
  assert (Hc1other : forall x, 0 <= x -> x <> ALARM_COUNT_ADDR ->
            x <> ALARM_DATA_START + (a - 1) * 2 ->
            x <> ALARM_DATA_START + (a - 1) * 2 + 1 ->
            EEPROM.read (eeprom c1) x = EEPROM.read (eeprom (core s)) x).
  { intros x Hx H12 Hx1 Hx2. unfold c1.
    apply saveAlarm_other_cells; assumption. }
  (* the number after the commit *)
  assert (Ea' : (if a + 1 >? 30 then 1 else a + 1) = a').
  { unfold a', MAX_ALARMS. rewrite Z.gtb_ltb.
    destruct (Z.ltb_spec 30 (a + 1)); destruct (Z.ltb_spec a 30); lia. }
  assert (Hs1 : next_alarm_number (save_current_alarm s0)
                = on_edit (set_current_alarm a') (on_core (fun _ => c1) s0)).
  { rewrite next_alarm_number_shape. unfold save_current_alarm, MAX_ALARMS.
    unfold s0. efields. fold a. rewrite Ea'. reflexivity. }
  (* the core after the commit *)
  set (c2 := if a' >? total_alarms c1 then
               EEPROM_write ALARM_COUNT_ADDR a' (set_total_alarms a' c1)
             else c1).
  assert (Hc2 : core (extend_total_alarms
                        (next_alarm_number (save_current_alarm s0))) = c2).
  { rewrite extend_total_alarms_core, Hs1. reflexivity. }
  assert (Hcore : core s' = findNextBell c2).
  { rewrite E. unfold load_current_alarm. efields. rewrite Hc2. reflexivity. }
  assert (Hedit : edit s'
                  = set_alarm_time (shown_alarm c2 a')
                      (set_current_alarm a' (edit s0))).
  { rewrite E, commit_edit, Hc2. unfold s0. efields. fold a.
    unfold MAX_ALARMS. rewrite Ea'. reflexivity. }
  assert (Ha' : 1 <= a' <= 30).
  { unfold a', MAX_ALARMS. destruct (Z.ltb_spec a 30); lia. }
  assert (Ht2 : total_alarms c2 = Z.max (total_alarms (core s)) (Z.min (a + 1) 30)).
  { unfold c2. rewrite Z.gtb_ltb.
    destruct (Z.ltb_spec (total_alarms c1) a'); fields;
      unfold a', MAX_ALARMS in *; destruct (Z.ltb_spec a 30); lia. }
  assert (Hr2 : forall i, 0 <= i < total_alarms c2 ->
            readAlarm c2 i
            = (EEPROM.read (eeprom c1) (ALARM_DATA_START + i * 2),
               EEPROM.read (eeprom c1) (ALARM_DATA_START + i * 2 + 1))).
  { intros i Hi2. revert Hi2. unfold c2. rewrite Z.gtb_ltb.
    destruct (Z.ltb_spec (total_alarms c1) a'); intros Hi2.
    - apply readAlarm_raise_total. revert Hi2. fields. trivial.
    - apply readAlarm_in_range. exact Hi2. }
  assert (Hro : forall i, readAlarm (core s') i = readAlarm c2 i)
    by (intros i; rewrite Hcore; apply readAlarm_findNextBell).
  assert (Hso : settings_view (core s') = settings_view c2).
  { rewrite Hcore. destruct (findNextBell_shape c2) as (h & m & b & Ef).
    rewrite Ef. reflexivity. }
  unfold settings_view in Hso. injection Hso as Heo _ _ Hto.
  rewrite Hedit, Heo, Hto, !Hro. clearbody s'.
  split.
  { rewrite Hr2 by lia. rewrite Hch, Hcm. reflexivity. }
  split.
  { intros j Hj Hne. rewrite Hro, Hr2 by lia.
    rewrite readAlarm_in_range by lia.
    rewrite !Hc1other by addr. reflexivity. }
  split; [unfold s0; efields; auto|].
  split; [exact Ht2|].
  split.
  { unfold c2. rewrite Z.gtb_ltb.
    destruct (Z.ltb_spec (total_alarms c1) a'); fields.
    - rewrite read_write_cell; [reflexivity | | addr | lia].
      unfold holds_table, c1. rewrite length_saveAlarm. exact Hlen.
    - unfold c1. apply saveAlarm_count_synced; assumption. }
  split.
  { intros Hlast. rewrite Hr2 by lia. rewrite !Hc1other by addr.
    reflexivity. }
  unfold set_alarm_time. efields. unfold shown_alarm.
  destruct (Z.leb_spec a' (total_alarms c2)) as [Hle | Hgt];
    [destruct (readAlarm c2 (a' - 1)); reflexivity|].
  exfalso. unfold a', MAX_ALARMS in *. destruct (Z.ltb_spec a 30); lia.
Qed.

(** The commit of alarm #1, 08:00, on the empty zeroed table of a first
    boot: the table has two alarms, the second one 00:00. *)
Lemma commit_alarm_witness :
  (edit_view (edit at_alarm_minute) = (3, 2, 1, 8, 0)
   /\ total_alarms (core at_alarm_minute) = 0)
  /\ readAlarm (core (press_next 3501 at_alarm_minute))
       (current_alarm (edit at_alarm_minute) - 1)
     = (uint8_t (alarm_hour (edit at_alarm_minute)),
        uint8_t (alarm_minute (edit at_alarm_minute)))
  /\ readAlarm (core (press_next 3501 at_alarm_minute)) 0 = (8, 0)
  /\ total_alarms (core (press_next 3501 at_alarm_minute)) = 2
  /\ readAlarm (core (press_next 3501 at_alarm_minute)) 1 = (0, 0).
Proof.
  assert (Hok : sketch_ok at_alarm_minute).
  { apply run_buttons_ok, boot_ok.
    - vm_compute. discriminate.
    - apply byte_cells_forallb. vm_compute. reflexivity. }
  assert (Hm : setMode (edit at_alarm_minute) = 3)
    by (vm_compute; reflexivity).
  assert (Hf : field (edit at_alarm_minute) = 2)
    by (vm_compute; reflexivity).
  split; [vm_compute; split; reflexivity|].
  split; [exact (proj1 (commit_alarm 3501 at_alarm_minute Hok Hm Hf))|].
  vm_compute. repeat split.
Defined.

(** ** The mode button *)

Lemma press_set_mode (current_millis : Z) (s : sketch) :
  setMode (edit (press_set current_millis s))
  = Z.rem (setMode (edit s) + 1) 5
  /\ field (edit (press_set current_millis s)) = 0
  /\ core (press_set current_millis s) = core s.
Proof.
  unfold press_set. efields.
  destruct (Z.rem (setMode (edit s) + 1) 5 =? 3);
    [destruct (total_alarms (core s) >? 0)|]; repeat split.
Qed.

(** X9: An accepted SET press: the mode goes from 0 to 4 and back to 0, the
    field to 0, and no scheduling variable changes; on entering the alarm
    mode the editor shows alarm #1, the stored one or 08:00 on an empty
    table, and otherwise its alarm is kept; five presses give the mode
    back. *)
Theorem set_button_cycles (t1 t2 t3 t4 t5 : Z) (s : sketch) :
  0 <= setMode (edit s) <= 4 ->
  let s' := press_set t1 s in
  core s' = core s
  /\ setMode (edit s') = (setMode (edit s) + 1) mod 5
  /\ field (edit s') = 0
  /\ (setMode (edit s') = 3 ->
      current_alarm (edit s') = 1
      /\ (alarm_hour (edit s'), alarm_minute (edit s'))
         = if total_alarms (core s) >? 0 then readAlarm (core s) 0
           else (8, 0))
  /\ (setMode (edit s') <> 3 ->
      (current_alarm (edit s'), alarm_hour (edit s'), alarm_minute (edit s'))
      = (current_alarm (edit s), alarm_hour (edit s), alarm_minute (edit s)))
  /\ setMode (edit (press_set t5 (press_set t4 (press_set t3
                                                   (press_set t2 s')))))
     = setMode (edit s).
Proof.
  intros Hm s'.
  destruct (press_set_mode t1 s) as (Em & Ef & Ec). fold s' in Em, Ef, Ec.
  assert (Erem : Z.rem (setMode (edit s) + 1) 5 = (setMode (edit s) + 1) mod 5)
    by (apply Z.rem_mod_nonneg; lia).
  split; [exact Ec|]. split; [congruence|]. split; [exact Ef|].
  split; [|split].
  - intros H3. rewrite Em in H3. apply Z.eqb_eq in H3.
    unfold s', press_set. efields. rewrite H3.
    destruct (total_alarms (core s) >? 0); efields;
      [destruct (readAlarm (core s) 0)|]; split; reflexivity.
  - intros H3. rewrite Em in H3. apply Z.eqb_neq in H3.
    unfold s', press_set. efields. rewrite H3. reflexivity.
  - destruct (press_set_mode t2 s') as (E2 & _).
    destruct (press_set_mode t3 (press_set t2 s')) as (E3 & _).
    destruct (press_set_mode t4 (press_set t3 (press_set t2 s'))) as (E4 & _).
    destruct (press_set_mode t5
                (press_set t4 (press_set t3 (press_set t2 s')))) as (E5 & _).
    rewrite E5, E4, E3, E2, Em.
    assert (Hcases : setMode (edit s) = 0 \/ setMode (edit s) = 1
                     \/ setMode (edit s) = 2 \/ setMode (edit s) = 3
                     \/ setMode (edit s) = 4) by lia.
    destruct Hcases as [-> | [-> | [-> | [-> | ->]]]]; reflexivity.
Qed.

(** From the time mode to the alarm mode and around. *)
Lemma set_button_cycles_witness :
  let s := mkSketch duplicates
             (set_setMode 2 editor_on) in
  let s' := press_set 1000 s in
  setMode (edit s') = 3
  /\ current_alarm (edit s') = 1
  /\ (alarm_hour (edit s'), alarm_minute (edit s')) = (8, 0)
  /\ setMode (edit (press_set 3000 (press_set 2500 (press_set 2000
                                                      (press_set 1500 s')))))
     = 2.
Proof.
  cbv zeta.
  assert (Hm : 0 <= setMode (edit (mkSketch duplicates
                                     (set_setMode 2 editor_on))) <= 4)
    by (vm_compute; split; discriminate).
  pose proof (set_button_cycles 1000 1500 2000 2500 3000 _ Hm) as H.
  cbv zeta in H. destruct H as (_ & _ & _ & _ & _ & H5).
  split; [vm_compute; reflexivity|]. split; [vm_compute; reflexivity|].
  split; [vm_compute; reflexivity|]. exact H5.
Defined.

(** ** The reset gesture *)

Lemma first_press_held (pins : buttons) (current_millis : Z) (s : sketch) :
  btn_set_prev (edit s) = false -> btn_next_prev (edit s) = false ->
  bt_up pins = true -> bt_down pins = true ->
  first_press pins current_millis s = s.
Proof.
  intros Hs Hn Hu Hd. unfold first_press.
  rewrite Hs, Hn, Hu, Hd, !accepted_held, !accepted_released. reflexivity.
Qed.

Lemma first_press_latch (pins : buttons) (current_millis : Z) (s : sketch) :
  latch_view (edit (first_press pins current_millis s)) = latch_view (edit s).
Proof.
  unfold first_press.
  destruct (accepted _ _ 300 current_millis s);
    [apply press_set_latch|].
  destruct (accepted _ _ 300 current_millis s);
    [apply press_next_latch|].
  destruct (accepted _ _ 200 current_millis s);
    [apply press_up_latch|].
  destruct (accepted _ _ 200 current_millis s);
    [apply press_down_latch | reflexivity].
Qed.

(** X10: SET and NEXT held, as they were at the call before, and UP and DOWN
    released: no press is acted on; the first such call with the start of
    the gesture at 0 records the time; later calls change nothing until
    more than 5000 ms have passed since, and the first call after that
    runs [resetAllAlarms] and clears the start.  Whatever the buttons, a
    call with SET or NEXT released clears the start. *)
Theorem reset_gesture_held (current_millis : Z) (s : sketch) :
  btn_set_prev (edit s) = false -> btn_next_prev (edit s) = false ->
  let s' := handleButtons set_and_next current_millis s in
  let t0 := reset_start_time (edit s) in
  edit_view (edit s') = edit_view (edit s)
  /\ (t0 = 0 ->
      core s' = core s /\ reset_start_time (edit s') = current_millis)
  /\ (t0 <> 0 -> unsigned_long (current_millis - t0) <= 5000 ->
      core s' = core s /\ reset_start_time (edit s') = t0)
  /\ (t0 <> 0 -> 5000 < unsigned_long (current_millis - t0) ->
      core s' = resetAllAlarms (core s) /\ reset_start_time (edit s') = 0)
  /\ (forall pins t s0,
        bt_set pins = true \/ bt_next pins = true ->
        reset_start_time (edit (handleButtons pins t s0)) = 0).
Proof.
  intros Hs Hn s' t0.
  assert (E : s' = reset_gesture set_and_next current_millis
                     (on_edit (latch_pins set_and_next) s)).
  { unfold s'. rewrite handleButtons_first_press.
    rewrite first_press_held by (assumption || reflexivity). reflexivity. }
  clearbody s'. subst s'. unfold reset_gesture. efields.
  change (reset_start_time (latch_pins set_and_next (edit s))) with t0.
  split; [|split; [|split; [|split]]].
  - destruct (t0 =? 0); [reflexivity|].
    destruct (unsigned_long (current_millis - t0) >? 5000); reflexivity.
  - intros H0. rewrite H0. split; reflexivity.
  - intros H0 Hle. apply Z.eqb_neq in H0. rewrite H0.
    destruct (unsigned_long (current_millis - t0) >? 5000) eqn:Eg;
      [rewrite Z.gtb_ltb in Eg; apply Z.ltb_lt in Eg; lia|].
    split; reflexivity.
  - intros H0 Hgt. apply Z.eqb_neq in H0. rewrite H0.
    destruct (unsigned_long (current_millis - t0) >? 5000) eqn:Eg;
      [split; reflexivity|].
    rewrite Z.gtb_ltb in Eg. apply Z.ltb_ge in Eg. lia.
  - intros pins t s0 Hrel. rewrite handleButtons_first_press.
    unfold reset_gesture.
    destruct (negb (bt_set pins) && negb (bt_next pins)) eqn:Eb;
      [|reflexivity].
    apply andb_true_iff in Eb. destruct Eb as [E1 E2].
    apply negb_true_iff in E1, E2. destruct Hrel; congruence.
Qed.

(** SET and NEXT held since 10000 ms over the duplicate table: at
    15001 ms the alarms are reset. *)
Lemma reset_gesture_held_witness :
  (btn_set_prev (edit held_since_10000) = false
   /\ btn_next_prev (edit held_since_10000) = false
   /\ reset_start_time (edit held_since_10000) = 10000)
  /\ core (handleButtons set_and_next 15000 held_since_10000)
     = core held_since_10000
  /\ core (handleButtons set_and_next 15001 held_since_10000)
     = resetAllAlarms (core held_since_10000).
Proof.
  pose proof (reset_gesture_held 15000 held_since_10000 eq_refl eq_refl) as H1.
  pose proof (reset_gesture_held 15001 held_since_10000 eq_refl eq_refl) as H2.
  cbv zeta in H1, H2.
  destruct H1 as (_ & _ & H1 & _). destruct H2 as (_ & _ & _ & H2 & _).
  split; [repeat split|].
  split.
  - apply H1; vm_compute; congruence.
  - apply H2; vm_compute; congruence.
Defined.

(** ** UP and DOWN, mode by mode *)

Lemma press_up_mode0 (t : Z) (s : sketch) :
  setMode (edit s) = 0 ->
  press_up t s
  = on_core (fun st => findNextBell
                         (set_clock (hh st) (mm st) (ss st)
                            (if set_day (core s) + 1 >? 7 then 1
                             else set_day (core s) + 1) st))
      (on_edit (set_last_button_time t) s).
Proof. intros H. unfold press_up. efields. rewrite H. reflexivity. Qed.

Lemma press_down_mode0 (t : Z) (s : sketch) :
  setMode (edit s) = 0 ->
  press_down t s
  = on_core (fun st => findNextBell
                         (set_clock (hh st) (mm st) (ss st)
                            (if set_day (core s) - 1 <? 1 then 7
                             else set_day (core s) - 1) st))
      (on_edit (set_last_button_time t) s).
Proof. intros H. unfold press_down. efields. rewrite H. reflexivity. Qed.

Lemma press_up_mode1 (t : Z) (s : sketch) :
  setMode (edit s) = 1 ->
  press_up t s
  = on_core findNextBell
      (setRTCTime
         (on_core
            (if field (edit s) =? 0
             then set_clock (Z.rem (hh (core s) + 1) 24) (mm (core s))
                    (ss (core s)) (set_day (core s))
             else set_clock (hh (core s)) (Z.rem (mm (core s) + 1) 60)
                    (ss (core s)) (set_day (core s)))
            (on_edit (set_last_button_time t) s))).
Proof.
  intros H. unfold press_up. efields. rewrite H. cbn [Z.eqb].
  destruct (field (edit s) =? 0); reflexivity.
Qed.

Lemma press_down_mode1 (t : Z) (s : sketch) :
  setMode (edit s) = 1 ->
  press_down t s
  = on_core findNextBell
      (setRTCTime
         (on_core
            (if field (edit s) =? 0
             then set_clock (if hh (core s) - 1 <? 0 then 23
                             else hh (core s) - 1) (mm (core s))
                    (ss (core s)) (set_day (core s))
             else set_clock (hh (core s))
                    (if mm (core s) - 1 <? 0 then 59 else mm (core s) - 1)
                    (ss (core s)) (set_day (core s)))
            (on_edit (set_last_button_time t) s))).
Proof.
  intros H. unfold press_down. efields. rewrite H. cbn [Z.eqb].
  destruct (field (edit s) =? 0); reflexivity.
Qed.

Lemma press_up_mode2 (t : Z) (s : sketch) :
  setMode (edit s) = 2 ->
  press_up t s
  = on_core (fun st =>
               EEPROM_write BELL_DURATION_ADDR
                 (if bell_duration (core s) + 1 >? MAX_BELL_DURATION
                  then MIN_BELL_DURATION else bell_duration (core s) + 1)
                 (set_bell_duration
                    (if bell_duration (core s) + 1 >? MAX_BELL_DURATION
                     then MIN_BELL_DURATION else bell_duration (core s) + 1)
                    st))
      (on_edit (set_last_button_time t) s).
Proof. intros H. unfold press_up. efields. rewrite H. reflexivity. Qed.

Lemma press_down_mode2 (t : Z) (s : sketch) :
  setMode (edit s) = 2 ->
  press_down t s
  = on_core (fun st =>
               EEPROM_write BELL_DURATION_ADDR
                 (if bell_duration (core s) - 1 <? MIN_BELL_DURATION
                  then MAX_BELL_DURATION else bell_duration (core s) - 1)
                 (set_bell_duration
                    (if bell_duration (core s) - 1 <? MIN_BELL_DURATION
                     then MAX_BELL_DURATION else bell_duration (core s) - 1)
                    st))
      (on_edit (set_last_button_time t) s).
Proof. intros H. unfold press_down. efields. rewrite H. reflexivity. Qed.

Lemma press_up_mode3 (t : Z) (s : sketch) :
  setMode (edit s) = 3 ->
  press_up t s
  = on_edit
      (fun e =>
         if field (edit s) =? 0 then
           set_alarm_time
             (shown_alarm (core s)
                (if current_alarm (edit s) + 1 >? MAX_ALARMS then 1
                 else current_alarm (edit s) + 1))
             (set_current_alarm
                (if current_alarm (edit s) + 1 >? MAX_ALARMS then 1
                 else current_alarm (edit s) + 1) e)
         else if field (edit s) =? 1 then
           set_alarm_time (Z.rem (alarm_hour (edit s) + 1) 24,
                           alarm_minute (edit s)) e
         else if field (edit s) =? 2 then
           set_alarm_time (alarm_hour (edit s),
                           Z.rem (alarm_minute (edit s) + 1) 60) e
         else e)
      (on_edit (set_last_button_time t) s).
Proof.
  intros H. unfold press_up. efields. rewrite H. cbn [Z.eqb].
  destruct (field (edit s) =? 0); [reflexivity|].
  destruct (field (edit s) =? 1); [reflexivity|].
  destruct (field (edit s) =? 2); reflexivity.
Qed.

Lemma press_down_mode3 (t : Z) (s : sketch) :
  setMode (edit s) = 3 ->
  press_down t s
  = on_edit
      (fun e =>
         if field (edit s) =? 0 then
           set_alarm_time
             (shown_alarm (core s)
                (if current_alarm (edit s) - 1 <? 1 then MAX_ALARMS
                 else current_alarm (edit s) - 1))
             (set_current_alarm
                (if current_alarm (edit s) - 1 <? 1 then MAX_ALARMS
                 else current_alarm (edit s) - 1) e)
         else if field (edit s) =? 1 then
           set_alarm_time (if alarm_hour (edit s) - 1 <? 0 then 23
                           else alarm_hour (edit s) - 1,
                           alarm_minute (edit s)) e
         else if field (edit s) =? 2 then
           set_alarm_time (alarm_hour (edit s),
                           if alarm_minute (edit s) - 1 <? 0 then 59
                           else alarm_minute (edit s) - 1) e
         else e)
      (on_edit (set_last_button_time t) s).
Proof.
  intros H. unfold press_down. efields. rewrite H. cbn [Z.eqb].
  destruct (field (edit s) =? 0); [reflexivity|].
  destruct (field (edit s) =? 1); [reflexivity|].
  destruct (field (edit s) =? 2); reflexivity.
Qed.

Lemma press_up_mode4 (t : Z) (s : sketch) :
  setMode (edit s) = 4 ->
  press_up t s
  = on_core (fun st =>
               findNextBell
                 (EEPROM_write WEEKEND_DAY_ADDR
                    (if weekend (core s) + 1 >? 7 then 1
                     else weekend (core s) + 1)
                    (set_weekend
                       (if weekend (core s) + 1 >? 7 then 1
                        else weekend (core s) + 1) st)))
      (on_edit (set_last_button_time t) s).
Proof. intros H. unfold press_up. efields. rewrite H. reflexivity. Qed.

Lemma press_down_mode4 (t : Z) (s : sketch) :
  setMode (edit s) = 4 ->
  press_down t s
  = on_core (fun st =>
               findNextBell
                 (EEPROM_write WEEKEND_DAY_ADDR
                    (if weekend (core s) - 1 <? 1 then 7
                     else weekend (core s) - 1)
                    (set_weekend
                       (if weekend (core s) - 1 <? 1 then 7
                        else weekend (core s) - 1) st)))
      (on_edit (set_last_button_time t) s).
Proof. intros H. unfold press_down. efields. rewrite H. reflexivity. Qed.

(** ** The manual change of day *)

(** X11: UP or DOWN in the normal mode moves [set_day] one day on or back,
    between 1 and 7, recomputes the next bell and leaves the flags; the
    clock is not set, so that the next valid reading of the clock, still
    on the former day, is a change of day: the day is back and the flags
    of the day and [lastBellMinute] are cleared. *)
Theorem manual_day_change (t : Z) (s : sketch) (now : RtcDateTime) :
  setMode (edit s) = 0 ->
  1 <= set_day (core s) <= 7 ->
  IsValid now = true -> DayOfWeek now + 1 = set_day (core s) ->
  let d := set_day (core s) in
  (set_day (core (press_up t s)) = (if d <? 7 then d + 1 else 1)
   /\ set_day (core (press_down t s)) = (if 1 <? d then d - 1 else 7))
  /\ (trigger_view (core (press_up t s)) = trigger_view (core s)
      /\ trigger_view (core (press_down t s)) = trigger_view (core s))
  /\ (rtc_set (edit (press_up t s)) = rtc_set (edit s)
      /\ rtc_set (edit (press_down t s)) = rtc_set (edit s))
  /\ (forall s', s' = press_up t s \/ s' = press_down t s ->
        let st2 := updateTimeFromRTC now (core s') in
        set_day st2 = d
        /\ (forall i, i < MAX_ALARMS -> triggered st2 i = false)
        /\ lastBellMinute st2 = -1).
Proof.
  intros Hm Hd Hv Hday d.
  rewrite (press_up_mode0 t s Hm), (press_down_mode0 t s Hm). efields.
  fold d.
  set (du := if d + 1 >? 7 then 1 else d + 1).
  set (dd := if d - 1 <? 1 then 7 else d - 1).
  assert (Hdu : du = if d <? 7 then d + 1 else 1).
  { unfold du. rewrite Z.gtb_ltb.
    destruct (Z.ltb_spec 7 (d + 1)); destruct (Z.ltb_spec d 7); lia. }
  assert (Hdd : dd = if 1 <? d then d - 1 else 7).
  { unfold dd.
    destruct (Z.ltb_spec (d - 1) 1); destruct (Z.ltb_spec 1 d); lia. }
  assert (Hdu' : du <> d).
  { rewrite Hdu. destruct (Z.ltb_spec d 7); unfold d in *; lia. }
  assert (Hdd' : dd <> d).
  { rewrite Hdd. destruct (Z.ltb_spec 1 d); unfold d in *; lia. }
  assert (Hshape : forall x,
            exists h m b,
              findNextBell
                (set_clock (hh (core s)) (mm (core s)) (ss (core s)) x (core s))
              = set_next_bell_found b
                  (set_next_bell h m
                     (set_clock (hh (core s)) (mm (core s)) (ss (core s)) x
                        (core s)))).
  { intros x. apply findNextBell_shape. }
  destruct (Hshape du) as (hu & mu & bu & Eu).
  destruct (Hshape dd) as (hd & md & bd & Ed).
  rewrite Eu, Ed.
  split; [split; [exact Hdu | exact Hdd]|].
  split; [split; reflexivity|]. split; [split; reflexivity|].
  intros s' [-> | ->]; cbv zeta; efields.
  - rewrite Eu. rewrite updateTimeFromRTC_new_day
      by (fields; first [exact Hv | fold d in Hday; lia]).
    unfold triggered. fields.
    split; [exact Hday|]. split; [|reflexivity].
    intros i Hi. apply cleared_false. exact Hi.
  - rewrite Ed. rewrite updateTimeFromRTC_new_day
      by (fields; first [exact Hv | fold d in Hday; lia]).
    unfold triggered. fields.
    split; [exact Hday|]. split; [|reflexivity].
    intros i Hi. apply cleared_false. exact Hi.
Qed.

(** UP in the normal mode after the bell of 08:00, and the next reading
    of the Monday. *)
Lemma manual_day_change_witness :
  (triggered (core rung_duplicates) 0 = true
   /\ set_day (core rung_duplicates) = 2)
  /\ (let st2 := updateTimeFromRTC (at_time 1 8 1 1)
                   (core (press_up 3661000 rung_duplicates)) in
      set_day st2 = set_day (core rung_duplicates)
      /\ (forall i, i < MAX_ALARMS -> triggered st2 i = false)
      /\ lastBellMinute st2 = -1).
Proof.
  assert (Hm : setMode (edit rung_duplicates) = 0) by reflexivity.
  assert (Hd : 1 <= set_day (core rung_duplicates) <= 7)
    by (vm_compute; split; discriminate).
  assert (Hday : DayOfWeek (at_time 1 8 1 1) + 1
                 = set_day (core rung_duplicates))
    by (vm_compute; reflexivity).
  pose proof (manual_day_change 3661000 rung_duplicates (at_time 1 8 1 1)
                Hm Hd eq_refl Hday) as H.
  cbv zeta in H. destruct H as (_ & _ & _ & H).
  split; [vm_compute; split; reflexivity|].
  exact (H (press_up 3661000 rung_duplicates) (or_introl eq_refl)).
Defined.

(** ** UP and then DOWN *)

Lemma findNextBell_views (st : state) :
  settings_view (findNextBell st) = settings_view st
  /\ clock_view (findNextBell st) = clock_view st
  /\ trigger_view (findNextBell st) = trigger_view st
  /\ bell_view (findNextBell st) = bell_view st.
Proof.
  destruct (findNextBell_shape st) as (h & m & b & E). rewrite E.
  repeat split.
Qed.

(** Writing back the value a cell held before another write restores the
    store. *)
Lemma write_back (e : list Z) (a v w : Z) :
  holds_table e -> 0 <= a < ALARM_DATA_START -> 0 <= v < 256 ->
  EEPROM.read e a = v ->
  EEPROM.write a v (EEPROM.write a w e) = e.
Proof.
  intros Hlen Ha Hv Hr. unfold EEPROM.write, EEPROM.read in *.
  rewrite list_insert_insert_eq. apply list_insert_id.
  assert (Hlt : (Z.to_nat a < length e)%nat) by addr.
  destruct (lookup_lt_is_Some_2 e (Z.to_nat a) Hlt) as [x Hx].
  rewrite Hx in Hr |- *. simpl in Hr. rewrite uint8_t_id by exact Hv.
  congruence.
Qed.

(** Decides the comparisons of the goal and closes it by arithmetic. *)
Ltac by_cases :=
  rewrite ?Z.gtb_ltb;
  repeat match goal with
         | |- context [?a <? ?b] =>
             lazymatch a with
             | context [if _ then _ else _] => fail
             | _ =>
                 lazymatch b with
                 | context [if _ then _ else _] => fail
                 | _ => destruct (Z.ltb_spec a b)
                 end
             end
         end;
  try lia.

Lemma wrap_day (d : Z) :
  1 <= d <= 7 ->
  (if (if d + 1 >? 7 then 1 else d + 1) - 1 <? 1 then 7
   else (if d + 1 >? 7 then 1 else d + 1) - 1) = d.
Proof. intros H. by_cases. Qed.

Lemma wrap_duration (d : Z) :
  MIN_BELL_DURATION <= d <= MAX_BELL_DURATION ->
  (if (if d + 1 >? MAX_BELL_DURATION then MIN_BELL_DURATION else d + 1) - 1
      <? MIN_BELL_DURATION
   then MAX_BELL_DURATION
   else (if d + 1 >? MAX_BELL_DURATION then MIN_BELL_DURATION else d + 1) - 1)
  = d.
Proof.
  unfold MIN_BELL_DURATION, MAX_BELL_DURATION. intros H. by_cases.
Qed.

Lemma wrap_number (a : Z) :
  1 <= a <= MAX_ALARMS ->
  (if (if a + 1 >? MAX_ALARMS then 1 else a + 1) - 1 <? 1 then MAX_ALARMS
   else (if a + 1 >? MAX_ALARMS then 1 else a + 1) - 1) = a.
Proof. unfold MAX_ALARMS. intros H. by_cases. Qed.

Lemma wrap_weekend (w : Z) :
  1 <= w <= 7 ->
  (if (if w + 1 >? 7 then 1 else w + 1) - 1 <? 1 then 7
   else (if w + 1 >? 7 then 1 else w + 1) - 1) = w.
Proof. intros H. by_cases. Qed.

Lemma wrap_rem (x n : Z) :
  0 < n -> 0 <= x <= n - 1 ->
  (if Z.rem (x + 1) n - 1 <? 0 then n - 1 else Z.rem (x + 1) n - 1) = x.
Proof.
  intros Hn Hx. rewrite Z.rem_mod_nonneg by lia.
  destruct (Z.eq_dec x (n - 1)) as [-> | Hne].
  - replace (n - 1 + 1) with n by lia. rewrite Z.mod_same by lia.
    reflexivity.
  - rewrite Z.mod_small by lia. by_cases.
Qed.

Lemma wrap_hour (h : Z) :
  0 <= h <= 23 ->
  (if Z.rem (h + 1) 24 - 1 <? 0 then 23 else Z.rem (h + 1) 24 - 1) = h.
Proof. intros H. apply (wrap_rem h 24); lia. Qed.

Lemma wrap_minute (m : Z) :
  0 <= m <= 59 ->
  (if Z.rem (m + 1) 60 - 1 <? 0 then 59 else Z.rem (m + 1) 60 - 1) = m.
Proof. intros H. apply (wrap_rem m 60); lia. Qed.

(** X12: UP and then DOWN, both accepted, in any mode and field: the settings
    and the store, the time and the day, the flags and the bell are as
    before, and so are the mode, the field and the alarm number; the
    edited alarm is as before too, except on its number (mode 3, field
    0), where the stored alarm of that number is shown again and an
    unsaved edit is lost.  The values are in their ranges: the day in
    1..7, the hours in 0..23, the minutes in 0..59. *)
Theorem up_down_round_trip (t1 t2 : Z) (s : sketch) :
  sketch_ok s ->
  1 <= set_day (core s) <= 7 ->
  0 <= hh (core s) <= 23 -> 0 <= mm (core s) <= 59 ->
  0 <= alarm_hour (edit s) <= 23 -> 0 <= alarm_minute (edit s) <= 59 ->
  let s' := press_down t2 (press_up t1 s) in
  settings_view (core s') = settings_view (core s)
  /\ clock_view (core s') = clock_view (core s)
  /\ trigger_view (core s') = trigger_view (core s)
  /\ bell_view (core s') = bell_view (core s)
  /\ (setMode (edit s'), field (edit s'), current_alarm (edit s'))
     = (setMode (edit s), field (edit s), current_alarm (edit s))
  /\ (alarm_hour (edit s'), alarm_minute (edit s'))
     = (if (setMode (edit s) =? 3) && (field (edit s) =? 0)
        then shown_alarm (core s) (current_alarm (edit s))
        else (alarm_hour (edit s), alarm_minute (edit s))).
Proof.
  intros ((Hlen & _ & (Hd & Hdc) & (Hw & Hwc) & _) & (Hm & Hf & Ha) & _)
         Hday Hhh Hmm Hah Ham s'.
  assert (Hcases : setMode (edit s) = 0 \/ setMode (edit s) = 1
                   \/ setMode (edit s) = 2 \/ setMode (edit s) = 3
                   \/ setMode (edit s) = 4) by lia.
  destruct Hcases as [E | [E | [E | [E | E]]]]; unfold s'.
  - (* the day *)
    rewrite (press_up_mode0 t1 s E).
    rewrite press_down_mode0 by exact E. efields.
    set (X := findNextBell
                (set_clock (hh (core s)) (mm (core s)) (ss (core s))
                   (if set_day (core s) + 1 >? 7 then 1
                    else set_day (core s) + 1) (core s))).
    destruct (findNextBell_views
                (set_clock (hh (core s)) (mm (core s)) (ss (core s))
                   (if set_day (core s) + 1 >? 7 then 1
                    else set_day (core s) + 1) (core s)))
      as (Hs1 & Hc1 & Ht1 & Hb1).
    fold X in Hs1, Hc1, Ht1, Hb1.
    unfold settings_view, clock_view, trigger_view, bell_view in Hs1, Hc1,
      Ht1, Hb1. fields_in Hs1. fields_in Hc1. fields_in Ht1. fields_in Hb1.
    injection Hs1 as Hs1a Hs1b Hs1c Hs1d. injection Hc1 as Hc1a Hc1b Hc1c Hc1d.
    injection Ht1 as Ht1a Ht1b. injection Hb1 as Hb1a Hb1b Hb1c Hb1d.
    destruct (findNextBell_views
                (set_clock (hh X) (mm X) (ss X)
                   (if set_day X - 1 <? 1 then 7 else set_day X - 1) X))
      as (Hs2 & Hc2 & Ht2 & Hb2).
    rewrite Hs2, Hc2, Ht2, Hb2. rewrite E. cbn [Z.eqb andb].
    unfold settings_view, clock_view, trigger_view, bell_view. fields.
    rewrite Hs1a, Hs1b, Hs1c, Hs1d, Hc1a, Hc1b, Hc1c, Hc1d, Ht1a, Ht1b,
      Hb1a, Hb1b, Hb1c, Hb1d.
    rewrite wrap_day by exact Hday. repeat split.
  - (* the time *)
    rewrite (press_up_mode1 t1 s E).
    rewrite press_down_mode1 by exact E. unfold setRTCTime. efields.
    rewrite E. cbn [Z.eqb andb].
    destruct (field (edit s) =? 0).
    + set (X := findNextBell
                  (set_clock (Z.rem (hh (core s) + 1) 24) (mm (core s))
                     (ss (core s)) (set_day (core s)) (core s))).
      destruct (findNextBell_views
                  (set_clock (Z.rem (hh (core s) + 1) 24) (mm (core s))
                     (ss (core s)) (set_day (core s)) (core s)))
        as (Hs1 & Hc1 & Ht1 & Hb1).
      fold X in Hs1, Hc1, Ht1, Hb1.
      unfold settings_view, clock_view, trigger_view, bell_view in Hs1, Hc1,
        Ht1, Hb1. fields_in Hs1. fields_in Hc1. fields_in Ht1. fields_in Hb1.
      injection Hs1 as Hs1a Hs1b Hs1c Hs1d.
      injection Hc1 as Hc1a Hc1b Hc1c Hc1d.
      injection Ht1 as Ht1a Ht1b. injection Hb1 as Hb1a Hb1b Hb1c Hb1d.
      destruct (findNextBell_views
                  (set_clock (if hh X - 1 <? 0 then 23 else hh X - 1) (mm X)
                     (ss X) (set_day X) X))
        as (Hs2 & Hc2 & Ht2 & Hb2).
      rewrite Hs2, Hc2, Ht2, Hb2.
      unfold settings_view, clock_view, trigger_view, bell_view. fields.
      rewrite Hs1a, Hs1b, Hs1c, Hs1d, Hc1a, Hc1b, Hc1c, Hc1d, Ht1a, Ht1b,
        Hb1a, Hb1b, Hb1c, Hb1d.
      rewrite wrap_hour by exact Hhh. repeat split.
    + set (X := findNextBell
                  (set_clock (hh (core s)) (Z.rem (mm (core s) + 1) 60)
                     (ss (core s)) (set_day (core s)) (core s))).
      destruct (findNextBell_views
                  (set_clock (hh (core s)) (Z.rem (mm (core s) + 1) 60)
                     (ss (core s)) (set_day (core s)) (core s)))
        as (Hs1 & Hc1 & Ht1 & Hb1).
      fold X in Hs1, Hc1, Ht1, Hb1.
      unfold settings_view, clock_view, trigger_view, bell_view in Hs1, Hc1,
        Ht1, Hb1. fields_in Hs1. fields_in Hc1. fields_in Ht1. fields_in Hb1.
      injection Hs1 as Hs1a Hs1b Hs1c Hs1d.
      injection Hc1 as Hc1a Hc1b Hc1c Hc1d.
      injection Ht1 as Ht1a Ht1b. injection Hb1 as Hb1a Hb1b Hb1c Hb1d.
      destruct (findNextBell_views
                  (set_clock (hh X) (if mm X - 1 <? 0 then 59 else mm X - 1)
                     (ss X) (set_day X) X))
        as (Hs2 & Hc2 & Ht2 & Hb2).
      rewrite Hs2, Hc2, Ht2, Hb2.
      unfold settings_view, clock_view, trigger_view, bell_view. fields.
      rewrite Hs1a, Hs1b, Hs1c, Hs1d, Hc1a, Hc1b, Hc1c, Hc1d, Ht1a, Ht1b,
        Hb1a, Hb1b, Hb1c, Hb1d.
      rewrite wrap_minute by exact Hmm. repeat split.
  - (* the bell duration *)
    rewrite (press_up_mode2 t1 s E).
    rewrite press_down_mode2 by exact E. efields.
    rewrite E. cbn [Z.eqb andb].
    unfold settings_view, clock_view, trigger_view, bell_view. fields.
    rewrite wrap_duration by exact Hd.
    rewrite write_back by (first [exact Hlen | exact Hdc | addr]).
    repeat split.
  - (* the alarm *)
    assert (Hfc : field (edit s) = 0 \/ field (edit s) = 1
                  \/ field (edit s) = 2) by lia.
    rewrite (press_up_mode3 t1 s E).
    destruct Hfc as [Ef | [Ef | Ef]]; rewrite Ef; cbn [Z.eqb Pos.eqb];
      (rewrite press_down_mode3 by exact E); efields;
      rewrite E, Ef; cbn [Z.eqb Pos.eqb andb].
    + rewrite wrap_number by exact Ha.
      unfold set_alarm_time. efields.
      destruct (shown_alarm (core s) (current_alarm (edit s))).
      rewrite ?E, ?Ef. repeat split.
    + rewrite wrap_hour by exact Hah. unfold set_alarm_time. efields.
      rewrite ?E, ?Ef. repeat split.
    + rewrite wrap_minute by exact Ham. unfold set_alarm_time. efields.
      rewrite ?E, ?Ef. repeat split.
  - (* the weekend selector *)
    rewrite (press_up_mode4 t1 s E).
    rewrite press_down_mode4 by exact E. efields.
    rewrite E. cbn [Z.eqb andb].
    set (X := findNextBell
                (EEPROM_write WEEKEND_DAY_ADDR
                   (if weekend (core s) + 1 >? 7 then 1
                    else weekend (core s) + 1)
                   (set_weekend
                      (if weekend (core s) + 1 >? 7 then 1
                       else weekend (core s) + 1) (core s)))).
    destruct (findNextBell_views
                (EEPROM_write WEEKEND_DAY_ADDR
                   (if weekend (core s) + 1 >? 7 then 1
                    else weekend (core s) + 1)
                   (set_weekend
                      (if weekend (core s) + 1 >? 7 then 1
                       else weekend (core s) + 1) (core s))))
      as (Hs1 & Hc1 & Ht1 & Hb1).
    fold X in Hs1, Hc1, Ht1, Hb1.
    unfold settings_view, clock_view, trigger_view, bell_view in Hs1, Hc1,
      Ht1, Hb1. fields_in Hs1. fields_in Hc1. fields_in Ht1. fields_in Hb1.
    injection Hs1 as Hs1a Hs1b Hs1c Hs1d.
    injection Hc1 as Hc1a Hc1b Hc1c Hc1d.
    injection Ht1 as Ht1a Ht1b. injection Hb1 as Hb1a Hb1b Hb1c Hb1d.
    destruct (findNextBell_views
                (EEPROM_write WEEKEND_DAY_ADDR
                   (if weekend X - 1 <? 1 then 7 else weekend X - 1)
                   (set_weekend
                      (if weekend X - 1 <? 1 then 7 else weekend X - 1) X)))
      as (Hs2 & Hc2 & Ht2 & Hb2).
    rewrite Hs2, Hc2, Ht2, Hb2.
    unfold settings_view, clock_view, trigger_view, bell_view. fields.
    rewrite Hs1a, Hs1b, Hs1c, Hs1d, Hc1a, Hc1b, Hc1c, Hc1d, Ht1a, Ht1b,
      Hb1a, Hb1b, Hb1c, Hb1d.
    rewrite wrap_weekend by exact Hw.
    rewrite write_back by (first [exact Hlen | exact Hwc | addr]).
    repeat split.
Qed.

(** The duplicate table satisfies the invariant, whatever the editor in
    its ranges. *)
Lemma duplicates_config_ok : config_ok duplicates.
Proof.
  unfold duplicates.
  apply config_ok_findNextBell, config_ok_saveAlarm;
    [vm_compute; split; congruence|].
  apply config_ok_saveAlarm; [vm_compute; split; congruence|].
  apply (setup_config_ok (at_time 1 7 0 0) erased).
  - vm_compute. discriminate.
  - apply byte_cells_forallb. vm_compute. reflexivity.
Qed.

Lemma duplicates_ok (e : editor) :
  editor_ok e -> sketch_ok (mkSketch duplicates e).
Proof.
  intros He. split; [exact duplicates_config_ok|]. split; [exact He|].
  vm_compute. split; reflexivity.
Qed.

(** UP and DOWN on the bell duration of 30 s. *)
Lemma up_down_round_trip_witness :
  bell_duration (core (press_up 1000 duration_mode)) = 31
  /\ settings_view (core (press_down 2000 (press_up 1000 duration_mode)))
     = settings_view (core duration_mode).
Proof.
  assert (Hok : sketch_ok duration_mode).
  { apply duplicates_ok. vm_compute. repeat split; discriminate. }
  split; [vm_compute; reflexivity|].
  apply (up_down_round_trip 1000 2000 duration_mode Hok);
    vm_compute; split; discriminate.
Defined.

(** ** Reboot *)

(** X13: The settings and the alarm table of a state that satisfies the
    invariant are those [setup] loads from its store: a reboot loses
    neither a setting nor an alarm, and writes nothing. *)
Theorem reboot_keeps_settings (now : RtcDateTime) (st : state) :
  config_ok st ->
  let st' := setup now (power_on (eeprom st)) in
  settings_view st' = settings_view st
  /\ (forall i, readAlarm st' i = readAlarm st i).
Proof.
  intros (Hlen & Hflag & (Hd & Hdc) & (Hw & Hwc) & (Ht & Htc) & _) st'.
  assert (Hs : settings_view st' = settings_view st).
  { unfold st'. rewrite setup_settings_view.
    rewrite initializeEEPROM_marked by exact Hflag.
    rewrite setup_settings_spec. cbn [eeprom set_pins power_on].
    rewrite Hdc, Hwc, Htc.
    unfold MIN_BELL_DURATION, MAX_BELL_DURATION, MAX_ALARMS in *.
    rewrite !Z.gtb_ltb.
    destruct (Z.ltb_spec (bell_duration st) 1); [lia|].
    destruct (Z.ltb_spec 99 (bell_duration st)); [lia|].
    destruct (Z.ltb_spec (weekend st) 1); [lia|].
    destruct (Z.ltb_spec 7 (weekend st)); [lia|].
    destruct (Z.ltb_spec 30 (total_alarms st)); [lia|].
    reflexivity. }
  split; [exact Hs|]. intros i. apply readAlarm_ext. exact Hs.
Qed.

(** A reboot over the duplicate table. *)
Lemma reboot_keeps_settings_witness :
  let st' := setup (at_time 2 6 0 0) (power_on (eeprom duplicates)) in
  settings_view st' = settings_view duplicates
  /\ (forall i, readAlarm st' i = readAlarm duplicates i).
Proof.
  exact (reboot_keeps_settings (at_time 2 6 0 0) duplicates
           duplicates_config_ok).
Defined.

(** ** The count-down of the display *)

(** X14: The count-down is [bell_duration - elapsed / 1000] while the whole
    seconds elapsed do not exceed the duration; beyond, the unsigned
    difference wraps to 2^32 minus the excess; the test [remaining < 0]
    never holds, so the count-down is never set to 0 by it. *)
Theorem remaining_unsigned (millis_now : Z) (st : state) :
  0 <= bell_duration st < 4294967296 ->
  let q := elapsed millis_now st / 1000 in
  (q <= bell_duration st ->
   remaining millis_now st = bell_duration st - q)
  /\ (bell_duration st < q ->
      remaining millis_now st = 4294967296 - (q - bell_duration st))
  /\ 0 <= remaining millis_now st < 4294967296.
Proof.
  intros Hd q.
  assert (He : 0 <= elapsed millis_now st < 4294967296)
    by (unfold elapsed, unsigned_long; apply Z.mod_pos_bound; lia).
  assert (Hq : 0 <= q <= 4294967)
    by (unfold q; split;
        [apply Z.div_pos; lia
        | apply Z.lt_succ_r, Z.div_lt_upper_bound; lia]).
  assert (Hr : 0 <= unsigned_long (bell_duration st - q) < 4294967296)
    by (unfold unsigned_long; apply Z.mod_pos_bound; lia).
  assert (E : remaining millis_now st = unsigned_long (bell_duration st - q)).
  { unfold remaining. cbv zeta. fold (elapsed millis_now st). fold q.
    replace (unsigned_long (bell_duration st)) with (bell_duration st)
      by (unfold unsigned_long; symmetry; apply Z.mod_small; exact Hd).
    destruct (Z.ltb_spec (unsigned_long (bell_duration st - q)) 0);
      [lia | reflexivity]. }
  rewrite E.
  split; [|split; [|exact Hr]].
  - intros Hle. unfold unsigned_long. apply Z.mod_small. lia.
  - intros Hlt. unfold unsigned_long.
    replace (bell_duration st - q)
      with (4294967296 - (q - bell_duration st) + (-1) * 4294967296) by lia.
    rewrite Z.mod_add by lia. apply Z.mod_small. lia.
Qed.

(** The bell of 33 s, 34 s after its start. *)
Lemma remaining_unsigned_witness :
  elapsed 3634000 bell_of_33_seconds / 1000 = 34
  /\ remaining 3634000 bell_of_33_seconds = 4294967296 - (34 - 33).
Proof.
  assert (Hd : 0 <= bell_duration bell_of_33_seconds < 4294967296)
    by (vm_compute; split; [discriminate | reflexivity]).
  assert (Hq : elapsed 3634000 bell_of_33_seconds / 1000 = 34)
    by (vm_compute; reflexivity).
  split; [exact Hq|].
  destruct (remaining_unsigned 3634000 bell_of_33_seconds Hd) as (_ & H & _).
  rewrite H by (vm_compute; reflexivity).
  vm_compute. reflexivity.
Defined.

(** ** What the next-bell search announces *)

(** X15: An announced next bell is the stored pair of a slot below the count,
    on a day that is not a weekend day; on such a day with a table that
    is not empty a bell is always announced. *)
Theorem findNextBell_announces_slot (st : state) :
  (forall hm,
      next_bell (findNextBell st) = Some hm ->
      isWeekend st (set_day st) = false
      /\ exists i, 0 <= i < total_alarms st /\ hm = readAlarm st i)
  /\ (isWeekend st (set_day st) = false -> 0 < total_alarms st ->
      exists hm, next_bell (findNextBell st) = Some hm).
Proof.
  split.
  - intros hm. unfold findNextBell.
    cbn [set_day total_alarms set_next_bell_found].
    change (isWeekend (set_next_bell_found false st) (set_day st))
      with (isWeekend st (set_day st)).
    destruct (isWeekend st (set_day st)); [discriminate|].
    destruct (total_alarms st =? 0) eqn:E0; [discriminate|].
    apply Z.eqb_neq in E0. rewrite findNextBell_for_found.
    destruct (findNextBell_for (Z.to_nat (total_alarms st)) 0 st) as [k|] eqn:Ek.
    + apply findNextBell_for_Some in Ek. destruct Ek as (Hk & _).
      change (readAlarm (set_next_bell_found false st) k)
        with (readAlarm st k).
      destruct (readAlarm st k) as [h m] eqn:Er. unfold next_bell. fields.
      intros H. injection H as <-. split; [reflexivity|].
      exists k. split; [lia | symmetry; exact Er].
    + destruct (total_alarms st >? 0) eqn:Eg; [|discriminate].
      rewrite Z.gtb_ltb in Eg. apply Z.ltb_lt in Eg.
      change (readAlarm (set_next_bell_found false st) 0)
        with (readAlarm st 0).
      destruct (readAlarm st 0) as [h m] eqn:Er. unfold next_bell. fields.
      intros H. injection H as <-. split; [reflexivity|].
      exists 0. split; [lia | symmetry; exact Er].
  - intros Hw Hpos. unfold findNextBell.
    cbn [set_day total_alarms set_next_bell_found].
    change (isWeekend (set_next_bell_found false st) (set_day st))
      with (isWeekend st (set_day st)).
    rewrite Hw.
    destruct (total_alarms st =? 0) eqn:E0; [apply Z.eqb_eq in E0; lia|].
    assert (Eg : (total_alarms st >? 0) = true)
      by (rewrite Z.gtb_ltb; apply Z.ltb_lt; exact Hpos).
    rewrite Eg.
    destruct (findNextBell_for _ 0 _) as [k|].
    + destruct (readAlarm _ k) as [h m]. exists (h, m). reflexivity.
    + destruct (readAlarm _ 0) as [h m]. exists (h, m). reflexivity.
Qed.

(** ** What saving an alarm leaves *)

(** X16: [saveAlarm] at an index outside 0..29 does nothing; at an index
    inside it leaves the reading of every other slot of the table, never
    lowers the count, and writes no cell below the table but the count. *)
Theorem saveAlarm_frame (index hour minute : Z) (st : state) :
  (index < 0 \/ MAX_ALARMS <= index -> saveAlarm index hour minute st = st)
  /\ (0 <= index < MAX_ALARMS ->
      (forall j, 0 <= j < total_alarms st -> j <> index ->
                 readAlarm (saveAlarm index hour minute st) j
                 = readAlarm st j)
      /\ total_alarms st <= total_alarms (saveAlarm index hour minute st)
      /\ (forall a, 0 <= a < ALARM_DATA_START -> a <> ALARM_COUNT_ADDR ->
                    EEPROM.read (eeprom (saveAlarm index hour minute st)) a
                    = EEPROM.read (eeprom st) a)).
Proof.
  split.
  - intros Hout. unfold saveAlarm.
    replace ((index <? 0) || (index >=? MAX_ALARMS)) with true; [reflexivity|].
    symmetry. apply orb_true_iff. destruct Hout as [H | H].
    + left. apply Z.ltb_lt. exact H.
    + right. rewrite Z.geb_le. exact H.
  - intros Hi.
    pose proof (saveAlarm_total index hour minute st Hi) as Htot.
    assert (Hmono : total_alarms st
                    <= total_alarms (saveAlarm index hour minute st)).
    { rewrite Htot. destruct (index >=? total_alarms st) eqn:E; [|lia].
      rewrite Z.geb_le in E. lia. }
    split; [|split; [exact Hmono|]].
    + intros j Hj Hne.
      rewrite (readAlarm_in_range st j Hj).
      rewrite readAlarm_in_range by lia.
      rewrite !saveAlarm_other_cells by addr. reflexivity.
    + intros a Ha Hne. apply saveAlarm_other_cells; first [assumption | addr].
Qed.

(** ** What the loop never writes *)


(** ** The duration of a session over the whole domain *)

Lemma bell_millis_effective (st : state) :
  MIN_BELL_DURATION <= bell_duration st <= MAX_BELL_DURATION ->
  bell_millis st = effective_millis (bell_duration st).
Proof.
  unfold MIN_BELL_DURATION, MAX_BELL_DURATION. intros Hd.
  unfold effective_millis.
  destruct (Z.leb_spec (bell_duration st) 32);
    [apply bell_millis_small; lia|].
  destruct (Z.leb_spec (bell_duration st) 65);
    [apply bell_millis_overflow; lia|].
  unfold bell_millis, int, unsigned_long.
  destruct (Z.leb_spec (bell_duration st) 98).
  - replace (bell_duration st * 1000 + 32768)
      with (bell_duration st * 1000 - 32768 + 1 * 65536) by lia.
    rewrite Z.mod_add by lia.
    rewrite (Z.mod_small (bell_duration st * 1000 - 32768)) by lia.
    rewrite Z.mod_small by lia. lia.
  - replace (bell_duration st) with 99 by lia. reflexivity.
Qed.

(** X18: A bell session over the whole domain 1..99 of the duration [d]: the
    stop test compares the elapsed milliseconds with [d * 1000] computed
    as a 16-bit [int]: [d * 1000] up to 32 s, [d * 1000 - 65536] from 66 s
    to 98 s, and more than 4294934000 ms (49 days) from 33 s to 65 s and
    at 99 s.  Below that threshold an iteration keeps the session and the
    relay on, from it on the iteration ends the session and releases the
    relay. *)
Theorem bell_session_effective (now : RtcDateTime) (current_millis : Z)
        (st : state) :
  bellActive st = true ->
  MIN_BELL_DURATION <= bell_duration st <= MAX_BELL_DURATION ->
  let st' := loop now current_millis st in
  (elapsed current_millis st < effective_millis (bell_duration st) ->
   bellActive st' = true /\ relay st' = relay st)
  /\ (effective_millis (bell_duration st) <= elapsed current_millis st ->
      bellActive st' = false /\ relay st' = false).
Proof.
  intros Hon Hd. cbv zeta.
  destruct (bell_session_loop now current_millis st Hon) as [Hlt Hge].
  cbv zeta in Hlt, Hge. rewrite bell_millis_effective in Hlt, Hge by exact Hd.
  split; intros H; [apply Hlt in H | apply Hge in H]; tauto.
Qed.

(** ** A session blocks the scan *)

(** X19: While a session is on, an iteration starts no bell and sets no flag,
    whatever the table and the time: the flags and [lastBellMinute] are
    those after the poll, the start of the session is kept, and the next
    bell is not recomputed. *)
Theorem active_session_blocks_scan (now : RtcDateTime) (current_millis : Z)
        (st : state) :
  bellActive st = true ->
  let st' := loop now current_millis st in
  trigger_view st' = trigger_view (loop_poll now current_millis st)
  /\ (forall i, triggered st' i = true -> triggered st i = true)
  /\ bellStart st' = bellStart st
  /\ next_bell st' = next_bell st.
Proof.
  intros Hon. cbv zeta. rewrite (loop_active now current_millis st Hon).
  pose proof (loop_poll_bell now current_millis st) as Hb.
  set (st1 := loop_poll now current_millis st) in *.
  pose proof (loop_stop_trigger current_millis st1) as Ht.
  split; [exact Ht|]. split; [|split].
  - intros i. unfold triggered. unfold trigger_view in Ht.
    injection Ht as Hfl _. rewrite Hfl.
    destruct (loop_poll_trigger now current_millis st)
      as [E | (_ & _ & _ & E)]; fold st1 in E; unfold trigger_view in E;
      injection E as Efl _; rewrite Efl; [trivial | apply cleared_true].
  - unfold bell_view in Hb. injection Hb as _ Hbs _ _.
    destruct (loop_stop_cases current_millis st1) as [(_ & _ & E) | [_ E]];
      rewrite E; fields; exact Hbs.
  - rewrite loop_stop_next_bell. apply loop_poll_next_bell.
Qed.

(** ** Samples of the last statements *)

(** The out-of-order table at 08:30 of a Monday announces a bell. *)
Lemma findNextBell_announces_slot_witness :
  isWeekend out_of_order_0830 (set_day out_of_order_0830) = false
  /\ 0 < total_alarms out_of_order_0830
  /\ exists hm, next_bell (findNextBell out_of_order_0830) = Some hm.
Proof.
  assert (Hw : isWeekend out_of_order_0830 (set_day out_of_order_0830) = false)
    by (vm_compute; reflexivity).
  assert (Hn : 0 < total_alarms out_of_order_0830)
    by (vm_compute; reflexivity).
  split; [exact Hw|]. split; [exact Hn|].
  exact (proj2 (findNextBell_announces_slot out_of_order_0830) Hw Hn).
Defined.

(** A save at index 30 over the duplicate table, and one at index 1 seen
    from slot 0. *)
Lemma saveAlarm_frame_witness :
  saveAlarm 30 10 30 duplicates = duplicates
  /\ total_alarms duplicates <= total_alarms (saveAlarm 1 10 30 duplicates).
Proof.
  split.
  - apply (proj1 (saveAlarm_frame 30 10 30 duplicates)).
    right. vm_compute. discriminate.
  - apply (proj2 (saveAlarm_frame 1 10 30 duplicates)).
    vm_compute. split; congruence.
Defined.

(** The bell of 33 s, 34 s after its start: still on. *)
Lemma bell_session_effective_witness :
  bellActive bell_of_33_seconds = true
  /\ bell_duration bell_of_33_seconds = 33
  /\ elapsed 3634000 bell_of_33_seconds = 34000
  /\ bellActive (loop (at_time 1 8 0 34) 3634000 bell_of_33_seconds) = true.
Proof.
  assert (Hon : bellActive bell_of_33_seconds = true)
    by (vm_compute; reflexivity).
  assert (Hd : bell_duration bell_of_33_seconds = 33)
    by (vm_compute; reflexivity).
  assert (He : elapsed 3634000 bell_of_33_seconds = 34000)
    by (vm_compute; reflexivity).
  split; [exact Hon|]. split; [exact Hd|]. split; [exact He|].
  apply (bell_session_effective (at_time 1 8 0 34) 3634000
           bell_of_33_seconds Hon).
  - rewrite Hd. vm_compute. split; congruence.
  - rewrite Hd, He. vm_compute. reflexivity.
Defined.

(** The bell of 33 s at 08:00:34: nothing is scanned. *)
Lemma active_session_blocks_scan_witness :
  bellActive bell_of_33_seconds = true
  /\ bellStart (loop (at_time 1 8 0 34) 3634000 bell_of_33_seconds)
     = bellStart bell_of_33_seconds.
Proof.
  assert (Hon : bellActive bell_of_33_seconds = true)
    by (vm_compute; reflexivity).
  split; [exact Hon|].
  apply (active_session_blocks_scan (at_time 1 8 0 34) 3634000
           bell_of_33_seconds Hon).
Defined.

(** ** Writes to the clock *)

Lemma findNextBell_clock (st : state) :
  clock_view (findNextBell st) = clock_view st.
Proof.
  destruct (findNextBell_shape st) as (h & m & b & E). rewrite E. reflexivity.
Qed.

Lemma resetAllAlarms_clock (st : state) :
  clock_view (resetAllAlarms st) = clock_view st.
Proof. rewrite resetAllAlarms_shape. reflexivity. Qed.

Lemma press_set_rtc (t : Z) (s : sketch) :
  rtc_set (edit (press_set t s)) = rtc_set (edit s).
Proof. unfold press_set. efields. split_ifs; reflexivity. Qed.

Lemma press_next_rtc (t : Z) (s : sketch) :
  rtc_set (edit (press_next t s)) = rtc_set (edit s).
Proof.
  unfold press_next. efields.
  destruct (setMode (edit s) =? 1); [reflexivity|].
  destruct (setMode (edit s) =? 3); [|reflexivity].
  destruct (Z.rem (field (edit s) + 1) 3 =? 0); [|reflexivity].
  rewrite commit_edit. reflexivity.
Qed.

Lemma press_up_rtc (t : Z) (s : sketch) :
  rtc_set (edit (press_up t s)) = rtc_set (edit s)
  \/ clock_written s (press_up t s).
Proof.
  destruct (Z.eq_dec (setMode (edit s)) 1) as [H1 | H1].
  - right. rewrite (press_up_mode1 t s H1). unfold clock_written, setRTCTime.
    efields.
    pose proof (findNextBell_clock
                  ((if field (edit s) =? 0
                    then set_clock (Z.rem (hh (core s) + 1) 24) (mm (core s))
                           (ss (core s)) (set_day (core s))
                    else set_clock (hh (core s)) (Z.rem (mm (core s) + 1) 60)
                           (ss (core s)) (set_day (core s))) (core s))) as Hc.
    unfold clock_view in Hc. injection Hc as Hh Hm Hs Hd.
    rewrite Hh, Hm, Hs, Hd.
    destruct (field (edit s) =? 0); fields; repeat split; assumption.
  - left. unfold press_up. efields. apply Z.eqb_neq in H1. rewrite H1.
    split_ifs; reflexivity.
Qed.

Lemma press_down_rtc (t : Z) (s : sketch) :
  rtc_set (edit (press_down t s)) = rtc_set (edit s)
  \/ clock_written s (press_down t s).
Proof.
  destruct (Z.eq_dec (setMode (edit s)) 1) as [H1 | H1].
  - right. rewrite (press_down_mode1 t s H1). unfold clock_written, setRTCTime.
    efields.
    pose proof (findNextBell_clock
                  ((if field (edit s) =? 0
                    then set_clock (if hh (core s) - 1 <? 0 then 23
                                    else hh (core s) - 1) (mm (core s))
                           (ss (core s)) (set_day (core s))
                    else set_clock (hh (core s))
                           (if mm (core s) - 1 <? 0 then 59
                            else mm (core s) - 1)
                           (ss (core s)) (set_day (core s))) (core s))) as Hc.
    unfold clock_view in Hc. injection Hc as Hh Hm Hs Hd.
    rewrite Hh, Hm, Hs, Hd.
    destruct (field (edit s) =? 0); fields; repeat split; assumption.
  - left. unfold press_down. efields. apply Z.eqb_neq in H1. rewrite H1.
    split_ifs; reflexivity.
Qed.

Lemma reset_gesture_clock (pins : buttons) (t : Z) (s : sketch) :
  rtc_set (edit (reset_gesture pins t s)) = rtc_set (edit s)
  /\ setMode (edit (reset_gesture pins t s)) = setMode (edit s)
  /\ clock_view (core (reset_gesture pins t s)) = clock_view (core s).
Proof.
  unfold reset_gesture.
  destruct (negb (bt_set pins) && negb (bt_next pins));
    [|repeat split].
  destruct (reset_start_time (edit s) =? 0); [repeat split|].
  destruct (unsigned_long (t - reset_start_time (edit s)) >? 5000);
    [|repeat split].
  split; [reflexivity|]. split; [reflexivity|].
  efields. apply resetAllAlarms_clock.
Qed.

(** X20: [Rtc.SetDateTime] is reached from [handleButtons] only: in the time
    mode, with UP or DOWN low.  Outside the time mode no call writes the
    clock; a call that writes it stays in the time mode and gives the
    clock the hour and the minute the variables hold after the call, with
    the seconds of the last reading; the day of the week of the sketch is
    not changed by it. *)
Theorem rtc_written_in_time_mode (pins : buttons) (current_millis : Z)
        (s : sketch) :
  let s' := handleButtons pins current_millis s in
  (setMode (edit s) <> 1 -> rtc_set (edit s') = rtc_set (edit s))
  /\ (rtc_set (edit s') <> rtc_set (edit s) ->
      (bt_up pins = false \/ bt_down pins = false)
      /\ clock_written s s').
Proof.
  cbv zeta. rewrite handleButtons_first_press.
  set (s1 := first_press pins current_millis s).
  destruct (reset_gesture_clock pins current_millis
              (on_edit (latch_pins pins) s1)) as (Hr & Hm & Hc).
  unfold clock_view in Hc. injection Hc as Hh Hmi Hs Hd.
  efields_in Hr. efields_in Hm. efields_in Hh. efields_in Hmi.
  efields_in Hs. efields_in Hd.
  assert (Hcases :
            rtc_set (edit s1) = rtc_set (edit s)
            \/ ((bt_up pins = false \/ bt_down pins = false)
                /\ clock_written s s1)).
  { unfold s1, first_press.
    destruct (accepted (bt_set pins) _ 300 current_millis s);
      [left; apply press_set_rtc|].
    destruct (accepted (bt_next pins) _ 300 current_millis s);
      [left; apply press_next_rtc|].
    destruct (accepted (bt_up pins) _ 200 current_millis s) eqn:Eu.
    { destruct (press_up_rtc current_millis s) as [E | E];
        [left; exact E | right].
      split; [left | exact E].
      unfold accepted in Eu. destruct (bt_up pins); [discriminate | reflexivity]. }
    destruct (accepted (bt_down pins) _ 200 current_millis s) eqn:Ed;
      [|left; reflexivity].
    destruct (press_down_rtc current_millis s) as [E | E];
      [left; exact E | right].
    split; [right | exact E].
    unfold accepted in Ed. destruct (bt_down pins); [discriminate | reflexivity]. }
  rewrite Hr. split.
  - intros Hne. destruct Hcases as [E | [_ (H1 & _)]]; [exact E | contradiction].
  - intros Hch. destruct Hcases as [E | [Hp (H1 & H2 & H3 & H4 & H5)]];
      [contradiction|].
    split; [exact Hp|]. unfold clock_written.
    rewrite Hr, Hm, Hh, Hmi, Hs, Hd. repeat split; assumption.
Qed.

(** UP pressed in the time mode of [time_mode], on the hour field. *)
Lemma rtc_written_in_time_mode_witness :
  rtc_set (edit (handleButtons only_up 1000 time_mode))
  <> rtc_set (edit time_mode)
  /\ clock_written time_mode (handleButtons only_up 1000 time_mode).
Proof.
  assert (H : rtc_set (edit (handleButtons only_up 1000 time_mode))
              <> rtc_set (edit time_mode))
    by (vm_compute; discriminate).
  split; [exact H|].
  exact (proj2 (proj2 (rtc_written_in_time_mode only_up 1000 time_mode) H)).
Defined.
